(** * roots.c: the root table, path translation, mounting and formatting

    A shallow embedding of [roots.c] / [roots.h] of the recovery image.
    C strings are [string]s, [const char *] is [cstring] (a possibly NULL
    pointer that is either one of the four canonical marker arrays or an
    ordinary string), [int] results are [Z], [size_t] lengths are [nat]
    (no two strings of one address space can make [mp_len + 1 + rp_len + 1]
    wrap around).  Undefined behaviour of the C program (NULL dereference,
    access outside a buffer) is the outcome [Crash]. *)

From Stdlib Require Import ZArith String Ascii Lia.
From stdpp Require Import base list strings.

Open Scope string_scope.
Open Scope list_scope.
Open Scope Z_scope.
Open Scope nat_scope.

(** ** Outcomes of a C computation *)

Inductive exec (A : Type) : Type :=
| Crash
| Ok (a : A).
Arguments Crash {A}.
Arguments Ok {A} a.

Definition exec_bind {A B} (m : exec A) (k : A -> exec B) : exec B :=
  match m with
  | Crash => Crash
  | Ok a => k a
  end.

Notation "'do?' x <- m ; k" := (exec_bind m (fun x => k))
  (at level 10, x name, m at level 100, k at level 200).

(** ** Pointers to C strings *)

(** The canonical pointers of roots.c are compared by address; every other
    string is a literal (or heap string).  All four canonical arrays start
    with ["@\0"], so read as a C string each of them is ["@"]. *)
Inductive cptr : Type :=
| g_mtd_device
| g_mmc_device
| g_raw
| g_package_file
| Lit (s : string).

#[global] Instance cptr_eq_dec : EqDecision cptr.
Proof. solve_decision. Defined.

(** [None] is the NULL pointer. *)
Abbreviation cstring := (option cptr).

Definition cstr (p : cptr) : string :=
  match p with
  | Lit s => s
  | _ => "@"
  end.

(** [p == marker] on pointers. *)
Definition ptr_is (p : cstring) (marker : cptr) : bool :=
  bool_decide (p = Some marker).

(** ** <string.h> *)

Definition strlen (s : string) : nat := String.length s.

Definition strcmp_eq (a b : string) : bool := String.eqb a b.

(** [strncmp(a, b, n) == 0]. *)
Fixpoint strncmp_eq (a b : string) (n : nat) {struct n} : bool :=
  match n with
  | O => true
  | S n' =>
      match a, b with
      | EmptyString, EmptyString => true
      | String x a', String y b' =>
          if Ascii.eqb x y then strncmp_eq a' b' n' else false
      | _, _ => false
      end
  end.

(** [s + n] followed by a read: past the terminator it leaves the array. *)
Fixpoint advance (s : string) (n : nat) {struct n} : exec string :=
  match n with
  | O => Ok s
  | S n' =>
      match s with
      | EmptyString => Crash
      | String _ s' => advance s' n'
      end
  end.

(** [s[3]] of a string known to have at least three characters. *)
Definition char_at (s : string) (n : nat) : ascii :=
  match String.get n s with
  | Some c => c
  | None => Ascii.zero
  end.

(** ** Destination buffers *)

Abbreviation buffer := (list ascii).

Definition chars (s : string) : list ascii := list_ascii_of_string s.

Definition memcpy (buf : buffer) (off : nat) (src : list ascii) : exec buffer :=
  if decide (off + length src <= length buf)
  then Ok (take off buf ++ src ++ drop (off + length src) buf)
  else Crash.

Definition poke (buf : buffer) (off : nat) (c : ascii) : exec buffer :=
  if decide (off < length buf) then Ok (<[off := c]> buf) else Crash.

Definition peek (buf : buffer) (off : nat) : exec ascii :=
  match buf !! off with
  | Some c => Ok c
  | None => Crash
  end.

(** [strcpy(buf, s)]: the characters and the terminator. *)
Definition strcpy (buf : buffer) (s : string) : exec buffer :=
  memcpy buf 0 (chars s ++ [Ascii.zero]).

(** The C string that starts a buffer, if a terminator is found in it. *)
Fixpoint string_of_buffer (buf : buffer) : option string :=
  match buf with
  | [] => None
  | c :: rest =>
      if Ascii.eqb c Ascii.zero then Some EmptyString
      else String c <$> string_of_buffer rest
  end.

(** ** roots.h *)

Record RootInfo : Type := {
  name : string;
  device : cstring;
  device2 : cstring;
  partition_name : cstring;
  mount_point : cstring;
  filesystem : cstring;
  filesystem_options : cstring
}.

Module FilesystemOptions.
Record t : Type := {
  filesystem : string;
  filesystem_options : string
}.
End FilesystemOptions.

(** The overridable macros of roots.h. *)
Record BoardConfig : Type := {
  SDCARD_DEVICE_PRIMARY : cstring;
  SDCARD_DEVICE_SECONDARY : cstring;
  SDEXT_DEVICE : cstring;
  SDEXT_FILESYSTEM : cstring;
  DATA_DEVICE : cstring;
  DATA_FILESYSTEM : cstring;
  DATADATA_DEVICE : cstring;
  DATADATA_FILESYSTEM : cstring;
  CACHE_DEVICE : cstring;
  CACHE_FILESYSTEM : cstring;
  SYSTEM_DEVICE : cstring;
  SYSTEM_FILESYSTEM : cstring;
  DATA_FILESYSTEM_OPTIONS : cstring;
  CACHE_FILESYSTEM_OPTIONS : cstring;
  DATADATA_FILESYSTEM_OPTIONS : cstring;
  SYSTEM_FILESYSTEM_OPTIONS : cstring
}.

(** The [#ifndef] defaults. *)
Definition default_config : BoardConfig := {|
  SDCARD_DEVICE_PRIMARY := Some (Lit "/dev/block/mmcblk1p1");
  SDCARD_DEVICE_SECONDARY := Some g_mtd_device;
  SDEXT_DEVICE := Some (Lit "/dev/block/mmcblk1p2");
  SDEXT_FILESYSTEM := Some (Lit "auto");
  DATA_DEVICE := Some (Lit "/dev/block/mmcblk0p2");
  DATA_FILESYSTEM := Some (Lit "unknown");
  DATADATA_DEVICE := Some (Lit "/dev/block/stl10");
  DATADATA_FILESYSTEM := Some (Lit "unknown");
  CACHE_DEVICE := Some (Lit "/dev/block/stl11");
  CACHE_FILESYSTEM := Some (Lit "unknown");
  SYSTEM_DEVICE := Some (Lit "/dev/block/stl9");
  SYSTEM_FILESYSTEM := Some (Lit "unknown");
  DATA_FILESYSTEM_OPTIONS := None;
  CACHE_FILESYSTEM_OPTIONS := None;
  DATADATA_FILESYSTEM_OPTIONS := None;
  SYSTEM_FILESYSTEM_OPTIONS := None
|}.

(** ** roots.c: the static tables *)

Definition g_fs_options : list FilesystemOptions.t := [
  {| FilesystemOptions.filesystem := "rfs";
     FilesystemOptions.filesystem_options := "llw,check=no" |};
  {| FilesystemOptions.filesystem := "ext4";
     FilesystemOptions.filesystem_options := "noatime,nodiratime,nodev,data=ordered" |}
].

Definition mkRoot (n : string) (d d2 pn mp fs fso : cstring) : RootInfo :=
  {| name := n; device := d; device2 := d2; partition_name := pn;
     mount_point := mp; filesystem := fs; filesystem_options := fso |}.

Definition str (s : string) : cstring := Some (Lit s).

(** The initial contents of [g_roots]. *)
Definition g_roots_init (cfg : BoardConfig) : list RootInfo := [
  mkRoot "CACHE:" (CACHE_DEVICE cfg) None (str "cache") (str "/cache")
         (CACHE_FILESYSTEM cfg) (CACHE_FILESYSTEM_OPTIONS cfg);
  mkRoot "DATA:" (DATA_DEVICE cfg) None (str "userdata") (str "/data")
         (DATA_FILESYSTEM cfg) (DATA_FILESYSTEM_OPTIONS cfg);
  mkRoot "DATADATA:" (DATADATA_DEVICE cfg) None (str "datadata") (str "/dbdata")
         (DATADATA_FILESYSTEM cfg) (DATADATA_FILESYSTEM_OPTIONS cfg);
  mkRoot "SYSTEM:" (SYSTEM_DEVICE cfg) None (str "system") (str "/system")
         (SYSTEM_FILESYSTEM cfg) (SYSTEM_FILESYSTEM_OPTIONS cfg);
  mkRoot "PACKAGE:" None None None None (Some g_package_file) None;
  mkRoot "BOOT:" (Some g_mtd_device) None (str "boot") None (Some g_raw) None;
  mkRoot "RECOVERY:" (Some g_mtd_device) None (str "recovery") (str "/") (Some g_raw) None;
  mkRoot "SDCARD:" (SDCARD_DEVICE_PRIMARY cfg) (SDCARD_DEVICE_SECONDARY cfg) None
         (str "/sdcard") (str "vfat") None;
  mkRoot "SDEXT:" (SDEXT_DEVICE cfg) None None (str "/sd-ext") (SDEXT_FILESYSTEM cfg) None;
  mkRoot "MBM:" (Some g_mtd_device) None (str "mbm") None (Some g_raw) None;
  mkRoot "TMP:" None None None (str "/tmp") None None
].

(** ** get_root_info_for_path *)

(** The offset at which the colon loop stops, [None] when it stops on the
    terminator. *)
Fixpoint find_colon (s : string) : option nat :=
  match s with
  | EmptyString => None
  | String ch rest =>
      if Ascii.eqb ch ":" then Some O else S <$> find_colon rest
  end.

(** The [for] loop over [g_roots], from index [i]. *)
Fixpoint scan_roots (roots : list RootInfo) (root_path : string) (len i : nat)
  : option nat :=
  match roots with
  | [] => None
  | info :: rest =>
      if strncmp_eq (name info) root_path len then Some i
      else scan_roots rest root_path len (S i)
  end.

(** The result is the index of the entry pointed to, [None] for NULL. *)
Definition get_root_info_for_path (roots : list RootInfo) (root_path : string)
  : option nat :=
  match find_colon root_path with
  | None => None
  | Some c => scan_roots roots root_path (c + 1) 0
  end.

(** [*info] for a pointer returned by the lookup; NULL does not point. *)
Definition deref (roots : list RootInfo) (info : option nat) : exec RootInfo :=
  match info with
  | None => Crash
  | Some i =>
      match roots !! i with
      | Some r => Ok r
      | None => Crash
      end
  end.

(** ** translate_package_root_path, translate_root_path *)

Definition ZipArchive : Type := nat.

(** The result is NULL ([None]) or [out_buf] with its new contents and the
    value stored in [*out_package]. *)
Definition translate_package_root_path
    (roots : list RootInfo) (g_package : option ZipArchive)
    (root_path : string) (out_buf : buffer) (out_buf_len : nat)
  : exec (option (buffer * option ZipArchive)) :=
  match get_root_info_for_path roots root_path with
  | None => Ok None
  | Some i =>
      do? info <- deref roots (Some i);
      if negb (ptr_is (filesystem info) g_package_file) then Ok None
      else
        let root_len := strlen (name info) in
        do? root_path <- advance root_path root_len;
        let root_path_len := strlen root_path in
        if decide (out_buf_len < root_path_len + 1) then Ok None
        else
          do? out_buf <- strcpy out_buf root_path;
          Ok (Some (out_buf, g_package))
  end.

(** The [while] loop that skips the slashes after the root name. *)
Fixpoint skip_slashes (s : string) : string :=
  match s with
  | String ch rest => if Ascii.eqb ch "/" then skip_slashes rest else s
  | EmptyString => s
  end.

Definition translate_root_path
    (roots : list RootInfo) (root_path : string)
    (out_buf : buffer) (out_buf_len : nat)
  : exec (option buffer) :=
  if decide (out_buf_len < 1) then Ok None
  else
    match get_root_info_for_path roots root_path with
    | None => Ok None
    | Some i =>
        do? info <- deref roots (Some i);
        match mount_point info with
        | None => Ok None
        | Some mp =>
            do? root_path <- advance root_path (strlen (name info));
            let root_path := skip_slashes root_path in
            let mp_len := strlen (cstr mp) in
            let rp_len := strlen root_path in
            (* mp_len + 1 + rp_len + 1 > out_buf_len *)
            if decide (out_buf_len < mp_len + 1 + rp_len + 1) then Ok None
            else
              do? out_buf <- memcpy out_buf 0 (chars (cstr mp));
              (* out_buf[mp_len - 1] with mp_len = 0 is out_buf[SIZE_MAX] *)
              do? last <- (if decide (mp_len = 0) then Crash
                           else peek out_buf (mp_len - 1));
              (* if (out_buf[mp_len - 1] != '/') out_buf[mp_len++] = '/'; *)
              let missing := negb (Ascii.eqb last "/") in
              do? out_buf <- (if missing then poke out_buf mp_len "/"
                              else Ok out_buf);
              let mp_len := if missing then S mp_len else mp_len in
              do? out_buf <- memcpy out_buf mp_len (chars root_path);
              do? out_buf <- poke out_buf (mp_len + rp_len) Ascii.zero;
              Ok (Some out_buf)
        end
    end.

(** ** The collaborators: mount table, MTD, MMC, external helpers

    mtdutils, mmcutils, the mount-table scanner, [mount(2)], [__system] and
    [format_non_mtd_device] are not part of roots.c.  Their results are
    read from an environment [Env], indexed by the number of collaborator
    calls made so far, so that every sequence of successes and failures can
    be described; their effect on the live mount table is modelled below. *)

Module MountedVolume.
Record t : Type := {
  device : string;
  mount_point : string;
  filesystem : string
}.
End MountedVolume.

Record MtdPartition : Type := { mtd_name : string }.
Record MmcPartition : Type := { mmc_name : string }.
Record MtdWriteContext : Type := { mtd_written : MtdPartition }.

#[global] Instance MountedVolume_eq_dec : EqDecision MountedVolume.t.
Proof. solve_decision. Defined.
#[global] Instance MtdPartition_eq_dec : EqDecision MtdPartition.
Proof. solve_decision. Defined.
#[global] Instance MmcPartition_eq_dec : EqDecision MmcPartition.
Proof. solve_decision. Defined.

(** The command lines roots.c builds for [__system]. *)
Inductive Cmd : Type :=
| CmdMount (fs options dev : string) (mp : option string)
| CmdStlFormat (dev : string)
| CmdMke2fs (fs flags dev : string).

(** [printf("%s", NULL)] prints ["(null)"] with the C library of the image. *)
Definition percent_s (s : option string) : string :=
  match s with
  | Some x => x
  | None => "(null)"
  end.

(** The string [sprintf] / [strcat] produce. *)
Definition render (c : Cmd) : string :=
  match c with
  | CmdMount fs options dev mp =>
      "mount -t " +:+ fs +:+ " -o" +:+ options +:+ " " +:+ dev +:+ " "
        +:+ percent_s mp
  | CmdStlFormat dev => "stl.format " +:+ dev
  | CmdMke2fs fs flags dev =>
      "/sbin/mke2fs -T " +:+ fs +:+ " -F -j -q -m 0 -b 4096 " +:+ flags
        +:+ " " +:+ dev
  end.

Definition PATH_MAX : nat := 4096.

Inductive Event : Type :=
| EvScanMountedVolumes
| EvFindMountedVolume (mp : string)
| EvUnmount (v : MountedVolume.t)
| EvMount (dev : string) (mp : option string) (fs : string)
| EvSystem (c : Cmd)
| EvMkdir (path : string)
| EvMtdScan
| EvMtdFind (pn : option string)
| EvMtdMount (p : MtdPartition) (mp : option string) (fs : option string)
| EvMtdWritePartition (p : MtdPartition)
| EvMtdEraseBlocks (w : MtdWriteContext)
| EvMtdWriteClose (w : MtdWriteContext)
| EvMmcScan
| EvMmcFind (pn : option string)
| EvMmcFormatExt3 (p : MmcPartition)
| EvFormatNonMtdDevice (root : string)
| EvStrdup (s : string)
| EvFree (s : option string).

Record Env : Type := {
  scan_mounted_volumes_ret : nat -> Z;
  unmount_ret : nat -> MountedVolume.t -> Z;
  mount_ret : nat -> string -> string -> string -> Z;
  system_ret : nat -> Cmd -> Z;
  mtd_table : nat -> list MtdPartition;
  mtd_mount_ret : nat -> MtdPartition -> string -> option string -> Z;
  mtd_write_opens : nat -> MtdPartition -> bool;
  mtd_erase_ret : nat -> MtdWriteContext -> Z;
  mtd_close_ret : nat -> MtdWriteContext -> Z;
  mmc_table : nat -> list MmcPartition;
  mmc_format_ext3_ret : nat -> MmcPartition -> Z;
  format_non_mtd_device_ret : nat -> string -> Z;
  strdup_ok : nat -> string -> bool
}.

(** ** Program state *)

Record State : Type := {
  g_roots : list RootInfo;
  g_package : option ZipArchive;
  g_package_path : option string;
  mounts : list MountedVolume.t;          (* the live mount table *)
  g_mounts_state : list MountedVolume.t;  (* what the last rescan read *)
  g_mtd_state : list MtdPartition;
  g_mmc_state : list MmcPartition;
  trace : list Event                      (* collaborator calls, oldest first *)
}.

Definition with_roots (r : list RootInfo) (s : State) : State :=
  {| g_roots := r; g_package := g_package s; g_package_path := g_package_path s;
     mounts := mounts s; g_mounts_state := g_mounts_state s;
     g_mtd_state := g_mtd_state s; g_mmc_state := g_mmc_state s;
     trace := trace s |}.

Definition with_package (z : option ZipArchive) (s : State) : State :=
  {| g_roots := g_roots s; g_package := z; g_package_path := g_package_path s;
     mounts := mounts s; g_mounts_state := g_mounts_state s;
     g_mtd_state := g_mtd_state s; g_mmc_state := g_mmc_state s;
     trace := trace s |}.

Definition with_package_path (p : option string) (s : State) : State :=
  {| g_roots := g_roots s; g_package := g_package s; g_package_path := p;
     mounts := mounts s; g_mounts_state := g_mounts_state s;
     g_mtd_state := g_mtd_state s; g_mmc_state := g_mmc_state s;
     trace := trace s |}.

Definition with_mounts (m : list MountedVolume.t) (s : State) : State :=
  {| g_roots := g_roots s; g_package := g_package s;
     g_package_path := g_package_path s;
     mounts := m; g_mounts_state := g_mounts_state s;
     g_mtd_state := g_mtd_state s; g_mmc_state := g_mmc_state s;
     trace := trace s |}.

Definition with_mounts_state (m : list MountedVolume.t) (s : State) : State :=
  {| g_roots := g_roots s; g_package := g_package s;
     g_package_path := g_package_path s;
     mounts := mounts s; g_mounts_state := m;
     g_mtd_state := g_mtd_state s; g_mmc_state := g_mmc_state s;
     trace := trace s |}.

Definition with_mtd_state (m : list MtdPartition) (s : State) : State :=
  {| g_roots := g_roots s; g_package := g_package s;
     g_package_path := g_package_path s;
     mounts := mounts s; g_mounts_state := g_mounts_state s;
     g_mtd_state := m; g_mmc_state := g_mmc_state s;
     trace := trace s |}.

Definition with_mmc_state (m : list MmcPartition) (s : State) : State :=
  {| g_roots := g_roots s; g_package := g_package s;
     g_package_path := g_package_path s;
     mounts := mounts s; g_mounts_state := g_mounts_state s;
     g_mtd_state := g_mtd_state s; g_mmc_state := m;
     trace := trace s |}.

(** Log a collaborator call. *)
Definition logged (e : Event) (s : State) : State :=
  {| g_roots := g_roots s; g_package := g_package s;
     g_package_path := g_package_path s;
     mounts := mounts s; g_mounts_state := g_mounts_state s;
     g_mtd_state := g_mtd_state s; g_mmc_state := g_mmc_state s;
     trace := trace s ++ [e] |}.

(** The state at process start. *)
Definition initial_state (cfg : BoardConfig) (live : list MountedVolume.t) : State :=
  {| g_roots := g_roots_init cfg; g_package := None; g_package_path := None;
     mounts := live; g_mounts_state := [];
     g_mtd_state := []; g_mmc_state := []; trace := [] |}.

(** A stateful computation that may hit undefined behaviour. *)
Definition M (A : Type) : Type := State -> exec (A * State).

Definition ret {A} (a : A) : M A := fun s => Ok (a, s).

Definition bind {A B} (m : M A) (k : A -> M B) : M B :=
  fun s =>
    match m s with
    | Crash => Crash
    | Ok (a, s') => k a s'
    end.

Definition crash {A} : M A := fun _ => Crash.

Notation "'let*' x := m 'in' k" := (bind m (fun x => k))
  (at level 10, x name, m at level 100, k at level 200).
Notation "m ;; k" := (bind m (fun _ => k))
  (at level 100, k at level 200, right associativity).

(** [info->field] through a pointer into [g_roots]. *)
Definition load (info : option nat) : M RootInfo :=
  fun s =>
    match deref (g_roots s) info with
    | Crash => Crash
    | Ok r => Ok (r, s)
    end.

Definition lookup_root (root_path : string) : M (option nat) :=
  fun s => Ok (get_root_info_for_path (g_roots s) root_path, s).

(** [info->filesystem = fs; info->filesystem_options = fso;] *)
Definition store_fs (info : option nat) (fs fso : cstring) : M unit :=
  fun s =>
    match info with
    | None => Crash
    | Some i =>
        match g_roots s !! i with
        | None => Crash
        | Some r =>
            let r' := {| name := name r; device := device r; device2 := device2 r;
                         partition_name := partition_name r;
                         mount_point := mount_point r;
                         filesystem := fs; filesystem_options := fso |} in
            Ok (tt, with_roots (<[i := r']> (g_roots s)) s)
        end
    end.

(** *** Modelled collaborators *)

Definition mounted_at (mp : string) (v : MountedVolume.t) : bool :=
  String.eqb (MountedVolume.mount_point v) mp.

Definition is_mounted (mp : string) (table : list MountedVolume.t) : bool :=
  List.existsb (mounted_at mp) table.

Definition mk_volume (dev mp fs : string) : MountedVolume.t :=
  {| MountedVolume.device := dev; MountedVolume.mount_point := mp;
     MountedVolume.filesystem := fs |}.

Section Collaborators.
Variable env : Env.

(** Modelled from the spec: the mount-state oracle rescans the live mount
    table on every query; a failed rescan returns a negative value.  The
    rescan replaces what the previous one read. *)
Definition scan_mounted_volumes : M Z :=
  fun s =>
    let r := scan_mounted_volumes_ret env (length (trace s)) in
    let s := logged EvScanMountedVolumes s in
    Ok (r, if (r <? 0)%Z then s else with_mounts_state (mounts s) s).

(** Modelled from the spec: the entry of the last rescan whose mount
    point is [mp], or none. *)
Definition find_mounted_volume_by_mount_point (mp : string)
  : M (option MountedVolume.t) :=
  fun s =>
    Ok (List.find (mounted_at mp) (g_mounts_state s),
        logged (EvFindMountedVolume mp) s).

(** Modelled from the spec: unmount the volume with the mount point of
    the given entry.  Result 0 means it is no longer mounted; any other
    result leaves the mount table as it was. *)
Definition unmount_mounted_volume (v : MountedVolume.t) : M Z :=
  fun s =>
    let r := unmount_ret env (length (trace s)) v in
    let s := logged (EvUnmount v) s in
    let gone := fun w => negb (mounted_at (MountedVolume.mount_point v) w) in
    Ok (r, if (r =? 0)%Z
           then with_mounts_state (List.filter gone (g_mounts_state s))
                  (with_mounts (List.filter gone (mounts s)) s)
           else s).

(** [mount(2)] with the flags and data roots.c passes: result 0 adds the
    volume to the live mount table, any other result leaves it as it
    was.  A NULL target is refused (EFAULT). *)
Definition mount (dev : string) (mp : option string) (fs : string) : M Z :=
  fun s =>
    let t := length (trace s) in
    let s := logged (EvMount dev mp fs) s in
    match mp with
    | None => Ok ((-1)%Z, s)
    | Some m =>
        let r := mount_ret env t dev m fs in
        Ok (r, if (r =? 0)%Z
               then with_mounts (mk_volume dev m fs :: mounts s) s
               else s)
    end.

(** [__system(cmd)]: the exit status comes from the environment.  A
    mount command that exits with 0 has mounted the volume; the format
    helpers do not touch the mount table. *)
Definition __system (c : Cmd) : M Z :=
  fun s =>
    let r := system_ret env (length (trace s)) c in
    let s := logged (EvSystem c) s in
    match c with
    | CmdMount fs _ dev (Some m) =>
        Ok (r, if (r =? 0)%Z
               then with_mounts (mk_volume dev m fs :: mounts s) s
               else s)
    | _ => Ok (r, s)
    end.

Definition mkdir (path : string) : M unit :=
  fun s => Ok (tt, logged (EvMkdir path) s).

Definition mtd_scan_partitions : M unit :=
  fun s =>
    let t := length (trace s) in
    Ok (tt, with_mtd_state (mtd_table env t) (logged EvMtdScan s)).

Definition mtd_find_partition_by_name (pn : option string)
  : M (option MtdPartition) :=
  fun s =>
    let r := match pn with
             | None => None
             | Some n => List.find (fun p => String.eqb (mtd_name p) n) (g_mtd_state s)
             end in
    Ok (r, logged (EvMtdFind pn) s).

(** mtdutils mounts the block device of the partition with [mount(2)]:
    as above a NULL target is refused. *)
Definition mtd_mount_partition (p : MtdPartition) (mp : option string)
    (fs : option string) : M Z :=
  fun s =>
    let t := length (trace s) in
    let s := logged (EvMtdMount p mp fs) s in
    match mp with
    | None => Ok ((-1)%Z, s)
    | Some m =>
        let r := mtd_mount_ret env t p m fs in
        Ok (r, if (r =? 0)%Z
               then with_mounts (mk_volume (mtd_name p) m (percent_s fs) :: mounts s) s
               else s)
    end.

Definition mtd_write_partition (p : MtdPartition) : M (option MtdWriteContext) :=
  fun s =>
    let t := length (trace s) in
    Ok (if mtd_write_opens env t p then Some {| mtd_written := p |} else None,
        logged (EvMtdWritePartition p) s).

Definition mtd_erase_blocks (w : MtdWriteContext) : M Z :=
  fun s => Ok (mtd_erase_ret env (length (trace s)) w,
               logged (EvMtdEraseBlocks w) s).

Definition mtd_write_close (w : MtdWriteContext) : M Z :=
  fun s => Ok (mtd_close_ret env (length (trace s)) w,
               logged (EvMtdWriteClose w) s).

Definition mmc_scan_partitions : M unit :=
  fun s =>
    let t := length (trace s) in
    Ok (tt, with_mmc_state (mmc_table env t) (logged EvMmcScan s)).

Definition mmc_find_partition_by_name (pn : option string)
  : M (option MmcPartition) :=
  fun s =>
    let r := match pn with
             | None => None
             | Some n => List.find (fun p => String.eqb (mmc_name p) n) (g_mmc_state s)
             end in
    Ok (r, logged (EvMmcFind pn) s).

Definition mmc_format_ext3 (p : MmcPartition) : M Z :=
  fun s => Ok (mmc_format_ext3_ret env (length (trace s)) p,
               logged (EvMmcFormatExt3 p) s).

Definition format_non_mtd_device (root : string) : M Z :=
  fun s => Ok (format_non_mtd_device_ret env (length (trace s)) root,
               logged (EvFormatNonMtdDevice root) s).

(** [strdup] returns NULL when the allocation fails. *)
Definition strdup (p : string) : M (option string) :=
  fun s => Ok (if strdup_ok env (length (trace s)) p then Some p else None,
               logged (EvStrdup p) s).

Definition free (p : option string) : M unit :=
  fun s => Ok (tt, logged (EvFree p) s).

End Collaborators.

(** ** roots.c: the operations *)

Section Roots.
Variable env : Env.

Definition get_package : M (option ZipArchive) := fun s => Ok (g_package s, s).
Definition get_package_path : M (option string) :=
  fun s => Ok (g_package_path s, s).
Definition set_package (z : option ZipArchive) : M unit :=
  fun s => Ok (tt, with_package z s).
Definition set_package_path (p : option string) : M unit :=
  fun s => Ok (tt, with_package_path p s).

(** [package_path] may be NULL; [strdup(NULL)] is undefined. *)
Definition register_package_root (package : option ZipArchive)
    (package_path : option string) : M Z :=
  match package with
  | Some _ =>
      match package_path with
      | None => crash
      | Some path =>
          let* package_path := strdup env path in
          match package_path with
          | None => ret (-1)%Z
          | Some _ =>
              set_package_path package_path ;;
              set_package package ;;
              ret 0%Z
          end
      end
  | None =>
      let* old := get_package_path in
      free old ;;
      set_package_path None ;;
      set_package package ;;
      ret 0%Z
  end.

Definition is_package_root_path (root_path : string) : M bool :=
  let* info := lookup_root root_path in
  match info with
  | None => ret false
  | Some _ =>
      let* i := load info in
      ret (ptr_is (filesystem i) g_package_file)
  end.

Definition internal_root_mounted (info : option nat) : M Z :=
  let* i := load info in
  match mount_point i with
  | None => ret (-1)%Z
  | Some mp =>
      let* r := scan_mounted_volumes env in
      if (r <? 0)%Z then ret r
      else
        let* volume := find_mounted_volume_by_mount_point (cstr mp) in
        match volume with
        | Some _ => ret 0%Z
        | None => ret (-1)%Z
        end
  end.

Definition is_root_path_mounted (root_path : string) : M Z :=
  let* info := lookup_root root_path in
  match info with
  | None => ret (-1)%Z
  | Some _ =>
      let* r := internal_root_mounted info in
      ret (if (0 <=? r)%Z then 1%Z else 0%Z)
  end.

(** [mount_cmd] is a [char[PATH_MAX]]. *)
Definition mount_internal (device : string) (mount_point : option string)
    (filesystem : string) (filesystem_options : option string) : M Z :=
  if negb (strcmp_eq filesystem "auto") && bool_decide (filesystem_options = None)
  then mount env device mount_point filesystem
  else
    let options := match filesystem_options with
                   | None => "noatime,nodiratime,nodev"
                   | Some o => o
                   end in
    let mount_cmd := CmdMount filesystem options device mount_point in
    if decide (PATH_MAX < strlen (render mount_cmd) + 1) then crash
    else __system env mount_cmd.

(** The [for] loop of set_type_internal_fs over the rest of [g_fs_options]. *)
Fixpoint set_type_loop (info : option nat) (new_fs : string)
    (options : list FilesystemOptions.t) : M Z :=
  match options with
  | [] => ret (-1)%Z
  | o :: rest =>
      if strcmp_eq new_fs (FilesystemOptions.filesystem o)
      then
        store_fs info (str (FilesystemOptions.filesystem o))
                      (str (FilesystemOptions.filesystem_options o)) ;;
        ret 0%Z
      else set_type_loop info new_fs rest
  end.

Definition set_type_internal_fs (root_path new_fs : string) : M Z :=
  let* info := lookup_root root_path in
  set_type_loop info new_fs g_fs_options.

(** Returns the pointer stored in the table, or the literal ["error"]. *)
Definition get_type_internal_fs (root_path : string) : M cstring :=
  let* info := lookup_root root_path in
  match info with
  | None => ret (str "error")
  | Some _ =>
      let* i := load info in
      match device i with
      | None => ret (str "error")
      | Some _ => ret (filesystem i)
      end
  end.

Definition get_mount_point_for_root (root_path : string) : M cstring :=
  let* info := lookup_root root_path in
  match info with
  | None => ret None
  | Some _ =>
      let* i := load info in
      match device i with
      | None => ret None
      | Some _ => ret (mount_point i)
      end
  end.

Definition get_dev_for_root (root_path : string) : M cstring :=
  let* info := lookup_root root_path in
  match info with
  | None => ret None
  | Some _ =>
      let* i := load info in
      match device i with
      | None => ret None
      | Some _ => ret (device i)
      end
  end.

Definition ensure_root_path_unmounted (root_path : string) : M Z :=
  let* info := lookup_root root_path in
  match info with
  | None => ret (-1)%Z
  | Some _ =>
      let* i := load info in
      match mount_point i with
      | None => ret 0%Z
      | Some mp =>
          let* r := scan_mounted_volumes env in
          if (r <? 0)%Z then ret r
          else
            let* volume := find_mounted_volume_by_mount_point (cstr mp) in
            match volume with
            | None => ret 0%Z
            | Some v => unmount_mounted_volume env v
            end
      end
  end.

(** The probing loop of detect_internal_fs over the rest of
    [g_fs_options]; [info->device] was checked against NULL before it. *)
Fixpoint detect_loop (root_path : string) (info : option nat)
    (options : list FilesystemOptions.t) : M Z :=
  match options with
  | [] => ret (-1)%Z
  | o :: rest =>
      let* i := load info in
      match device i with
      | None => crash
      | Some dev =>
          let* r := mount_internal (cstr dev) (cstr <$> mount_point i)
                      (FilesystemOptions.filesystem o)
                      (Some (FilesystemOptions.filesystem_options o)) in
          if (r =? 0)%Z
          then
            store_fs info (str (FilesystemOptions.filesystem o))
                          (str (FilesystemOptions.filesystem_options o)) ;;
            ensure_root_path_unmounted root_path ;;
            ret 0%Z
          else detect_loop root_path info rest
      end
  end.

Definition detect_internal_fs (root_path : string) : M Z :=
  let* info := lookup_root root_path in
  match info with
  | None => ret (-1)%Z
  | Some _ =>
      let* i := load info in
      match device i with
      | None => ret (-1)%Z
      | Some _ =>
          let* r := ensure_root_path_unmounted root_path in
          if (r <? 0)%Z then ret r
          else detect_loop root_path info g_fs_options
      end
  end.

(** ensure_root_path_mounted, from "It's not mounted." on. *)
Definition mount_root_device (info : option nat) : M Z :=
  let* i := load info in
  if ptr_is (device i) g_mtd_device
  then
    match partition_name i with
    | None => ret (-1)%Z
    | Some pn =>
        mtd_scan_partitions env ;;
        let* partition := mtd_find_partition_by_name (Some (cstr pn)) in
        match partition with
        | None => ret (-1)%Z
        | Some p =>
            mtd_mount_partition env p (cstr <$> mount_point i)
                                (cstr <$> filesystem i)
        end
    end
  else
    match device i, mount_point i, filesystem i with
    | Some dev, Some mp, Some fs =>
        if ptr_is (filesystem i) g_raw || ptr_is (filesystem i) g_package_file
        then ret (-1)%Z
        else
          mkdir (cstr mp) ;;
          let* r := mount_internal (cstr dev) (Some (cstr mp)) (cstr fs)
                      (cstr <$> filesystem_options i) in
          if negb (r =? 0)%Z
          then
            match device2 i with
            | None => ret (-1)%Z
            | Some dev2 =>
                let* r2 := mount env (cstr dev2) (Some (cstr mp)) (cstr fs) in
                if negb (r2 =? 0)%Z then ret (-1)%Z else ret 0%Z
            end
          else ret 0%Z
    | _, _, _ => ret (-1)%Z
    end.

Definition ensure_root_path_mounted (root_path : string) : M Z :=
  let* info := lookup_root root_path in
  match info with
  | None => ret (-1)%Z
  | Some _ =>
      let* r := internal_root_mounted info in
      if (0 <=? r)%Z then ret 0%Z
      else mount_root_device info
  end.

(** format_root_device, from "Format rfs filesystem" to the end.
    [stl_format] is a [char[32]], [ext_format] a [char[96]];
    [strcmp(NULL, ...)] is undefined. *)
Definition format_generic (root : string) (i : RootInfo) (dev : cptr) : M Z :=
  match filesystem i with
  | None => crash
  | Some fs =>
      if strcmp_eq (cstr fs) "rfs"
      then
        let stl_format := CmdStlFormat (cstr dev) in
        if decide (32 < strlen (render stl_format) + 1) then crash
        else
          let* r := __system env stl_format in
          if negb (r =? 0)%Z then ret (-1)%Z else ret 0%Z
      else if strncmp_eq (cstr fs) "ext" 3
      then
        let flags := if Ascii.eqb (char_at (cstr fs) 3) "2" then ""
                     else "-O ^huge_file,extent " in
        let ext_format := CmdMke2fs (cstr fs) flags (cstr dev) in
        if decide (96 < strlen (render ext_format) + 1) then crash
        else
          let* r := __system env ext_format in
          if negb (r =? 0)%Z then ret (-1)%Z else ret 0%Z
      else format_non_mtd_device env root
  end.

(** format_root_device, from "Handle MMC device types" on. *)
Definition format_mmc (root : string) (i : RootInfo) (dev : cptr) : M Z :=
  if ptr_is (device i) g_mmc_device
  then
    mmc_scan_partitions env ;;
    let* partition := mmc_find_partition_by_name (cstr <$> partition_name i) in
    match partition with
    | None => ret (-1)%Z
    | Some p =>
        match filesystem i with
        | None => crash
        | Some fs =>
            (if strcmp_eq (cstr fs) "ext3"
             then mmc_format_ext3 env p ;; ret tt  (* a failure is only logged *)
             else ret tt) ;;
            format_generic root i dev
        end
    end
  else format_generic root i dev.

(** format_root_device, from "Format the device." on. *)
Definition format_device (root : string) (i : RootInfo) (dev : cptr) : M Z :=
  if ptr_is (device i) g_mtd_device
  then
    mtd_scan_partitions env ;;
    let* partition := mtd_find_partition_by_name (cstr <$> partition_name i) in
    match partition with
    | None => ret (-1)%Z
    | Some p =>
        match filesystem i with
        | None => crash
        | Some fs =>
            if ptr_is (filesystem i) g_raw || strcmp_eq (cstr fs) "yaffs2"
            then
              let* write := mtd_write_partition env p in
              match write with
              | None => ret (-1)%Z
              | Some w =>
                  let* erased := mtd_erase_blocks env w in
                  if (erased =? -1)%Z
                  then mtd_write_close env w ;; ret (-1)%Z
                  else
                    let* closed := mtd_write_close env w in
                    if negb (closed =? 0)%Z then ret (-1)%Z else ret 0%Z
              end
            else format_mmc root i dev
        end
    end
  else format_mmc root i dev.

Definition format_root_device (root : string) : M Z :=
  let* info := lookup_root root in
  match info with
  | None => ret (-1)%Z
  | Some _ =>
      let* i := load info in
      match device i with
      | None => ret (-1)%Z
      | Some dev =>
          match mount_point i with
          | Some _ =>
              let* r := ensure_root_path_unmounted root in
              if (r <? 0)%Z then ret r
              else format_device root i dev
          | None => format_device root i dev
          end
      end
  end.

End Roots.

(** ** Vocabulary of the properties *)

(** Calls that mount something. *)
Definition is_mount_event (e : Event) : bool :=
  match e with
  | EvMount _ _ _ => true
  | EvMtdMount _ _ _ => true
  | EvSystem (CmdMount _ _ _ _) => true
  | _ => false
  end.

(** Calls that erase or format a device. *)
Definition is_format_event (e : Event) : bool :=
  match e with
  | EvMtdWritePartition _ => true
  | EvMtdEraseBlocks _ => true
  | EvMtdWriteClose _ => true
  | EvMmcFormatExt3 _ => true
  | EvSystem (CmdStlFormat _) => true
  | EvSystem (CmdMke2fs _ _ _) => true
  | EvFormatNonMtdDevice _ => true
  | _ => false
  end.

(** The volume of a table entry is mounted when its mount point is in the
    live mount table; an entry without mount point is never mounted. *)
Definition root_mounted (info : RootInfo) (s : State) : bool :=
  match mount_point info with
  | None => false
  | Some mp => is_mounted (cstr mp) (mounts s)
  end.

(** The command line of a trial mount fits [mount_cmd]. *)
Definition trial_fits (dev : cptr) (mp : cstring) (o : FilesystemOptions.t) : Prop :=
  strlen (render (CmdMount (FilesystemOptions.filesystem o)
                           (FilesystemOptions.filesystem_options o)
                           (cstr dev) (cstr <$> mp))) + 1 <= PATH_MAX.

(** A root name is well formed when its only colon is its last character. *)
Definition wf_name (n : string) : Prop := find_colon n = Some (strlen n - 1).

Definition ends_with_slash (s : string) : bool :=
  match last (chars s) with
  | Some c => Ascii.eqb c "/"
  | None => false
  end.

(** The mount point with a separator appended unless it ends with one. *)
Definition with_separator (s : string) : string :=
  if ends_with_slash s then s else s +:+ "/".

(** C5 as the specification words it: the separator is always written. *)
Definition translate_always_inserts_separator : Prop :=
  forall roots root_path i info mp rest out_buf,
    get_root_info_for_path roots root_path = Some i ->
    roots !! i = Some info ->
    mount_point info = Some mp ->
    root_path = name info +:+ rest ->
    strlen (cstr mp) + 1 + strlen (skip_slashes rest) + 1 <= length out_buf ->
    exists tail,
      translate_root_path roots root_path out_buf (length out_buf)
      = Ok (Some (chars (cstr mp +:+ "/" +:+ skip_slashes rest)
                  ++ Ascii.zero :: tail)).

(** C7 as the specification words it: after a successful call, a second
    call always succeeds and mounts nothing. *)
Definition ensure_mounted_always_idempotent : Prop :=
  forall env root_path s s1,
    ensure_root_path_mounted env root_path s = Ok (0%Z, s1) ->
    exists s2 calls,
      ensure_root_path_mounted env root_path s1 = Ok (0%Z, s2) /\
      trace s2 = trace s1 ++ calls /\
      Forall (fun e => is_mount_event e = false) calls.

(** C2 as the specification words it: whatever the label and the
    environment, the volume is unmounted when detect_internal_fs returns. *)
Definition detect_always_leaves_unmounted : Prop :=
  forall env s root_path i info r s',
    get_root_info_for_path (g_roots s) root_path = Some i ->
    g_roots s !! i = Some info ->
    detect_internal_fs env root_path s = Ok (r, s') ->
    root_mounted info s' = false.

(** C9 as the specification words it: an unresolved label always leads to
    the dereference of the NULL lookup result. *)
Definition set_type_always_dereferences : Prop :=
  forall s root_path new_fs,
    get_root_info_for_path (g_roots s) root_path = None ->
    set_type_internal_fs root_path new_fs s = Crash.

(** The entry of [g_fs_options] that [new_fs] selects. *)
Definition matching_fs (new_fs : string) : option FilesystemOptions.t :=
  List.find (fun o => strcmp_eq new_fs (FilesystemOptions.filesystem o)) g_fs_options.

(** [info] after [info->filesystem] and [info->filesystem_options] have
    been assigned from [o]. *)
Definition retyped (info : RootInfo) (o : FilesystemOptions.t) : RootInfo :=
  {| name := name info; device := device info; device2 := device2 info;
     partition_name := partition_name info; mount_point := mount_point info;
     filesystem := str (FilesystemOptions.filesystem o);
     filesystem_options := str (FilesystemOptions.filesystem_options o) |}.

(** The table entries the examples use. *)
Definition data_root : RootInfo :=
  mkRoot "DATA:" (str "/dev/block/mmcblk0p2") None (str "userdata") (str "/data")
         (str "unknown") None.

Definition tmp_root : RootInfo :=
  mkRoot "TMP:" None None None (str "/tmp") None None.

Definition mmc_data_root : RootInfo :=
  mkRoot "DATA:" (Some g_mmc_device) None (str "userdata") (str "/data")
         (str "ext3") None.

(** An environment in which every collaborator succeeds. *)
Definition calm : Env := {|
  scan_mounted_volumes_ret := fun _ => 0%Z;
  unmount_ret := fun _ _ => 0%Z;
  mount_ret := fun _ _ _ _ => 0%Z;
  system_ret := fun _ _ => 0%Z;
  mtd_table := fun _ => [ {| mtd_name := "boot" |}; {| mtd_name := "recovery" |};
                          {| mtd_name := "mbm" |} ];
  mtd_mount_ret := fun _ _ _ _ => 0%Z;
  mtd_write_opens := fun _ _ => true;
  mtd_erase_ret := fun _ _ => 0%Z;
  mtd_close_ret := fun _ _ => 0%Z;
  mmc_table := fun _ => [ {| mmc_name := "userdata" |} ];
  mmc_format_ext3_ret := fun _ _ => 0%Z;
  format_non_mtd_device_ret := fun _ _ => 0%Z;
  strdup_ok := fun _ _ => true
|}.

Definition with_unmount_ret (f : nat -> MountedVolume.t -> Z) (e : Env) : Env := {|
  scan_mounted_volumes_ret := scan_mounted_volumes_ret e;
  unmount_ret := f;
  mount_ret := mount_ret e;
  system_ret := system_ret e;
  mtd_table := mtd_table e;
  mtd_mount_ret := mtd_mount_ret e;
  mtd_write_opens := mtd_write_opens e;
  mtd_erase_ret := mtd_erase_ret e;
  mtd_close_ret := mtd_close_ret e;
  mmc_table := mmc_table e;
  mmc_format_ext3_ret := mmc_format_ext3_ret e;
  format_non_mtd_device_ret := format_non_mtd_device_ret e;
  strdup_ok := strdup_ok e
|}.

Definition with_strdup_ok (f : nat -> string -> bool) (e : Env) : Env := {|
  scan_mounted_volumes_ret := scan_mounted_volumes_ret e;
  unmount_ret := unmount_ret e;
  mount_ret := mount_ret e;
  system_ret := system_ret e;
  mtd_table := mtd_table e;
  mtd_mount_ret := mtd_mount_ret e;
  mtd_write_opens := mtd_write_opens e;
  mtd_erase_ret := mtd_erase_ret e;
  mtd_close_ret := mtd_close_ret e;
  mmc_table := mmc_table e;
  mmc_format_ext3_ret := mmc_format_ext3_ret e;
  format_non_mtd_device_ret := format_non_mtd_device_ret e;
  strdup_ok := f
|}.

Definition with_mmc_format_ext3_ret (f : nat -> MmcPartition -> Z) (e : Env) : Env := {|
  scan_mounted_volumes_ret := scan_mounted_volumes_ret e;
  unmount_ret := unmount_ret e;
  mount_ret := mount_ret e;
  system_ret := system_ret e;
  mtd_table := mtd_table e;
  mtd_mount_ret := mtd_mount_ret e;
  mtd_write_opens := mtd_write_opens e;
  mtd_erase_ret := mtd_erase_ret e;
  mtd_close_ret := mtd_close_ret e;
  mmc_table := mmc_table e;
  mmc_format_ext3_ret := f;
  format_non_mtd_device_ret := format_non_mtd_device_ret e;
  strdup_ok := strdup_ok e
|}.

(** Every unmount fails. *)
Definition busy : Env := with_unmount_ret (fun _ _ => (-1)%Z) calm.

(** Only the first allocation succeeds. *)
Definition out_of_memory : Env := with_strdup_ok (fun t _ => Nat.eqb t 0) calm.

(** The MMC ext3 formatter fails. *)
Definition mmc_wipe_fails : Env := with_mmc_format_ext3_ret (fun _ _ => 1%Z) calm.

(** A board whose DATA: volume is an ext3 partition on the MMC. *)
Definition mmc_board : BoardConfig := {|
  SDCARD_DEVICE_PRIMARY := SDCARD_DEVICE_PRIMARY default_config;
  SDCARD_DEVICE_SECONDARY := SDCARD_DEVICE_SECONDARY default_config;
  SDEXT_DEVICE := SDEXT_DEVICE default_config;
  SDEXT_FILESYSTEM := SDEXT_FILESYSTEM default_config;
  DATA_DEVICE := Some g_mmc_device;
  DATA_FILESYSTEM := Some (Lit "ext3");
  DATADATA_DEVICE := DATADATA_DEVICE default_config;
  DATADATA_FILESYSTEM := DATADATA_FILESYSTEM default_config;
  CACHE_DEVICE := CACHE_DEVICE default_config;
  CACHE_FILESYSTEM := CACHE_FILESYSTEM default_config;
  SYSTEM_DEVICE := SYSTEM_DEVICE default_config;
  SYSTEM_FILESYSTEM := SYSTEM_FILESYSTEM default_config;
  DATA_FILESYSTEM_OPTIONS := None;
  CACHE_FILESYSTEM_OPTIONS := None;
  DATADATA_FILESYSTEM_OPTIONS := None;
  SYSTEM_FILESYSTEM_OPTIONS := None
|}.

(** The first four collaborator calls succeed; from the fifth on the
    mount-table rescan and mount(2) fail. *)
Definition rescan_fails_later : Env := {|
  scan_mounted_volumes_ret := fun t => if Nat.ltb t 4 then 0%Z else (-1)%Z;
  unmount_ret := unmount_ret calm;
  mount_ret := fun t _ _ _ => if Nat.ltb t 4 then 0%Z else (-1)%Z;
  system_ret := system_ret calm;
  mtd_table := mtd_table calm;
  mtd_mount_ret := mtd_mount_ret calm;
  mtd_write_opens := mtd_write_opens calm;
  mtd_erase_ret := mtd_erase_ret calm;
  mtd_close_ret := mtd_close_ret calm;
  mmc_table := mmc_table calm;
  mmc_format_ext3_ret := mmc_format_ext3_ret calm;
  format_non_mtd_device_ret := format_non_mtd_device_ret calm;
  strdup_ok := strdup_ok calm
|}.

(** No mount succeeds, through the system call or the helper. *)
Definition no_mounts : Env := {|
  scan_mounted_volumes_ret := scan_mounted_volumes_ret calm;
  unmount_ret := unmount_ret calm;
  mount_ret := fun _ _ _ _ => (-1)%Z;
  system_ret := fun _ _ => 1%Z;
  mtd_table := mtd_table calm;
  mtd_mount_ret := fun _ _ _ _ => (-1)%Z;
  mtd_write_opens := mtd_write_opens calm;
  mtd_erase_ret := mtd_erase_ret calm;
  mtd_close_ret := mtd_close_ret calm;
  mmc_table := mmc_table calm;
  mmc_format_ext3_ret := mmc_format_ext3_ret calm;
  format_non_mtd_device_ret := format_non_mtd_device_ret calm;
  strdup_ok := strdup_ok calm
|}.

(** Erasing an MTD partition fails. *)
Definition erase_fails : Env := {|
  scan_mounted_volumes_ret := scan_mounted_volumes_ret calm;
  unmount_ret := unmount_ret calm;
  mount_ret := mount_ret calm;
  system_ret := system_ret calm;
  mtd_table := mtd_table calm;
  mtd_mount_ret := mtd_mount_ret calm;
  mtd_write_opens := mtd_write_opens calm;
  mtd_erase_ret := fun _ _ => (-1)%Z;
  mtd_close_ret := mtd_close_ret calm;
  mmc_table := mmc_table calm;
  mmc_format_ext3_ret := mmc_format_ext3_ret calm;
  format_non_mtd_device_ret := format_non_mtd_device_ret calm;
  strdup_ok := strdup_ok calm
|}.

Definition recovery_root : RootInfo :=
  mkRoot "RECOVERY:" (Some g_mtd_device) None (str "recovery") (str "/")
         (Some g_raw) None.

Definition cache_root : RootInfo :=
  mkRoot "CACHE:" (str "/dev/block/stl11") None (str "cache") (str "/cache")
         (str "unknown") None.

(** A board whose DATA: and DATADATA: volumes are typed "rfs". *)
Definition rfs_board : BoardConfig := {|
  SDCARD_DEVICE_PRIMARY := SDCARD_DEVICE_PRIMARY default_config;
  SDCARD_DEVICE_SECONDARY := SDCARD_DEVICE_SECONDARY default_config;
  SDEXT_DEVICE := SDEXT_DEVICE default_config;
  SDEXT_FILESYSTEM := SDEXT_FILESYSTEM default_config;
  DATA_DEVICE := Some (Lit "/dev/block/mmcblk0p2");
  DATA_FILESYSTEM := Some (Lit "rfs");
  DATADATA_DEVICE := Some (Lit "/dev/block/mmcblk0p10");
  DATADATA_FILESYSTEM := Some (Lit "rfs");
  CACHE_DEVICE := CACHE_DEVICE default_config;
  CACHE_FILESYSTEM := CACHE_FILESYSTEM default_config;
  SYSTEM_DEVICE := SYSTEM_DEVICE default_config;
  SYSTEM_FILESYSTEM := SYSTEM_FILESYSTEM default_config;
  DATA_FILESYSTEM_OPTIONS := None;
  CACHE_FILESYSTEM_OPTIONS := None;
  DATADATA_FILESYSTEM_OPTIONS := None;
  SYSTEM_FILESYSTEM_OPTIONS := None
|}.

(** ** get_root_mtd_partition *)

(** [BOARD_HAS_MTD_CACHE] is a compile-time switch of the board; the result
    is the partition found, [None] for NULL. *)
Definition get_root_mtd_partition (env : Env) (BOARD_HAS_MTD_CACHE : bool)
    (root_path : string) : M (option MtdPartition) :=
  let* info := lookup_root root_path in
  let find_it : M (option MtdPartition) :=
    mtd_scan_partitions env ;;
    let* i := load info in
    mtd_find_partition_by_name (cstr <$> partition_name i) in
  (* info == NULL || info->device != g_mtd_device || info->partition_name == NULL *)
  let* not_mtd :=
    match info with
    | None => ret true
    | Some _ =>
        let* i := load info in
        ret (negb (ptr_is (device i) g_mtd_device)
             || bool_decide (partition_name i = None))
    end in
  if not_mtd
  then
    if BOARD_HAS_MTD_CACHE
    then
      if negb (strcmp_eq root_path "CACHE:") then ret None
      else find_it
    else ret None
  else find_it.

(** ** Relations between the state before and after an operation *)

(** An operation respects [R] when every run that returns relates the
    states around it. *)
Definition respects (R : State -> State -> Prop) {A : Type} (m : M A) : Prop :=
  forall s a s', m s = Ok (a, s') -> R s s'.

(** The table and the package binding are the same. *)
Definition same_tables (s s' : State) : Prop :=
  g_roots s' = g_roots s /\ g_package s' = g_package s /\
  g_package_path s' = g_package_path s.

(** The fields of an entry that no operation assigns. *)
Definition static_fields (r : RootInfo) : string * cstring * cstring * cstring * cstring :=
  (name r, device r, device2 r, partition_name r, mount_point r).

Definition same_layout (s s' : State) : Prop :=
  map static_fields (g_roots s') = map static_fields (g_roots s) /\
  g_package s' = g_package s /\ g_package_path s' = g_package_path s.

(** Whatever was mounted still is. *)
Definition still_mounted (s s' : State) : Prop :=
  forall mp, is_mounted mp (mounts s) = true -> is_mounted mp (mounts s') = true.

(** Calls that unmount, erase or format. *)
Definition is_destructive_event (e : Event) : bool :=
  match e with
  | EvUnmount _ => true
  | _ => is_format_event e
  end.

(** The collaborator calls made between two states are none of [P]. *)
Definition avoids (P : Event -> bool) (s s' : State) : Prop :=
  exists l, trace s' = trace s ++ l /\ Forall (fun e => P e = false) l.

(** Every run of [m] that returns makes the one call [e]. *)
Definition emits {A : Type} (m : M A) (e : Event) : Prop :=
  forall s a s', m s = Ok (a, s') -> trace s' = trace s ++ [e].

(** Every run of [m] that returns makes no call. *)
Definition silent {A : Type} (m : M A) : Prop :=
  forall s a s', m s = Ok (a, s') -> trace s' = trace s.

(** What is_root_path_mounted reports for a resolved entry. *)
Definition reported_mounted (env : Env) (info : RootInfo) (s : State) : Z :=
  match mount_point info with
  | None => 0%Z
  | Some mp =>
      if (scan_mounted_volumes_ret env (length (trace s)) <? 0)%Z then 0%Z
      else if is_mounted (cstr mp) (mounts s) then 1%Z else 0%Z
  end.

(** The first entry of [g_fs_options]. *)
Definition rfs_options : FilesystemOptions.t :=
  {| FilesystemOptions.filesystem := "rfs";
     FilesystemOptions.filesystem_options := "llw,check=no" |}.

Ltac unfold_prims :=
  unfold bind, ret, crash, lookup_root, load, deref, store_fs,
    scan_mounted_volumes, find_mounted_volume_by_mount_point,
    unmount_mounted_volume, mount, __system, mkdir, mtd_scan_partitions,
    mtd_find_partition_by_name, mtd_mount_partition, mtd_write_partition,
    mtd_erase_blocks, mtd_write_close, mmc_scan_partitions,
    mmc_find_partition_by_name, mmc_format_ext3, format_non_mtd_device in *.

(** * Properties *)

(** ** The lookup *)

Lemma scan_roots_Some roots root_path len i0 i :
  scan_roots roots root_path len i0 = Some i ->
  exists info, i0 <= i /\ roots !! (i - i0) = Some info /\
               strncmp_eq (name info) root_path len = true.
Proof.
  revert i0. induction roots as [|r roots IH]; intros i0 H; simpl in H.
  - discriminate.
  - destruct (strncmp_eq (name r) root_path len) eqn:E.
    + inversion H; subst. exists r. rewrite Nat.sub_diag. auto.
    + apply IH in H as (info & Hle & Hl & Hn).
      exists info. split; [lia|]. split; [|exact Hn].
      replace (i - i0) with (S (i - S i0)) by lia. exact Hl.
Qed.

Lemma get_root_info_for_path_Some roots root_path i :
  get_root_info_for_path roots root_path = Some i ->
  exists info c, roots !! i = Some info /\ find_colon root_path = Some c /\
                 strncmp_eq (name info) root_path (c + 1) = true.
Proof.
  unfold get_root_info_for_path. destruct (find_colon root_path) as [c|]; [|discriminate].
  intros H. apply scan_roots_Some in H as (info & _ & Hl & Hn).
  rewrite Nat.sub_0_r in Hl. eauto.
Qed.

(** The lookup reads the names only. *)
Lemma scan_roots_names roots roots' root_path len i0 :
  map name roots = map name roots' ->
  scan_roots roots root_path len i0 = scan_roots roots' root_path len i0.
Proof.
  revert roots' i0. induction roots as [|r roots IH]; intros [|r' roots'] i0 H;
    simpl in *; try discriminate; auto.
  inversion H as [[Hn Hr]]. rewrite Hn. destruct (strncmp_eq _ _ _); auto.
Qed.

Lemma get_root_info_for_path_names roots roots' root_path :
  map name roots = map name roots' ->
  get_root_info_for_path roots root_path = get_root_info_for_path roots' root_path.
Proof.
  intros H. unfold get_root_info_for_path.
  destruct (find_colon root_path); auto using scan_roots_names.
Qed.

Lemma append_cons x a b : String x a +:+ b = String x (a +:+ b).
Proof. reflexivity. Qed.

Lemma wf_name_prefix n root_path c :
  wf_name n -> find_colon root_path = Some c ->
  strncmp_eq n root_path (c + 1) = true ->
  exists rest, root_path = n +:+ rest.
Proof.
  unfold wf_name. revert n root_path.
  induction c as [|c IH]; intros n root_path Hwf Hc Hcmp.
  - destruct root_path as [|y rp]; simpl in Hc; [discriminate|].
    destruct (Ascii.eqb_spec y ":"); [subst y|destruct (find_colon rp); discriminate].
    destruct n as [|x n']; simpl in Hcmp; [discriminate|].
    destruct (Ascii.eqb_spec x ":"); [subst x|discriminate].
    simpl in Hwf. destruct n'; [|simpl in Hwf; discriminate].
    exists rp. reflexivity.
  - destruct root_path as [|y rp]; simpl in Hc; [discriminate|].
    destruct (Ascii.eqb_spec y ":"); [discriminate|].
    destruct (find_colon rp) as [c'|] eqn:Hrp; simpl in Hc; [|discriminate].
    inversion Hc; subst c'.
    destruct n as [|x n']; simpl in Hcmp; [discriminate|].
    destruct (Ascii.eqb_spec x y); [subst x|discriminate].
    simpl in Hwf. destruct (Ascii.eqb_spec y ":"); [contradiction|].
    destruct (find_colon n') as [k|] eqn:Hk; simpl in Hwf; [|discriminate].
    inversion Hwf as [Hk'].
    destruct (IH n' rp) as [rest Hrest]; auto.
    + rewrite Hk. f_equal. unfold strlen in *. simpl in Hk'. lia.
    + exists rest. rewrite append_cons, Hrest. reflexivity.
Qed.

Lemma advance_app n rest : advance (n +:+ rest) (strlen n) = Ok rest.
Proof.
  unfold strlen. induction n as [|x n IH]; [reflexivity|].
  rewrite append_cons. simpl. exact IH.
Qed.

Lemma chars_app a b : chars (a +:+ b) = chars a ++ chars b.
Proof.
  induction a as [|x a IH]; [reflexivity|].
  rewrite append_cons. simpl. f_equal. exact IH.
Qed.

Lemma length_chars s : length (chars s) = strlen s.
Proof. unfold strlen. induction s; simpl; auto. Qed.

(** ** Writes into a destination buffer *)

Lemma memcpy_at (pre suf : buffer) (off : nat) (src : list ascii) :
  off = length pre -> length src <= length suf ->
  memcpy (pre ++ suf) off src = Ok (pre ++ src ++ drop (length src) suf).
Proof.
  intros -> Hlen. unfold memcpy.
  destruct (decide _) as [_|Hn]; [|rewrite length_app in Hn; lia].
  rewrite take_app_length, drop_app_add'; auto.
Qed.

Lemma poke_at (pre suf : buffer) (off : nat) (c : ascii) :
  off = length pre -> 0 < length suf ->
  poke (pre ++ suf) off c = Ok (pre ++ c :: drop 1 suf).
Proof.
  intros -> Hlen. unfold poke.
  destruct (decide _) as [_|Hn]; [|rewrite length_app in Hn; lia].
  destruct suf as [|x suf]; [simpl in Hlen; lia|].
  rewrite insert_app_r_alt, Nat.sub_diag by lia. simpl. rewrite drop_0. reflexivity.
Qed.

Lemma peek_last (pre suf : buffer) :
  pre <> [] ->
  exists c, last pre = Some c /\ peek (pre ++ suf) (length pre - 1) = Ok c.
Proof.
  intros Hne. destruct (last pre) as [c|] eqn:Hl.
  - exists c. split; [reflexivity|]. unfold peek.
    rewrite last_lookup in Hl.
    rewrite lookup_app_l.
    + replace (length pre - 1) with (pred (length pre)) by lia. rewrite Hl. reflexivity.
    + destruct pre; [contradiction|simpl; lia].
  - apply last_None in Hl. contradiction.
Qed.

(** ** translate_root_path *)

(** What translate_root_path does once the lookup has produced an entry
    with a mount point and the root name is a prefix of the path. *)
Lemma translate_root_path_resolved roots root_path i info mp rest out_buf out_buf_len :
  get_root_info_for_path roots root_path = Some i ->
  roots !! i = Some info ->
  mount_point info = Some mp ->
  root_path = name info +:+ rest ->
  cstr mp <> "" ->
  out_buf_len <= length out_buf ->
  let rem := skip_slashes rest in
  (strlen (cstr mp) + 1 + strlen rem + 1 <= out_buf_len ->
     exists tail,
       translate_root_path roots root_path out_buf out_buf_len
       = Ok (Some (chars (with_separator (cstr mp) +:+ rem) ++ Ascii.zero :: tail))
       /\ length (chars (with_separator (cstr mp) +:+ rem) ++ Ascii.zero :: tail)
          = length out_buf)
  /\ (out_buf_len < strlen (cstr mp) + 1 + strlen rem + 1 ->
        translate_root_path roots root_path out_buf out_buf_len = Ok None).
Proof.
  intros Hlook Hi Hmp Hpath Hne Hlen rem. unfold translate_root_path.
  rewrite Hlook. simpl. rewrite Hi. simpl. rewrite Hmp, Hpath, advance_app. simpl.
  fold rem. split.
  - intros Hcap.
    destruct (decide (out_buf_len < 1)) as [?|_]; [lia|].
    destruct (decide (out_buf_len < _)) as [?|_]; [lia|].
    set (l := chars (cstr mp)). set (q := chars rem).
    assert (Hl : length l = strlen (cstr mp)) by apply length_chars.
    assert (Hq : length q = strlen rem) by apply length_chars.
    assert (Hl0 : l <> []).
    { intros E. apply Hne. destruct (cstr mp); [reflexivity|discriminate]. }
    assert (Hm0 : strlen (cstr mp) <> 0).
    { rewrite <- Hl. destruct l; [contradiction|simpl; lia]. }
    assert (Hcpy : memcpy out_buf 0 l = Ok (l ++ drop (length l) out_buf))
      by (apply (memcpy_at [] out_buf 0 l); simpl; lia).
    rewrite Hcpy. simpl.
    destruct (decide (strlen (cstr mp) = 0)) as [?|_]; [contradiction|].
    destruct (peek_last l (drop (length l) out_buf) Hl0) as (c & Hlast & Hpeek).
    rewrite <- Hl, Hpeek. simpl.
    assert (Hsuf : length (drop (length l) out_buf) = length out_buf - length l)
      by (rewrite length_drop; lia).
    assert (Hchars : chars (with_separator (cstr mp) +:+ rem)
                     = (if Ascii.eqb c "/" then l else l ++ ["/"%char]) ++ q).
    { rewrite chars_app. unfold with_separator, ends_with_slash. fold l.
      rewrite Hlast. destruct (Ascii.eqb c "/"); [reflexivity|].
      rewrite chars_app. reflexivity. }
    rewrite Hchars.
    destruct (Ascii.eqb c "/"); simpl.
    + rewrite (memcpy_at l _ (length l) q) by (auto; lia). simpl.
      rewrite (app_assoc l q), (poke_at (l ++ q)).
      * eexists. split; [reflexivity|].
        rewrite !length_app. simpl. rewrite !length_drop. lia.
      * rewrite length_app. lia.
      * rewrite length_drop. lia.
    + rewrite (poke_at l _ (length l)) by (auto; lia). simpl.
      replace (l ++ "/"%char :: drop 1 (drop (length l) out_buf))
        with ((l ++ ["/"%char]) ++ drop 1 (drop (length l) out_buf))
        by (rewrite <- app_assoc; reflexivity).
      rewrite (memcpy_at (l ++ ["/"%char]) _ (S (length l)) q).
      * simpl. rewrite (app_assoc _ q), (poke_at ((l ++ ["/"%char]) ++ q)).
        -- eexists. split; [reflexivity|].
           rewrite !length_app. simpl. rewrite !length_drop. lia.
        -- rewrite !length_app. simpl. lia.
        -- rewrite !length_drop. lia.
      * rewrite length_app. simpl. lia.
      * rewrite !length_drop. lia.
  - intros Hcap.
    destruct (decide (out_buf_len < 1)) as [?|_]; [reflexivity|].
    destruct (decide (out_buf_len < _)) as [?|?]; [reflexivity|lia].
Qed.

Lemma append_nil_r s : s +:+ "" = s.
Proof. induction s as [|x s IH]; [reflexivity|]. rewrite append_cons, IH. reflexivity. Qed.

(** C5 (as amended).  For a path that resolves to an entry with a mount
    point, translate_root_path writes the mount point, a separator only
    when the mount point does not already end with one, the remainder and
    the terminator, all inside the destination; it does so exactly when
    [out_buf_len] is at least mount point + 1 + remainder + 1 (the
    separator is counted whether or not it is written), and returns NULL
    without writing otherwise. *)
Theorem translate_root_path_capacity roots root_path i info mp out_buf out_buf_len :
  get_root_info_for_path roots root_path = Some i ->
  roots !! i = Some info ->
  wf_name (name info) ->
  mount_point info = Some mp ->
  cstr mp <> "" ->
  out_buf_len <= length out_buf ->
  exists rest,
    root_path = name info +:+ rest /\
    (strlen (cstr mp) + 1 + strlen (skip_slashes rest) + 1 <= out_buf_len ->
       exists tail,
         translate_root_path roots root_path out_buf out_buf_len
         = Ok (Some (chars (with_separator (cstr mp) +:+ skip_slashes rest)
                     ++ Ascii.zero :: tail))
         /\ length (chars (with_separator (cstr mp) +:+ skip_slashes rest)
                    ++ Ascii.zero :: tail) = length out_buf) /\
    (out_buf_len < strlen (cstr mp) + 1 + strlen (skip_slashes rest) + 1 ->
       translate_root_path roots root_path out_buf out_buf_len = Ok None).
Proof.
  intros Hlook Hi Hwf Hmp Hne Hlen.
  destruct (get_root_info_for_path_Some _ _ _ Hlook) as (info' & c & Hi' & Hc & Hcmp).
  assert (info' = info) by congruence. subst info'.
  destruct (wf_name_prefix _ _ _ Hwf Hc Hcmp) as [rest Hrest].
  exists rest. split; [exact Hrest|].
  exact (translate_root_path_resolved roots root_path i info mp rest out_buf
           out_buf_len Hlook Hi Hmp Hrest Hne Hlen).
Qed.

Lemma translate_root_path_capacity_witness :
  exists tail,
    translate_root_path (g_roots_init default_config) "SYSTEM:lib"
      (replicate 16 "x"%char) 16
    = Ok (Some (chars "/system/lib" ++ Ascii.zero :: tail)) /\
    string_of_buffer (chars "/system/lib" ++ Ascii.zero :: tail)
    = Some "/system/lib".
Proof.
  destruct (translate_root_path_capacity (g_roots_init default_config) "SYSTEM:lib" 3
              (mkRoot "SYSTEM:" (str "/dev/block/stl9") None (str "system")
                      (str "/system") (str "unknown") None)
              (Lit "/system") (replicate 16 "x"%char) 16)
    as (rest & Hrest & Hfit & _);
    [reflexivity|reflexivity|reflexivity|reflexivity|discriminate|simpl; lia|].
  assert (rest = "lib") by (vm_compute in Hrest; congruence). subst rest.
  destruct Hfit as (tail & Heq & _); [vm_compute; lia|].
  exists tail. split; [exact Heq|reflexivity].
Defined.

(** RECOVERY: is mounted on ["/"]: ["RECOVERY:x"] becomes ["/x"], with no
    separator between mount point and remainder. *)
Lemma translate_root_path_recovery_root : ~ translate_always_inserts_separator.
Proof.
  intros H.
  destruct (H (g_roots_init default_config) "RECOVERY:x" 6
              (mkRoot "RECOVERY:" (Some g_mtd_device) None (str "recovery")
                      (str "/") (Some g_raw) None)
              (Lit "/") "x" (replicate 8 "x"%char))
    as [tail Ht]; try reflexivity.
  - vm_compute. lia.
  - vm_compute in Ht. discriminate Ht.
Qed.

(** C8.  Translating the bare label of an entry that has a mount point
    yields the mount point, changed at most by the separator appended when
    it does not end with one. *)
Theorem translate_root_path_bare_label roots i info mp out_buf out_buf_len :
  get_root_info_for_path roots (name info) = Some i ->
  roots !! i = Some info ->
  mount_point info = Some mp ->
  cstr mp <> "" ->
  out_buf_len <= length out_buf ->
  strlen (cstr mp) + 2 <= out_buf_len ->
  exists tail,
    translate_root_path roots (name info) out_buf out_buf_len
    = Ok (Some (chars (with_separator (cstr mp)) ++ Ascii.zero :: tail))
    /\ (with_separator (cstr mp) = cstr mp
        \/ with_separator (cstr mp) = cstr mp +:+ "/").
Proof.
  intros Hlook Hi Hmp Hne Hlen Hcap.
  destruct (translate_root_path_resolved roots (name info) i info mp "" out_buf
              out_buf_len Hlook Hi Hmp (eq_sym (append_nil_r _)) Hne Hlen)
    as [Hfit _].
  simpl in Hfit. rewrite append_nil_r in Hfit.
  destruct Hfit as (tail & Heq & _); [unfold strlen in *; simpl; lia|].
  exists tail. split; [exact Heq|].
  unfold with_separator. destruct (ends_with_slash (cstr mp)); auto.
Qed.

Lemma translate_root_path_bare_label_witness :
  exists tail,
    translate_root_path (g_roots_init default_config) "SYSTEM:"
      (replicate 16 "x"%char) 16
    = Ok (Some (chars "/system/" ++ Ascii.zero :: tail)).
Proof.
  destruct (translate_root_path_bare_label (g_roots_init default_config) 3
              (mkRoot "SYSTEM:" (str "/dev/block/stl9") None (str "system")
                      (str "/system") (str "unknown") None)
              (Lit "/system") (replicate 16 "x"%char) 16)
    as (tail & Heq & _);
    [reflexivity|reflexivity|reflexivity|discriminate|simpl; lia|vm_compute; lia|].
  exists tail. exact Heq.
Defined.

(** Every label of the initial table resolves to its own entry, whatever
    the board configuration, and its mount point, if any, is not empty. *)
Lemma g_roots_init_resolves cfg i info :
  g_roots_init cfg !! i = Some info ->
  get_root_info_for_path (g_roots_init cfg) (name info) = Some i /\
  forall mp, mount_point info = Some mp -> cstr mp <> "".
Proof.
  intros H.
  do 11 (destruct i as [|i];
         [inversion H; subst; split; [reflexivity|];
          intros mp Hmp; inversion Hmp; discriminate|]).
  discriminate H.
Qed.

(** Hence, for every label of the initial table that has a mount point. *)
Corollary translate_root_path_bare_label_initial cfg i info mp out_buf :
  g_roots_init cfg !! i = Some info ->
  mount_point info = Some mp ->
  strlen (cstr mp) + 2 <= length out_buf ->
  exists tail,
    translate_root_path (g_roots_init cfg) (name info) out_buf (length out_buf)
    = Ok (Some (chars (with_separator (cstr mp)) ++ Ascii.zero :: tail)).
Proof.
  intros Hi Hmp Hcap.
  destruct (g_roots_init_resolves cfg i info Hi) as [Hlook Hne].
  destruct (translate_root_path_resolved (g_roots_init cfg) (name info) i info mp ""
              out_buf (length out_buf) Hlook Hi Hmp (eq_sym (append_nil_r _))
              (Hne mp Hmp) (Nat.le_refl _)) as [Hfit _].
  simpl in Hfit. rewrite append_nil_r in Hfit.
  destruct Hfit as (tail & Heq & _); [unfold strlen in *; simpl; lia|].
  exists tail. exact Heq.
Qed.

(** ** The package root *)

Lemma translate_package_root_path_resolved
    roots pkg root_path i info rest out_buf out_buf_len :
  get_root_info_for_path roots root_path = Some i ->
  roots !! i = Some info ->
  filesystem info = Some g_package_file ->
  root_path = name info +:+ rest ->
  out_buf_len <= length out_buf ->
  strlen rest + 1 <= out_buf_len ->
  exists tail,
    translate_package_root_path roots pkg root_path out_buf out_buf_len
    = Ok (Some (chars rest ++ Ascii.zero :: tail, pkg)).
Proof.
  intros Hlook Hi Hfs Hpath Hlen Hcap. unfold translate_package_root_path.
  rewrite Hlook. simpl. rewrite Hi. simpl. rewrite Hfs. simpl.
  rewrite Hpath, advance_app. simpl.
  destruct (decide (out_buf_len < _)) as [?|_]; [lia|].
  unfold strcpy.
  assert (Hcpy : memcpy out_buf 0 (chars rest ++ [Ascii.zero])
                 = Ok ((chars rest ++ [Ascii.zero])
                       ++ drop (length (chars rest ++ [Ascii.zero])) out_buf)).
  { apply (memcpy_at [] out_buf 0); [reflexivity|].
    rewrite length_app, length_chars. simpl. lia. }
  rewrite Hcpy. simpl. rewrite <- app_assoc. simpl. eexists. reflexivity.
Qed.

Lemma register_package_root_bound env s z path :
  strdup_ok env (length (trace s)) path = true ->
  register_package_root env (Some z) (Some path) s
  = Ok (0%Z, with_package (Some z)
               (with_package_path (Some path) (logged (EvStrdup path) s))).
Proof.
  intros H. unfold register_package_root, bind, strdup. rewrite H. reflexivity.
Qed.

Lemma register_package_root_cleared env s path :
  register_package_root env None path s
  = Ok (0%Z, with_package None
               (with_package_path None (logged (EvFree (g_package_path s)) s))).
Proof. reflexivity. Qed.

(** C1 (as amended).  After a successful bind of a non-null archive,
    translating a path under the package root yields the path relative to
    the root together with that archive.  After a bind of the null archive
    the same translation still succeeds: it yields the relative path
    together with a null archive. *)
Theorem translate_package_root_path_after_register
    env s z path root_path i info rest out_buf :
  get_root_info_for_path (g_roots s) root_path = Some i ->
  g_roots s !! i = Some info ->
  filesystem info = Some g_package_file ->
  root_path = name info +:+ rest ->
  strlen rest + 1 <= length out_buf ->
  strdup_ok env (length (trace s)) path = true ->
  exists s1,
    register_package_root env (Some z) (Some path) s = Ok (0%Z, s1) /\
    (exists tail,
        translate_package_root_path (g_roots s1) (g_package s1) root_path
          out_buf (length out_buf)
        = Ok (Some (chars rest ++ Ascii.zero :: tail, Some z))) /\
    forall p, exists s2,
        register_package_root env None p s1 = Ok (0%Z, s2) /\
        exists tail,
          translate_package_root_path (g_roots s2) (g_package s2) root_path
            out_buf (length out_buf)
          = Ok (Some (chars rest ++ Ascii.zero :: tail, None)).
Proof.
  intros Hlook Hi Hfs Hpath Hcap Hdup.
  eexists. split; [apply register_package_root_bound; exact Hdup|]. split.
  - simpl. eapply translate_package_root_path_resolved; eauto.
  - intros p. eexists. split; [apply register_package_root_cleared|].
    simpl. eapply translate_package_root_path_resolved; eauto.
Qed.

Lemma translate_package_root_path_after_register_witness :
  exists s1,
    register_package_root calm (Some 7) (Some "foo") (initial_state default_config [])
    = Ok (0%Z, s1) /\
    exists tail,
      translate_package_root_path (g_roots s1) (g_package s1) "PACKAGE:bar"
        (replicate 8 "x"%char) 8
      = Ok (Some (chars "bar" ++ Ascii.zero :: tail, Some 7)).
Proof.
  destruct (translate_package_root_path_after_register calm
              (initial_state default_config []) 7 "foo" "PACKAGE:bar" 4
              (mkRoot "PACKAGE:" None None None None (Some g_package_file) None)
              "bar" (replicate 8 "x"%char))
    as (s1 & Hreg & Htr & _);
    [reflexivity|reflexivity|reflexivity|reflexivity|vm_compute; lia|reflexivity|].
  exists s1. split; [exact Hreg|exact Htr].
Defined.

(** C1 as the specification words it fails: once the null archive is
    bound, translating ["PACKAGE:bar"] does not fail; it returns the
    buffer holding ["bar"] and stores a null archive. *)
Lemma translate_package_root_path_unbound_succeeds :
  exists s1 s2 tail,
    register_package_root calm (Some 7) (Some "foo") (initial_state default_config [])
    = Ok (0%Z, s1) /\
    register_package_root calm None None s1 = Ok (0%Z, s2) /\
    translate_package_root_path (g_roots s2) (g_package s2) "PACKAGE:bar"
      (replicate 8 "x"%char) 8
    = Ok (Some (chars "bar" ++ Ascii.zero :: tail, None)) /\
    translate_package_root_path (g_roots s2) (g_package s2) "PACKAGE:bar"
      (replicate 8 "x"%char) 8
    <> Ok None.
Proof.
  do 3 eexists. split; [reflexivity|]. split; [reflexivity|]. split.
  - vm_compute. reflexivity.
  - vm_compute. discriminate.
Qed.

(** C10.  When duplicating the path fails, register_package_root returns
    -1 and neither the bound archive nor the owned path (nor the table)
    changes; nothing is freed. *)
Theorem register_package_root_out_of_memory env s z path :
  strdup_ok env (length (trace s)) path = false ->
  exists s',
    register_package_root env (Some z) (Some path) s = Ok ((-1)%Z, s') /\
    g_package s' = g_package s /\
    g_package_path s' = g_package_path s /\
    g_roots s' = g_roots s /\
    trace s' = trace s ++ [EvStrdup path].
Proof.
  intros H. eexists. split.
  - unfold register_package_root, bind, strdup. rewrite H. reflexivity.
  - simpl. auto.
Qed.

Lemma register_package_root_out_of_memory_witness :
  exists s1 s',
    register_package_root out_of_memory (Some 7) (Some "foo")
      (initial_state default_config []) = Ok (0%Z, s1) /\
    register_package_root out_of_memory (Some 8) (Some "bar") s1 = Ok ((-1)%Z, s') /\
    g_package s' = Some 7 /\ g_package_path s' = Some "foo".
Proof.
  eexists. 
  destruct (register_package_root_out_of_memory out_of_memory
              (with_package (Some 7)
                 (with_package_path (Some "foo")
                    (logged (EvStrdup "foo") (initial_state default_config []))))
              8 "bar") as (s' & Hreg & Hpkg & Hpath & _);
    [reflexivity|].
  exists s'. split; [reflexivity|]. split; [exact Hreg|].
  split; [exact Hpkg|exact Hpath].
Defined.

(** ** Mounting and unmounting *)

Lemma trace_logged e s : trace (logged e s) = trace s ++ [e].
Proof. reflexivity. Qed.

Lemma find_is_mounted mp table v :
  List.find (mounted_at mp) table = Some v ->
  is_mounted mp table = true /\ MountedVolume.mount_point v = mp.
Proof.
  intros H. apply List.find_some in H as [Hin Hmp]. split.
  - apply List.existsb_exists. eauto.
  - unfold mounted_at in Hmp. apply String.eqb_eq in Hmp. exact Hmp.
Qed.

Lemma is_mounted_find mp table :
  is_mounted mp table = true ->
  exists v, List.find (mounted_at mp) table = Some v.
Proof.
  intros H. destruct (List.find (mounted_at mp) table) as [v|] eqn:E; [eauto|].
  apply List.existsb_exists in H as (v & Hin & Hv).
  pose proof (List.find_none _ _ E v Hin) as Hn. congruence.
Qed.

Lemma not_mounted_find mp table :
  List.find (mounted_at mp) table = None -> is_mounted mp table = false.
Proof.
  intros H. destruct (is_mounted mp table) eqn:E; [|reflexivity].
  apply is_mounted_find in E as [v Hv]. congruence.
Qed.

Lemma is_mounted_unmounted mp table :
  is_mounted mp (List.filter (fun w => negb (mounted_at mp w)) table) = false.
Proof.
  unfold is_mounted. induction table as [|v table IH]; [reflexivity|].
  simpl. destruct (mounted_at mp v) eqn:E; simpl; [exact IH|].
  rewrite E. exact IH.
Qed.

Lemma is_mounted_cons dev mp fs table :
  is_mounted mp (mk_volume dev mp fs :: table) = true.
Proof. unfold is_mounted, mounted_at. simpl. rewrite String.eqb_refl. reflexivity. Qed.

(** ensure_root_path_unmounted, once the label is resolved. *)
Lemma ensure_root_path_unmounted_resolved env root_path s i info :
  get_root_info_for_path (g_roots s) root_path = Some i ->
  g_roots s !! i = Some info ->
  ensure_root_path_unmounted env root_path s =
  match mount_point info with
  | None => Ok (0%Z, s)
  | Some mp =>
      let r := scan_mounted_volumes_ret env (length (trace s)) in
      if (r <? 0)%Z then Ok (r, logged EvScanMountedVolumes s)
      else
        let s2 := logged (EvFindMountedVolume (cstr mp))
                    (with_mounts_state (mounts s) (logged EvScanMountedVolumes s)) in
        match List.find (mounted_at (cstr mp)) (mounts s) with
        | None => Ok (0%Z, s2)
        | Some v => unmount_mounted_volume env v s2
        end
  end.
Proof.
  intros Hlook Hi. unfold ensure_root_path_unmounted. unfold_prims.
  rewrite Hlook, Hi. destruct (mount_point info) as [mp|]; [|reflexivity].
  simpl. destruct (_ <? 0)%Z; [reflexivity|]. simpl.
  destruct (List.find _ _); reflexivity.
Qed.

(** C6.  Formatting a volume that has a mount point and is mounted first
    unmounts it; when that unmount fails, format_root_device returns the
    failure and has called no erase or format primitive and no external
    format helper. *)
Theorem format_root_device_busy env s root i info dev mp v :
  get_root_info_for_path (g_roots s) root = Some i ->
  g_roots s !! i = Some info ->
  device info = Some dev ->
  mount_point info = Some mp ->
  (0 <= scan_mounted_volumes_ret env (length (trace s)))%Z ->
  List.find (mounted_at (cstr mp)) (mounts s) = Some v ->
  (unmount_ret env (length (trace s) + 2) v < 0)%Z ->
  exists s',
    format_root_device env root s
    = Ok (unmount_ret env (length (trace s) + 2) v, s') /\
    trace s' = trace s ++ [EvScanMountedVolumes; EvFindMountedVolume (cstr mp);
                           EvUnmount v] /\
    Forall (fun e => is_format_event e = false)
           [EvScanMountedVolumes; EvFindMountedVolume (cstr mp); EvUnmount v] /\
    mounts s' = mounts s.
Proof.
  intros Hlook Hi Hdev Hmp Hscan Hfind Hun.
  unfold format_root_device.
  unfold bind at 1. unfold lookup_root. rewrite Hlook.
  unfold bind at 1. unfold load, deref. rewrite Hi, Hdev, Hmp.
  unfold bind at 1.
  rewrite (ensure_root_path_unmounted_resolved env root s i info Hlook Hi), Hmp.
  cbv zeta. destruct (Z.ltb_spec (scan_mounted_volumes_ret env (length (trace s))) 0);
    [lia|].
  rewrite Hfind. unfold unmount_mounted_volume.
  assert (Ht : length (trace (logged (EvFindMountedVolume (cstr mp))
                        (with_mounts_state (mounts s)
                           (logged EvScanMountedVolumes s))))
               = length (trace s) + 2).
  { simpl. rewrite !length_app. simpl. lia. }
  rewrite Ht.
  destruct (Z.eqb_spec (unmount_ret env (length (trace s) + 2) v) 0); [lia|].
  destruct (Z.ltb_spec (unmount_ret env (length (trace s) + 2) v) 0); [|lia].
  eexists. split; [reflexivity|]. split; [|split].
  - simpl. rewrite <- !app_assoc. reflexivity.
  - repeat constructor.
  - reflexivity.
Qed.

(** internal_root_mounted on a pointer into the table. *)
Lemma internal_root_mounted_resolved env s i info :
  g_roots s !! i = Some info ->
  internal_root_mounted env (Some i) s =
  match mount_point info with
  | None => Ok ((-1)%Z, s)
  | Some mp =>
      let r := scan_mounted_volumes_ret env (length (trace s)) in
      if (r <? 0)%Z then Ok (r, logged EvScanMountedVolumes s)
      else
        let s2 := logged (EvFindMountedVolume (cstr mp))
                    (with_mounts_state (mounts s) (logged EvScanMountedVolumes s)) in
        match List.find (mounted_at (cstr mp)) (mounts s) with
        | Some _ => Ok (0%Z, s2)
        | None => Ok ((-1)%Z, s2)
        end
  end.
Proof.
  intros Hi. unfold internal_root_mounted. unfold_prims.
  rewrite Hi. destruct (mount_point info) as [mp|]; [|reflexivity].
  simpl. destruct (_ <? 0)%Z; [reflexivity|]. simpl.
  destruct (List.find _ _); reflexivity.
Qed.

(** mount_internal on a real mount point: a zero result means mounted. *)
Lemma mount_internal_mounts env dev mp fs fso s r s1 :
  mount_internal env dev (Some mp) fs fso s = Ok (r, s1) ->
  g_roots s1 = g_roots s /\
  (r = 0%Z -> is_mounted mp (mounts s1) = true) /\
  (r <> 0%Z -> mounts s1 = mounts s).
Proof.
  unfold mount_internal. intros H.
  destruct (negb (strcmp_eq fs "auto") && bool_decide (fso = None)).
  - unfold mount in H. inversion H as [[Hr Hs]]; clear H. rewrite Hr.
    destruct (Z.eqb_spec r 0) as [E|E]; simpl.
    + split; [reflexivity|]. split; [intros _; apply is_mounted_cons|].
      intros E'. contradiction.
    + split; [reflexivity|]. split; [intros E'; contradiction|reflexivity].
  - destruct (decide _); [discriminate|].
    unfold __system in H. inversion H as [[Hr Hs]]; clear H. rewrite Hr.
    destruct (Z.eqb_spec r 0) as [E|E]; simpl.
    + split; [reflexivity|]. split; [intros _; apply is_mounted_cons|].
      intros E'. contradiction.
    + split; [reflexivity|]. split; [intros E'; contradiction|reflexivity].
Qed.

(** A zero result of the mounting half of ensure_root_path_mounted means
    the entry has a mount point and it is in the live mount table. *)
Lemma mount_root_device_mounts env s i info s1 :
  g_roots s !! i = Some info ->
  mount_root_device env (Some i) s = Ok (0%Z, s1) ->
  g_roots s1 = g_roots s /\
  exists mp, mount_point info = Some mp /\ is_mounted (cstr mp) (mounts s1) = true.
Proof.
  intros Hi H. unfold mount_root_device in H.
  unfold bind at 1 in H. unfold load, deref in H. rewrite Hi in H.
  destruct (ptr_is (device info) g_mtd_device).
  - destruct (partition_name info) as [pn|]; [|discriminate].
    unfold bind, mtd_scan_partitions, mtd_find_partition_by_name,
      mtd_mount_partition, ret in H. simpl in H.
    destruct (List.find _ _) as [p|]; [|discriminate].
    destruct (mount_point info) as [mp|]; simpl in H; [|discriminate].
    inversion H as [[Hr Hs]]; clear H. rewrite Hr. simpl.
    split; [reflexivity|]. exists mp. split; [reflexivity|]. apply is_mounted_cons.
  - destruct (device info) as [dev|]; [|discriminate].
    destruct (mount_point info) as [mp|]; [|discriminate].
    destruct (filesystem info) as [fs|]; [|discriminate].
    destruct (_ || _); [discriminate|].
    unfold bind at 1 in H. unfold mkdir in H. unfold bind at 1 in H.
    destruct (mount_internal _ _ _ _ _ _) as [|[r s0]] eqn:Hmi; [discriminate|].
    apply mount_internal_mounts in Hmi as (Hroots & Hzero & _). simpl in Hroots.
    destruct (Z.eqb_spec r 0) as [E|E]; simpl in H.
    + inversion H; subst s1. split; [exact Hroots|]. exists mp. auto.
    + destruct (device2 info) as [dev2|]; [|discriminate].
      unfold bind, mount, ret in H.
      destruct (Z.eqb_spec (mount_ret env (length (trace s0)) (cstr dev2) (cstr mp)
                              (cstr fs)) 0) as [E2|E2]; simpl in H; [|discriminate].
      inversion H; subst s1. simpl. split; [exact Hroots|]. exists mp.
      split; [reflexivity|]. apply is_mounted_cons.
Qed.

(** A successful ensure_root_path_mounted leaves the table as it was and
    the mount point of the entry in the live mount table. *)
Lemma ensure_root_path_mounted_mounts env root_path s s1 :
  ensure_root_path_mounted env root_path s = Ok (0%Z, s1) ->
  g_roots s1 = g_roots s /\
  exists i info mp,
    get_root_info_for_path (g_roots s) root_path = Some i /\
    g_roots s !! i = Some info /\
    mount_point info = Some mp /\
    is_mounted (cstr mp) (mounts s1) = true.
Proof.
  intros H. unfold ensure_root_path_mounted in H.
  unfold bind at 1 in H. unfold lookup_root in H.
  destruct (get_root_info_for_path (g_roots s) root_path) as [i|] eqn:Hlook;
    [|discriminate].
  destruct (get_root_info_for_path_Some _ _ _ Hlook) as (info & _ & Hi & _).
  unfold bind at 1 in H. rewrite (internal_root_mounted_resolved env s i info Hi) in H.
  assert (Hrest : forall s0, g_roots s0 = g_roots s ->
                    mount_root_device env (Some i) s0 = Ok (0%Z, s1) ->
                    g_roots s1 = g_roots s /\
                    exists i0 info0 mp,
                      Some i = Some i0 /\ g_roots s !! i0 = Some info0 /\
                      mount_point info0 = Some mp /\
                      is_mounted (cstr mp) (mounts s1) = true).
  { intros s0 Hr Hm. rewrite <- Hr in Hi.
    apply (mount_root_device_mounts env s0 i info s1 Hi) in Hm as (Hr1 & mp & Hmp & Hm).
    rewrite Hr in *. split; [exact Hr1|]. exists i, info, mp. auto. }
  destruct (mount_point info) as [mp|] eqn:Hmp.
  - cbv zeta in H.
    destruct (Z.ltb_spec (scan_mounted_volumes_ret env (length (trace s))) 0) as [Hs|Hs].
    + destruct (Z.leb_spec 0 (scan_mounted_volumes_ret env (length (trace s))));
        [lia|].
      apply Hrest in H; auto.
    + destruct (List.find _ _) as [v|] eqn:Hfind; simpl in H.
      * inversion H; subst s1. simpl. split; [reflexivity|].
        exists i, info, mp. repeat split; auto.
        eapply find_is_mounted; eassumption.
      * apply Hrest in H; auto.
  - simpl in H. apply Hrest in H; auto.
Qed.

(** C7 (as amended).  After a successful ensure_root_path_mounted, a
    second call with the same path succeeds at once and mounts nothing,
    provided its mount-table rescan does not fail: it only rescans the
    mount table and finds the mount point of the entry there. *)
Theorem ensure_root_path_mounted_idempotent env root_path s s1 :
  ensure_root_path_mounted env root_path s = Ok (0%Z, s1) ->
  (0 <= scan_mounted_volumes_ret env (length (trace s1)))%Z ->
  exists s2 i info mp,
    get_root_info_for_path (g_roots s1) root_path = Some i /\
    g_roots s1 !! i = Some info /\
    mount_point info = Some mp /\
    ensure_root_path_mounted env root_path s1 = Ok (0%Z, s2) /\
    trace s2 = trace s1 ++ [EvScanMountedVolumes; EvFindMountedVolume (cstr mp)] /\
    Forall (fun e => is_mount_event e = false)
           [EvScanMountedVolumes; EvFindMountedVolume (cstr mp)] /\
    mounts s2 = mounts s1 /\
    g_roots s2 = g_roots s1.
Proof.
  intros H Hscan.
  apply ensure_root_path_mounted_mounts in H
    as (Hroots & i & info & mp & Hlook & Hi & Hmp & Hm).
  rewrite <- Hroots in Hlook, Hi.
  unfold ensure_root_path_mounted. unfold bind at 1. unfold lookup_root. rewrite Hlook.
  unfold bind at 1. rewrite (internal_root_mounted_resolved env s1 i info Hi), Hmp.
  cbv zeta.
  destruct (Z.ltb_spec (scan_mounted_volumes_ret env (length (trace s1))) 0); [lia|].
  apply is_mounted_find in Hm as [v Hv]. rewrite Hv. simpl.
  eexists. exists i, info, mp. repeat (split; [reflexivity || assumption|]).
  simpl. split; [rewrite <- app_assoc; reflexivity|].
  split; [repeat constructor|]. auto.
Qed.

(** ** Probing the filesystem *)

Lemma map_name_insert (roots : list RootInfo) i info info' :
  roots !! i = Some info -> name info' = name info ->
  map name (<[i := info']> roots) = map name roots.
Proof.
  revert i. induction roots as [|r roots IH]; intros [|i] Hi Hn; simpl in *;
    try discriminate.
  - inversion Hi; subst. rewrite Hn. reflexivity.
  - f_equal. apply IH; auto.
Qed.

Lemma system_runs env c s :
  exists s1,
    __system env c s = Ok (system_ret env (length (trace s)) c, s1) /\
    g_roots s1 = g_roots s /\
    (system_ret env (length (trace s)) c <> 0%Z -> mounts s1 = mounts s).
Proof.
  unfold __system. destruct c as [fs o d [mp|]| |]; simpl.
  - destruct (Z.eqb_spec (system_ret env (length (trace s))
                            (CmdMount fs o d (Some mp))) 0);
      eexists; repeat split; auto; intros; contradiction.
  - eexists; repeat split; auto.
  - eexists; repeat split; auto.
  - eexists; repeat split; auto.
Qed.

Section Probe.
Variable env : Env.
Hypothesis scan_ok : forall t, (0 <= scan_mounted_volumes_ret env t)%Z.
Hypothesis unmount_ok : forall t v, unmount_ret env t v = 0%Z.

(** With a working mount table and unmount, ensure_root_path_unmounted
    succeeds and the volume is not mounted afterwards. *)
Lemma ensure_root_path_unmounted_unmounts root_path s i info :
  get_root_info_for_path (g_roots s) root_path = Some i ->
  g_roots s !! i = Some info ->
  exists r s1,
    ensure_root_path_unmounted env root_path s = Ok (r, s1) /\
    (0 <= r)%Z /\
    g_roots s1 = g_roots s /\
    root_mounted info s1 = false.
Proof.
  intros Hlook Hi.
  rewrite (ensure_root_path_unmounted_resolved env root_path s i info Hlook Hi).
  unfold root_mounted. destruct (mount_point info) as [mp|].
  - cbv zeta.
    destruct (Z.ltb_spec (scan_mounted_volumes_ret env (length (trace s))) 0) as [Hs|Hs];
      [specialize (scan_ok (length (trace s))); lia|].
    destruct (List.find _ _) as [v|] eqn:Hfind.
    + unfold unmount_mounted_volume. rewrite unmount_ok. simpl.
      do 2 eexists. split; [reflexivity|]. split; [lia|]. split; [reflexivity|].
      simpl. apply find_is_mounted in Hfind as [_ Hv]. rewrite Hv.
      apply is_mounted_unmounted.
    + do 2 eexists. split; [reflexivity|]. split; [lia|]. split; [reflexivity|].
      simpl. apply not_mounted_find. exact Hfind.
  - do 2 eexists. split; [reflexivity|]. split; [lia|]. auto.
Qed.

Lemma detect_loop_unmounts root_path i dev options :
  forall s info,
    get_root_info_for_path (g_roots s) root_path = Some i ->
    g_roots s !! i = Some info ->
    device info = Some dev ->
    Forall (trial_fits dev (mount_point info)) options ->
    root_mounted info s = false ->
    exists r s',
      detect_loop env root_path (Some i) options s = Ok (r, s') /\
      root_mounted info s' = false.
Proof.
  induction options as [|o options IH]; intros s info Hlook Hi Hdev Hfit Hun.
  - do 2 eexists. split; [reflexivity|exact Hun].
  - inversion Hfit as [|? ? Ho Hrest]; subst.
    simpl. unfold bind at 1. unfold load, deref. rewrite Hi, Hdev.
    unfold bind at 1. unfold mount_internal.
    replace (bool_decide (Some (FilesystemOptions.filesystem_options o) = None))
      with false by reflexivity.
    rewrite andb_false_r.
    destruct (decide _) as [Hbig|_]; [unfold trial_fits in Ho; lia|].
    set (cmd := CmdMount _ _ _ _).
    destruct (Z.eqb_spec (system_ret env (length (trace s)) cmd) 0) as [E|E].
    + (* the trial mount succeeded *)
      set (info' := {| name := name info; device := device info;
                       device2 := device2 info;
                       partition_name := partition_name info;
                       mount_point := mount_point info;
                       filesystem := str (FilesystemOptions.filesystem o);
                       filesystem_options :=
                         str (FilesystemOptions.filesystem_options o) |}).
      destruct (system_runs env cmd s) as (s1 & Hs1 & Hr1 & _).
      rewrite Hs1, E. simpl.
      unfold bind at 1. unfold store_fs. rewrite Hr1, Hi. fold info'.
      set (s2 := with_roots (<[i := info']> (g_roots s)) s1).
      assert (Hlook2 : get_root_info_for_path (g_roots s2) root_path = Some i).
      { simpl. rewrite <- Hlook. apply get_root_info_for_path_names.
        eapply map_name_insert; eauto. }
      assert (Hi2 : g_roots s2 !! i = Some info').
      { simpl. apply list_lookup_insert_eq. eapply lookup_lt_Some; eauto. }
      destruct (ensure_root_path_unmounted_unmounts root_path s2 i info' Hlook2 Hi2)
        as (r & s3 & Hun3 & _ & _ & Hm3).
      unfold bind at 1. rewrite Hun3. simpl.
      do 2 eexists. split; [reflexivity|]. exact Hm3.
    + (* it failed: the mount table is as before *)
      destruct (system_runs env cmd s) as (s1 & Hs1 & Hr1 & Hm1).
      specialize (Hm1 E). rewrite Hs1.
      destruct (Z.eqb_spec (system_ret env (length (trace s)) cmd) 0);
        [contradiction|].
      apply IH; try rewrite Hr1; auto.
      unfold root_mounted in *. rewrite Hm1. exact Hun.
Qed.

(** C2 (as amended).  For a label that resolves to an entry with a
    device, and as long as the mount-table rescan and the unmount do not
    fail, detect_internal_fs returns with the volume unmounted, whether
    it found a filesystem or not. *)
Theorem detect_internal_fs_leaves_unmounted root_path s i info dev :
  get_root_info_for_path (g_roots s) root_path = Some i ->
  g_roots s !! i = Some info ->
  device info = Some dev ->
  Forall (trial_fits dev (mount_point info)) g_fs_options ->
  exists r s',
    detect_internal_fs env root_path s = Ok (r, s') /\
    root_mounted info s' = false.
Proof.
  intros Hlook Hi Hdev Hfit. unfold detect_internal_fs.
  unfold bind at 1. unfold lookup_root. rewrite Hlook.
  unfold bind at 1. unfold load, deref. rewrite Hi, Hdev.
  destruct (ensure_root_path_unmounted_unmounts root_path s i info Hlook Hi)
    as (r & s1 & Hun & Hr & Hroots & Hm).
  unfold bind at 1. rewrite Hun.
  destruct (Z.ltb_spec r 0); [lia|].
  apply detect_loop_unmounts with (dev := dev); try rewrite Hroots; auto.
Qed.

End Probe.

Lemma detect_internal_fs_leaves_unmounted_witness :
  exists r s',
    detect_internal_fs calm "DATA:"
      (initial_state default_config [mk_volume "/dev/block/mmcblk0p2" "/data" "ext4"])
    = Ok (r, s') /\
    root_mounted data_root s' = false.
Proof.
  apply (detect_internal_fs_leaves_unmounted calm) with (i := 1)
                                                        (dev := Lit "/dev/block/mmcblk0p2").
  - intros t. simpl. lia.
  - intros t v. reflexivity.
  - reflexivity.
  - reflexivity.
  - reflexivity.
  - repeat constructor; unfold trial_fits; vm_compute; lia.
Defined.

(** C2 as the specification words it fails twice.  TMP: has no device:
    the probe returns at once and a mounted /tmp stays mounted.  And when
    the unmount after a successful trial mount fails, its result is
    dropped: the probe reports success with /data still mounted. *)
Lemma detect_internal_fs_leaves_mounted :
  ~ detect_always_leaves_unmounted /\
  exists s',
    detect_internal_fs busy "DATA:" (initial_state default_config []) = Ok (0%Z, s') /\
    root_mounted data_root s' = true.
Proof.
  split.
  - intros H.
    specialize (H calm (initial_state default_config [mk_volume "tmpfs" "/tmp" "tmpfs"])
                  "TMP:" 10 tmp_root (-1)%Z
                  (initial_state default_config [mk_volume "tmpfs" "/tmp" "tmpfs"])
                  eq_refl eq_refl eq_refl).
    vm_compute in H. discriminate H.
  - eexists. split; [vm_compute; reflexivity|]. vm_compute. reflexivity.
Qed.

Lemma format_root_device_busy_witness :
  exists s',
    format_root_device busy "DATA:"
      (initial_state default_config [mk_volume "/dev/block/mmcblk0p2" "/data" "ext4"])
    = Ok ((-1)%Z, s') /\
    trace s' = [EvScanMountedVolumes; EvFindMountedVolume "/data";
                EvUnmount (mk_volume "/dev/block/mmcblk0p2" "/data" "ext4")].
Proof.
  destruct (format_root_device_busy busy
              (initial_state default_config
                 [mk_volume "/dev/block/mmcblk0p2" "/data" "ext4"])
              "DATA:" 1 data_root (Lit "/dev/block/mmcblk0p2") (Lit "/data")
              (mk_volume "/dev/block/mmcblk0p2" "/data" "ext4"))
    as (s' & Hrun & Htrace & _);
    [reflexivity|reflexivity|reflexivity|reflexivity|simpl; lia|reflexivity
    |simpl; lia|].
  exists s'. split; [exact Hrun|exact Htrace].
Defined.

Lemma ensure_root_path_mounted_idempotent_witness :
  exists s1 s2,
    ensure_root_path_mounted calm "SYSTEM:" (initial_state default_config [])
    = Ok (0%Z, s1) /\
    trace s1 = [EvScanMountedVolumes; EvFindMountedVolume "/system";
                EvMkdir "/system";
                EvMount "/dev/block/stl9" (Some "/system") "unknown"] /\
    ensure_root_path_mounted calm "SYSTEM:" s1 = Ok (0%Z, s2) /\
    trace s2 = trace s1 ++ [EvScanMountedVolumes; EvFindMountedVolume "/system"].
Proof.
  evar (s1 : State).
  assert (H1 : ensure_root_path_mounted calm "SYSTEM:" (initial_state default_config [])
               = Ok (0%Z, s1)) by (subst s1; vm_compute; reflexivity).
  destruct (ensure_root_path_mounted_idempotent calm "SYSTEM:" _ s1 H1)
    as (s2 & i & info & mp & Hlook & Hi & Hmp & H2 & Ht2 & _); [simpl; lia|].
  vm_compute in Hlook. inversion Hlook. subst i.
  vm_compute in Hi. inversion Hi. subst info.
  vm_compute in Hmp. inversion Hmp. subst mp.
  exists s1, s2. split; [exact H1|]. split; [reflexivity|].
  split; [exact H2|exact Ht2].
Defined.

(** C7 as the specification words it fails.  When the mount-table rescan
    of the second call fails, internal_root_mounted returns a negative
    value, which ensure_root_path_mounted takes for "not mounted": it
    mounts the mounted volume again, and returns -1 when that mount is
    refused. *)
Lemma ensure_root_path_mounted_remounts :
  ~ ensure_mounted_always_idempotent /\
  exists s1 s2,
    ensure_root_path_mounted rescan_fails_later "SYSTEM:"
      (initial_state default_config []) = Ok (0%Z, s1) /\
    ensure_root_path_mounted rescan_fails_later "SYSTEM:" s1 = Ok ((-1)%Z, s2) /\
    trace s2 = trace s1 ++ [EvScanMountedVolumes; EvMkdir "/system";
                            EvMount "/dev/block/stl9" (Some "/system") "unknown"].
Proof.
  split.
  - intros H.
    evar (s1 : State).
    assert (H1 : ensure_root_path_mounted rescan_fails_later "SYSTEM:"
                   (initial_state default_config []) = Ok (0%Z, s1))
      by (subst s1; vm_compute; reflexivity).
    destruct (H _ _ _ _ H1) as (s2 & calls & H2 & _).
    subst s1. vm_compute in H2. discriminate H2.
  - do 2 eexists. split; [vm_compute; reflexivity|].
    split; vm_compute; reflexivity.
Qed.

(** ** Formatting *)

(** The command line for an ext3 volume on the MMC marker device. *)
Lemma mke2fs_ext3_command :
  render (CmdMke2fs "ext3" "-O ^huge_file,extent " "@")
  = "/sbin/mke2fs -T ext3 -F -j -q -m 0 -b 4096 -O ^huge_file,extent  @".
Proof. reflexivity. Qed.

(** The MMC half of format_root_device on an ext3 volume whose partition
    is found: the MMC formatter runs, then mke2fs, whose exit status alone
    decides the result. *)
Lemma format_mmc_ext3 env root info pn fs p s :
  device info = Some g_mmc_device ->
  partition_name info = Some pn ->
  filesystem info = Some fs ->
  cstr fs = "ext3" ->
  List.find (fun q => String.eqb (mmc_name q) (cstr pn))
            (mmc_table env (length (trace s))) = Some p ->
  let cmd := CmdMke2fs "ext3" "-O ^huge_file,extent " "@" in
  exists s',
    format_mmc env root info g_mmc_device s
    = Ok (if (system_ret env (length (trace s) + 3) cmd =? 0)%Z
          then 0%Z else (-1)%Z, s') /\
    trace s' = trace s ++ [EvMmcScan; EvMmcFind (Some (cstr pn));
                           EvMmcFormatExt3 p; EvSystem cmd] /\
    mounts s' = mounts s.
Proof.
  intros Hdev Hpn Hfs Hext Hfind cmd.
  unfold format_mmc, format_generic.
  unfold bind, ret, mmc_scan_partitions, mmc_find_partition_by_name,
    mmc_format_ext3, __system.
  rewrite Hdev, Hpn, Hfs, Hext. simpl. rewrite Hfind. simpl.
  rewrite !length_app. simpl.
  replace (length (trace s) + 1 + 1 + 1) with (length (trace s) + 3) by lia.
  fold cmd.
  destruct (system_ret env (length (trace s) + 3) cmd =? 0)%Z; simpl;
    eexists; (split; [reflexivity|]); simpl;
    (split; [rewrite <- !app_assoc; reflexivity|reflexivity]).
Qed.

(** C4.  A volume on the MMC marker device whose filesystem is "ext3":
    once past the unmount and with its partition found, format_root_device
    calls the MMC ext3 formatter and then, whatever that returned, goes on
    to the generic branches and runs mke2fs on the same device; the result
    of format_root_device is decided by mke2fs alone. *)
Theorem format_root_device_mmc_ext3 env root s s0 i info pn fs p :
  get_root_info_for_path (g_roots s) root = Some i ->
  g_roots s !! i = Some info ->
  device info = Some g_mmc_device ->
  partition_name info = Some pn ->
  filesystem info = Some fs ->
  cstr fs = "ext3" ->
  match mount_point info with
  | None => s0 = s
  | Some _ => exists r, ensure_root_path_unmounted env root s = Ok (r, s0) /\ (0 <= r)%Z
  end ->
  List.find (fun q => String.eqb (mmc_name q) (cstr pn))
            (mmc_table env (length (trace s0))) = Some p ->
  let cmd := CmdMke2fs "ext3" "-O ^huge_file,extent " "@" in
  exists s',
    format_root_device env root s
    = Ok (if (system_ret env (length (trace s0) + 3) cmd =? 0)%Z
          then 0%Z else (-1)%Z, s') /\
    trace s' = trace s0 ++ [EvMmcScan; EvMmcFind (Some (cstr pn));
                            EvMmcFormatExt3 p; EvSystem cmd] /\
    render cmd = "/sbin/mke2fs -T ext3 -F -j -q -m 0 -b 4096 -O ^huge_file,extent  @".
Proof.
  intros Hlook Hi Hdev Hpn Hfs Hext Hstage Hfind cmd.
  destruct (format_mmc_ext3 env root info pn fs p s0 Hdev Hpn Hfs Hext Hfind)
    as (s' & Hrun & Htrace & _).
  exists s'. split; [|split; [exact Htrace|reflexivity]].
  unfold format_root_device.
  unfold bind at 1. unfold lookup_root. rewrite Hlook.
  unfold bind at 1. unfold load, deref. rewrite Hi, Hdev.
  assert (Hdevice : format_device env root info g_mmc_device s0
                    = format_mmc env root info g_mmc_device s0).
  { unfold format_device. rewrite Hdev. reflexivity. }
  destruct (mount_point info) as [mp|].
  - destruct Hstage as (r & Hun & Hr). unfold bind at 1. rewrite Hun.
    destruct (Z.ltb_spec r 0); [lia|]. rewrite Hdevice. exact Hrun.
  - subst s0. rewrite Hdevice. exact Hrun.
Qed.

Lemma format_root_device_mmc_ext3_witness :
  exists s',
    format_root_device mmc_wipe_fails "DATA:" (initial_state mmc_board [])
    = Ok (0%Z, s') /\
    trace s' = [EvScanMountedVolumes; EvFindMountedVolume "/data";
                EvMmcScan; EvMmcFind (Some "userdata");
                EvMmcFormatExt3 {| mmc_name := "userdata" |};
                EvSystem (CmdMke2fs "ext3" "-O ^huge_file,extent " "@")].
Proof.
  destruct (format_root_device_mmc_ext3 mmc_wipe_fails "DATA:"
              (initial_state mmc_board [])
              (logged (EvFindMountedVolume "/data")
                 (logged EvScanMountedVolumes (initial_state mmc_board [])))
              1 mmc_data_root (Lit "userdata") (Lit "ext3")
              {| mmc_name := "userdata" |})
    as (s' & Hrun & Htrace & _);
    [reflexivity|reflexivity|reflexivity|reflexivity|reflexivity|reflexivity
    |exists 0%Z; split; [reflexivity|lia]|reflexivity|].
  exists s'. split; [exact Hrun|exact Htrace].
Defined.

(** ** set_type_internal_fs *)

Lemma set_type_loop_find info new_fs options s :
  set_type_loop info new_fs options s =
  match List.find (fun o => strcmp_eq new_fs (FilesystemOptions.filesystem o)) options with
  | None => Ok ((-1)%Z, s)
  | Some o =>
      match store_fs info (str (FilesystemOptions.filesystem o))
                     (str (FilesystemOptions.filesystem_options o)) s with
      | Crash => Crash
      | Ok (_, s') => Ok (0%Z, s')
      end
  end.
Proof.
  induction options as [|o options IH]; simpl; [reflexivity|].
  destruct (strcmp_eq new_fs (FilesystemOptions.filesystem o)); [|exact IH].
  unfold bind. destruct (store_fs _ _ _ s) as [|[[] s']]; reflexivity.
Qed.

(** C9 (as amended).  set_type_internal_fs never checks the lookup.  When
    [new_fs] matches no entry of [g_fs_options] it returns -1 and changes
    nothing, whether or not the label resolves.  When [new_fs] matches an
    entry, an unresolved label makes it dereference NULL, and a resolved
    one makes it return 0 with both fields of the table entry copied from
    the first matching [g_fs_options] entry and nothing else changed. *)
Theorem set_type_internal_fs_cases s root_path new_fs :
  (matching_fs new_fs = None ->
     set_type_internal_fs root_path new_fs s = Ok ((-1)%Z, s)) /\
  (forall o,
     matching_fs new_fs = Some o ->
     get_root_info_for_path (g_roots s) root_path = None ->
     set_type_internal_fs root_path new_fs s = Crash) /\
  (forall o i info,
     matching_fs new_fs = Some o ->
     get_root_info_for_path (g_roots s) root_path = Some i ->
     g_roots s !! i = Some info ->
     set_type_internal_fs root_path new_fs s
     = Ok (0%Z, with_roots (<[i := retyped info o]> (g_roots s)) s)
     /\ filesystem (retyped info o) = str (FilesystemOptions.filesystem o)
     /\ filesystem_options (retyped info o)
        = str (FilesystemOptions.filesystem_options o)).
Proof.
  unfold set_type_internal_fs, matching_fs.
  unfold bind at 1 2 3. unfold lookup_root. rewrite set_type_loop_find.
  split; [|split].
  - intros H. rewrite H. reflexivity.
  - intros o Ho Hlook. rewrite Ho, Hlook. reflexivity.
  - intros o i info Ho Hlook Hi. rewrite Ho, Hlook. unfold store_fs. rewrite Hi.
    auto.
Qed.

Lemma set_type_internal_fs_cases_witness :
  set_type_internal_fs "DATA:" "ext4" (initial_state default_config [])
  = Ok (0%Z, with_roots
               (<[1 := retyped data_root
                         {| FilesystemOptions.filesystem := "ext4";
                            FilesystemOptions.filesystem_options :=
                              "noatime,nodiratime,nodev,data=ordered" |}]>
                  (g_roots_init default_config))
               (initial_state default_config []))
  /\ set_type_internal_fs "DATA:" "vfat" (initial_state default_config [])
     = Ok ((-1)%Z, initial_state default_config [])
  /\ set_type_internal_fs "NOLABEL" "ext4" (initial_state default_config []) = Crash.
Proof.
  split; [|split].
  - destruct (set_type_internal_fs_cases (initial_state default_config [])
                "DATA:" "ext4") as (_ & _ & H).
    destruct (H {| FilesystemOptions.filesystem := "ext4";
                   FilesystemOptions.filesystem_options :=
                     "noatime,nodiratime,nodev,data=ordered" |} 1 data_root)
      as [Hrun _]; [reflexivity|reflexivity|reflexivity|].
    exact Hrun.
  - destruct (set_type_internal_fs_cases (initial_state default_config [])
                "DATA:" "vfat") as (H & _).
    apply H. reflexivity.
  - destruct (set_type_internal_fs_cases (initial_state default_config [])
                "NOLABEL" "ext4") as (_ & H & _).
    apply (H {| FilesystemOptions.filesystem := "ext4";
                FilesystemOptions.filesystem_options :=
                  "noatime,nodiratime,nodev,data=ordered" |}); reflexivity.
Defined.

(** C9 as the specification words it fails: with a path that has no
    separator and a filesystem that is not in [g_fs_options], the NULL
    lookup result is never dereferenced and -1 is returned. *)
Lemma set_type_internal_fs_unknown_fs_is_safe : ~ set_type_always_dereferences.
Proof.
  intros H.
  specialize (H (initial_state default_config []) "NOLABEL" "vfat" eq_refl).
  vm_compute in H. discriminate H.
Qed.

(** ** Entries without mount point *)

(** C3 (the code departs from it).  BOOT: has no mount point, yet
    ensure_root_path_mounted dispatches on its MTD device, rescans the
    partitions and calls mtd_mount_partition with a NULL mount point. *)
Theorem ensure_root_path_mounted_boot :
  exists s',
    ensure_root_path_mounted calm "BOOT:" (initial_state default_config [])
    = Ok ((-1)%Z, s') /\
    trace s' = [EvMtdScan; EvMtdFind (Some "boot");
                EvMtdMount {| mtd_name := "boot" |} None (Some "@")] /\
    List.existsb is_mount_event (trace s') = true.
Proof.
  eexists. split; [vm_compute; reflexivity|]. split; reflexivity.
Qed.

(** For an entry without mount point that is not on the MTD marker device
    the sibling path does refuse: -1 and no collaborator call at all. *)
Lemma ensure_root_path_mounted_no_mount_point env root_path s i info :
  get_root_info_for_path (g_roots s) root_path = Some i ->
  g_roots s !! i = Some info ->
  mount_point info = None ->
  device info <> Some g_mtd_device ->
  ensure_root_path_mounted env root_path s = Ok ((-1)%Z, s).
Proof.
  intros Hlook Hi Hmp Hdev. unfold ensure_root_path_mounted.
  unfold bind at 1. unfold lookup_root. rewrite Hlook.
  unfold bind at 1. rewrite (internal_root_mounted_resolved env s i info Hi), Hmp.
  simpl. unfold mount_root_device, bind, load, deref. rewrite Hi.
  unfold ptr_is. rewrite bool_decide_eq_false_2 by exact Hdev.
  rewrite Hmp. destruct (device info); reflexivity.
Qed.

(** * Further properties *)

(** ** More on the lookup *)

Lemma strlen_append a b : strlen (a +:+ b) = strlen a + strlen b.
Proof.
  unfold strlen. induction a as [|x a IH]; [reflexivity|].
  rewrite append_cons. simpl. rewrite IH. reflexivity.
Qed.

Lemma find_colon_append n rest c :
  find_colon n = Some c -> find_colon (n +:+ rest) = Some c.
Proof.
  revert c. induction n as [|x n IH]; intros c H; [discriminate|].
  rewrite append_cons. simpl in *. destruct (Ascii.eqb x ":"); [exact H|].
  destruct (find_colon n) as [k|]; [|discriminate].
  rewrite (IH k eq_refl). exact H.
Qed.

Lemma strncmp_eq_append a n rest :
  strncmp_eq a (n +:+ rest) (strlen n) = strncmp_eq a n (strlen n).
Proof.
  unfold strlen. revert a. induction n as [|x n IH]; intros a; [reflexivity|].
  rewrite append_cons. simpl. destruct a as [|y a]; [reflexivity|].
  destruct (Ascii.eqb y x); [apply IH|reflexivity].
Qed.

Lemma wf_name_length n : wf_name n -> strlen n - 1 + 1 = strlen n.
Proof.
  unfold wf_name, strlen. destruct n; simpl; [discriminate|lia].
Qed.

Lemma scan_roots_ext roots p q len i0 :
  (forall a, strncmp_eq a p len = strncmp_eq a q len) ->
  scan_roots roots p len i0 = scan_roots roots q len i0.
Proof.
  intros H. revert i0. induction roots as [|r roots IH]; intros i0; simpl;
    [reflexivity|].
  rewrite H. destruct (strncmp_eq _ _ _); auto.
Qed.

(** The lookup reads the label only. *)
Lemma get_root_info_for_path_label roots n rest :
  wf_name n ->
  get_root_info_for_path roots (n +:+ rest) = get_root_info_for_path roots n.
Proof.
  intros Hwf. unfold get_root_info_for_path.
  rewrite (find_colon_append n rest _ Hwf), Hwf, (wf_name_length n Hwf).
  apply scan_roots_ext. intros a. apply strncmp_eq_append.
Qed.

(** X1.  The relative part of a path plays no role in the lookup: two
    paths with the same well-formed label resolve to the same entry, or
    both fail to resolve. *)
Theorem get_root_info_for_path_ignores_relative_part roots n rest rest' :
  wf_name n ->
  get_root_info_for_path roots (n +:+ rest)
  = get_root_info_for_path roots (n +:+ rest').
Proof.
  intros Hwf. rewrite !get_root_info_for_path_label by exact Hwf. reflexivity.
Qed.

Lemma get_root_info_for_path_ignores_relative_part_witness :
  get_root_info_for_path (g_roots_init default_config) ("SYSTEM:" +:+ "lib/libc.so")
  = get_root_info_for_path (g_roots_init default_config) ("SYSTEM:" +:+ "").
Proof.
  apply (get_root_info_for_path_ignores_relative_part
           (g_roots_init default_config) "SYSTEM:" "lib/libc.so" "").
  reflexivity.
Defined.

Lemma scan_roots_first roots root_path len i0 i :
  scan_roots roots root_path len i0 = Some i ->
  forall j r, j < i - i0 -> roots !! j = Some r ->
              strncmp_eq (name r) root_path len = false.
Proof.
  revert i0. induction roots as [|x roots IH]; intros i0 H j r Hj Hr; simpl in H.
  - discriminate.
  - destruct (strncmp_eq (name x) root_path len) eqn:E.
    + inversion H; subst. lia.
    + destruct j as [|j]; simpl in Hr.
      * inversion Hr; subst. exact E.
      * apply (IH (S i0) H j r); [|exact Hr].
        apply scan_roots_Some in H as (_ & Hle & _). lia.
Qed.

Lemma scan_roots_None roots root_path len i0 :
  scan_roots roots root_path len i0 = None ->
  forall j r, roots !! j = Some r -> strncmp_eq (name r) root_path len = false.
Proof.
  revert i0. induction roots as [|x roots IH]; intros i0 H j r Hr; simpl in H.
  - destruct j; discriminate.
  - destruct (strncmp_eq (name x) root_path len) eqn:E; [discriminate|].
    destruct j as [|j]; simpl in Hr.
    + inversion Hr; subst. exact E.
    + exact (IH (S i0) H j r Hr).
Qed.

(** X2.  The lookup returns the first entry whose name agrees with the
    path up to and including the first colon: the entry found matches, no
    entry before it does, and with a well-formed name the path is that
    name followed by the relative part. *)
Theorem get_root_info_for_path_first_match roots root_path i :
  get_root_info_for_path roots root_path = Some i ->
  exists c info,
    find_colon root_path = Some c /\
    roots !! i = Some info /\
    strncmp_eq (name info) root_path (c + 1) = true /\
    (forall j r, j < i -> roots !! j = Some r ->
                 strncmp_eq (name r) root_path (c + 1) = false) /\
    (wf_name (name info) -> exists rest, root_path = name info +:+ rest).
Proof.
  intros H.
  destruct (get_root_info_for_path_Some _ _ _ H) as (info & c & Hi & Hc & Hcmp).
  exists c, info. repeat split; auto.
  - unfold get_root_info_for_path in H. rewrite Hc in H.
    intros j r Hj Hr. apply (scan_roots_first _ _ _ _ _ H j r); [lia|exact Hr].
  - intros Hwf. exact (wf_name_prefix _ _ _ Hwf Hc Hcmp).
Qed.

Lemma get_root_info_for_path_first_match_witness :
  exists c info,
    find_colon "DATADATA:app" = Some c /\
    g_roots_init default_config !! 2 = Some info /\
    strncmp_eq (name info) "DATADATA:app" (c + 1) = true /\
    (forall j r, j < 2 -> g_roots_init default_config !! j = Some r ->
                 strncmp_eq (name r) "DATADATA:app" (c + 1) = false) /\
    (wf_name (name info) -> exists rest, "DATADATA:app" = name info +:+ rest).
Proof.
  apply (get_root_info_for_path_first_match (g_roots_init default_config)
           "DATADATA:app" 2).
  reflexivity.
Defined.

(** X3.  The lookup fails exactly when the path has no colon or no entry
    name agrees with it up to and including the first colon. *)
Theorem get_root_info_for_path_unresolved roots root_path :
  get_root_info_for_path roots root_path = None <->
  (find_colon root_path = None \/
   exists c, find_colon root_path = Some c /\
             forall j r, roots !! j = Some r ->
                         strncmp_eq (name r) root_path (c + 1) = false).
Proof.
  unfold get_root_info_for_path. split.
  - intros H. destruct (find_colon root_path) as [c|]; [|auto].
    right. exists c. split; [reflexivity|]. exact (scan_roots_None _ _ _ _ H).
  - intros [H|(c & Hc & Hno)]; rewrite ?H, ?Hc; [reflexivity|].
    destruct (scan_roots roots root_path (c + 1) 0) as [i|] eqn:E; [|reflexivity].
    apply scan_roots_Some in E as (info & _ & Hi & Hcmp).
    rewrite (Hno _ _ Hi) in Hcmp. discriminate.
Qed.

(** X4.  In the initial table, whatever the board configuration, every
    name ends with its only colon and every path made of a table label
    and a relative part resolves to the entry of that label: the labels
    are pairwise distinct. *)
Theorem g_roots_init_labels cfg i info rest :
  g_roots_init cfg !! i = Some info ->
  wf_name (name info) /\
  get_root_info_for_path (g_roots_init cfg) (name info +:+ rest) = Some i.
Proof.
  intros H.
  assert (Hwf : wf_name (name info)).
  { do 11 (destruct i as [|i]; [inversion H; subst; reflexivity|]).
    discriminate H. }
  split; [exact Hwf|].
  rewrite (get_root_info_for_path_label _ _ _ Hwf).
  apply g_roots_init_resolves. exact H.
Qed.

Lemma g_roots_init_labels_witness :
  wf_name "SDCARD:" /\
  get_root_info_for_path (g_roots_init mmc_board) ("SDCARD:" +:+ "update.zip") = Some 7.
Proof.
  apply (g_roots_init_labels mmc_board 7
           (mkRoot "SDCARD:" (str "/dev/block/mmcblk1p1") (Some g_mtd_device) None
                   (str "/sdcard") (str "vfat") None) "update.zip").
  reflexivity.
Defined.

Lemma get_root_info_for_path_unresolved_witness :
  get_root_info_for_path (g_roots_init default_config) "NOLABEL" = None /\
  get_root_info_for_path (g_roots_init default_config) "UNKNOWN:x" = None.
Proof.
  split.
  - apply (proj2 (get_root_info_for_path_unresolved (g_roots_init default_config)
                    "NOLABEL")).
    left. reflexivity.
  - apply (proj2 (get_root_info_for_path_unresolved (g_roots_init default_config)
                    "UNKNOWN:x")).
    right. exists 7. split; [reflexivity|].
    intros j r Hr.
    do 11 (destruct j as [|j]; [inversion Hr; subst; reflexivity|]).
    discriminate Hr.
Defined.

(** ** More on the translations *)

(** X5.  translate_root_path drops the slashes between the label and the
    relative part: a path with one more slash after the label is
    translated exactly like the path without it (same result, same
    buffer, NULL in the same cases). *)
Theorem translate_root_path_leading_slash roots i info rest out_buf out_buf_len :
  get_root_info_for_path roots (name info +:+ rest) = Some i ->
  roots !! i = Some info ->
  wf_name (name info) ->
  translate_root_path roots (name info +:+ "/" +:+ rest) out_buf out_buf_len
  = translate_root_path roots (name info +:+ rest) out_buf out_buf_len.
Proof.
  intros Hlook Hi Hwf. unfold translate_root_path.
  assert (Hlook' : get_root_info_for_path roots (name info +:+ "/" +:+ rest) = Some i).
  { rewrite get_root_info_for_path_label in * by exact Hwf. exact Hlook. }
  rewrite Hlook, Hlook'. simpl. rewrite Hi. simpl.
  rewrite !advance_app. reflexivity.
Qed.

Lemma translate_root_path_leading_slash_witness :
  translate_root_path (g_roots_init default_config) ("SYSTEM:" +:+ "/" +:+ "lib")
    (replicate 16 "x"%char) 16
  = translate_root_path (g_roots_init default_config) ("SYSTEM:" +:+ "lib")
      (replicate 16 "x"%char) 16.
Proof.
  apply (translate_root_path_leading_slash (g_roots_init default_config) 3
           (mkRoot "SYSTEM:" (str "/dev/block/stl9") None (str "system")
                   (str "/system") (str "unknown") None) "lib");
    reflexivity.
Defined.

(** X6.  translate_package_root_path, for a path under a package entry
    and a destination of at least [out_buf_len] bytes: it succeeds exactly
    when [out_buf_len] can hold the relative part and its terminator,
    copies the relative part as it is (leading slashes included) and
    overwrites nothing behind the terminator; otherwise it returns NULL
    and writes nothing. *)
Theorem translate_package_root_path_capacity
    roots pkg i info rest out_buf out_buf_len :
  get_root_info_for_path roots (name info +:+ rest) = Some i ->
  roots !! i = Some info ->
  filesystem info = Some g_package_file ->
  out_buf_len <= length out_buf ->
  translate_package_root_path roots pkg (name info +:+ rest) out_buf out_buf_len
  = if decide (out_buf_len < strlen rest + 1) then Ok None
    else Ok (Some (chars rest ++ Ascii.zero :: drop (strlen rest + 1) out_buf, pkg)).
Proof.
  intros Hlook Hi Hfs Hlen. unfold translate_package_root_path.
  rewrite Hlook. simpl. rewrite Hi. simpl. rewrite Hfs. simpl.
  rewrite advance_app. simpl.
  destruct (decide (out_buf_len < _)) as [?|Hfit]; [reflexivity|].
  unfold strcpy.
  assert (Hcpy : memcpy out_buf 0 (chars rest ++ [Ascii.zero])
                 = Ok ((chars rest ++ [Ascii.zero])
                       ++ drop (length (chars rest ++ [Ascii.zero])) out_buf)).
  { apply (memcpy_at [] out_buf 0); [reflexivity|].
    rewrite length_app, length_chars. simpl. lia. }
  rewrite Hcpy. simpl. rewrite <- app_assoc, length_app, length_chars. reflexivity.
Qed.

Lemma translate_package_root_path_capacity_witness :
  translate_package_root_path (g_roots_init default_config) (Some 7)
    ("PACKAGE:" +:+ "/bar") (replicate 8 "x"%char) 5
  = Ok (Some (chars "/bar" ++ Ascii.zero :: replicate 3 "x"%char, Some 7)) /\
  translate_package_root_path (g_roots_init default_config) (Some 7)
    ("PACKAGE:" +:+ "/bar") (replicate 8 "x"%char) 4
  = Ok None.
Proof.
  split.
  - apply (translate_package_root_path_capacity (g_roots_init default_config) (Some 7) 4
             (mkRoot "PACKAGE:" None None None None (Some g_package_file) None)
             "/bar" (replicate 8 "x"%char) 5);
      [reflexivity|reflexivity|reflexivity|simpl; lia].
  - apply (translate_package_root_path_capacity (g_roots_init default_config) (Some 7) 4
             (mkRoot "PACKAGE:" None None None None (Some g_package_file) None)
             "/bar" (replicate 8 "x"%char) 4);
      [reflexivity|reflexivity|reflexivity|simpl; lia].
Defined.

(** X7.  is_package_root_path never fails and leaves the state alone, and
    it is the gate of translate_package_root_path: a path it rejects is
    translated to NULL whatever the destination and the bound archive. *)
Theorem is_package_root_path_gates_translation s root_path :
  exists b,
    is_package_root_path root_path s = Ok (b, s) /\
    (b = false ->
     forall pkg out_buf out_buf_len,
       translate_package_root_path (g_roots s) pkg root_path out_buf out_buf_len
       = Ok None) /\
    (b = true ->
     exists i info,
       get_root_info_for_path (g_roots s) root_path = Some i /\
       g_roots s !! i = Some info /\
       filesystem info = Some g_package_file).
Proof.
  unfold is_package_root_path, translate_package_root_path.
  unfold bind, lookup_root, load, ret.
  destruct (get_root_info_for_path (g_roots s) root_path) as [i|] eqn:Hlook.
  - destruct (get_root_info_for_path_Some _ _ _ Hlook) as (info & _ & Hi & _).
    simpl. rewrite Hi. simpl.
    exists (ptr_is (filesystem info) g_package_file). split; [reflexivity|]. split.
    + intros Hb pkg out_buf out_buf_len. rewrite Hb. reflexivity.
    + intros Hb. exists i, info. repeat split; auto.
      unfold ptr_is in Hb. apply bool_decide_eq_true in Hb. exact Hb.
  - exists false. split; [reflexivity|]. split; [reflexivity|discriminate].
Qed.

Lemma is_package_root_path_gates_translation_witness :
  translate_package_root_path (g_roots (initial_state default_config [])) (Some 7)
    "SYSTEM:lib" (replicate 8 "x"%char) 8 = Ok None.
Proof.
  destruct (is_package_root_path_gates_translation (initial_state default_config [])
              "SYSTEM:lib") as (b & Hrun & Hfalse & _).
  apply Hfalse. vm_compute in Hrun. congruence.
Defined.

(** ** What the operations leave alone *)

Section Respects.
Variable R : State -> State -> Prop.
Hypothesis R_refl : forall s, R s s.
Hypothesis R_trans : forall a b c, R a b -> R b c -> R a c.

Lemma respects_ret {A} (a : A) : respects R (ret a).
Proof. intros s x s' H. inversion H; subst. apply R_refl. Qed.

Lemma respects_crash {A} : respects R (@crash A).
Proof. intros s x s' H. discriminate H. Qed.

Lemma respects_bind {A B} (m : M A) (k : A -> M B) :
  respects R m -> (forall a, respects R (k a)) -> respects R (bind m k).
Proof.
  intros Hm Hk s b s' H. unfold bind in H.
  destruct (m s) as [|[a s1]] eqn:E; [discriminate|].
  eapply R_trans; [exact (Hm _ _ _ E)|exact (Hk _ _ _ _ H)].
Qed.

End Respects.

Lemma same_tables_refl s : same_tables s s.
Proof. repeat split. Qed.

Lemma same_tables_trans a b c : same_tables a b -> same_tables b c -> same_tables a c.
Proof. intros (?&?&?) (?&?&?). repeat split; congruence. Qed.

Lemma still_mounted_refl s : still_mounted s s.
Proof. intros mp H. exact H. Qed.

Lemma still_mounted_trans a b c :
  still_mounted a b -> still_mounted b c -> still_mounted a c.
Proof. intros H1 H2 mp H. auto. Qed.

Lemma is_mounted_more mp v table :
  is_mounted mp table = true -> is_mounted mp (v :: table) = true.
Proof. unfold is_mounted. simpl. intros ->. apply orb_true_r. Qed.

(** A collaborator or accessor whose runs are all of the shape
    [Ok (a, f s)] for a few state updates [f]. *)
Ltac prim_run :=
  let H := fresh "H" in
  intros ? ? ? H; unfold_prims;
  repeat match type of H with
         | context [match ?x with _ => _ end] => destruct x
         end;
  try discriminate H; inversion H; subst; clear H.

Ltac prim_tables := prim_run; repeat split.
Ltac prim_mounted :=
  prim_run; intros mp Hmp; simpl; try apply is_mounted_more; exact Hmp.

Lemma tables_lookup_root p : respects same_tables (lookup_root p).
Proof. prim_tables. Qed.
Lemma tables_load i : respects same_tables (load i).
Proof. prim_tables. Qed.
Lemma tables_scan env : respects same_tables (scan_mounted_volumes env).
Proof. prim_tables. Qed.
Lemma tables_find mp : respects same_tables (find_mounted_volume_by_mount_point mp).
Proof. prim_tables. Qed.
Lemma tables_unmount env v : respects same_tables (unmount_mounted_volume env v).
Proof. prim_tables. Qed.
Lemma tables_mount env d mp fs : respects same_tables (mount env d mp fs).
Proof. prim_tables. Qed.
Lemma tables_system env c : respects same_tables (__system env c).
Proof. prim_tables. Qed.
Lemma tables_mkdir p : respects same_tables (mkdir p).
Proof. prim_tables. Qed.
Lemma tables_mtd_scan env : respects same_tables (mtd_scan_partitions env).
Proof. prim_tables. Qed.
Lemma tables_mtd_find pn : respects same_tables (mtd_find_partition_by_name pn).
Proof. prim_tables. Qed.
Lemma tables_mtd_mount env p mp fs : respects same_tables (mtd_mount_partition env p mp fs).
Proof. prim_tables. Qed.
Lemma tables_mtd_write env p : respects same_tables (mtd_write_partition env p).
Proof. prim_tables. Qed.
Lemma tables_mtd_erase env w : respects same_tables (mtd_erase_blocks env w).
Proof. prim_tables. Qed.
Lemma tables_mtd_close env w : respects same_tables (mtd_write_close env w).
Proof. prim_tables. Qed.
Lemma tables_mmc_scan env : respects same_tables (mmc_scan_partitions env).
Proof. prim_tables. Qed.
Lemma tables_mmc_find pn : respects same_tables (mmc_find_partition_by_name pn).
Proof. prim_tables. Qed.
Lemma tables_mmc_format env p : respects same_tables (mmc_format_ext3 env p).
Proof. prim_tables. Qed.
Lemma tables_format_non_mtd env r : respects same_tables (format_non_mtd_device env r).
Proof. prim_tables. Qed.

Ltac walk_tables :=
  repeat first
    [ apply (respects_ret same_tables same_tables_refl)
    | apply (respects_crash same_tables)
    | apply tables_lookup_root | apply tables_load | apply tables_scan
    | apply tables_find | apply tables_unmount | apply tables_mount
    | apply tables_system | apply tables_mkdir | apply tables_mtd_scan
    | apply tables_mtd_find | apply tables_mtd_mount | apply tables_mtd_write
    | apply tables_mtd_erase | apply tables_mtd_close | apply tables_mmc_scan
    | apply tables_mmc_find | apply tables_mmc_format | apply tables_format_non_mtd
    | apply (respects_bind same_tables same_tables_trans); [|intros ?]
    | match goal with
      | |- respects _ (match ?x with _ => _ end) => destruct x
      end ].

Lemma tables_ensure_root_path_unmounted env p :
  respects same_tables (ensure_root_path_unmounted env p).
Proof. unfold ensure_root_path_unmounted. walk_tables. Qed.

Lemma tables_internal_root_mounted env i :
  respects same_tables (internal_root_mounted env i).
Proof. unfold internal_root_mounted. walk_tables. Qed.

Lemma tables_ensure_root_path_mounted env p :
  respects same_tables (ensure_root_path_mounted env p).
Proof.
  unfold ensure_root_path_mounted, mount_root_device, mount_internal.
  walk_tables; apply tables_internal_root_mounted.
Qed.

Lemma tables_is_root_path_mounted env p :
  respects same_tables (is_root_path_mounted env p).
Proof. unfold is_root_path_mounted. walk_tables; apply tables_internal_root_mounted. Qed.

Lemma tables_format_root_device env p :
  respects same_tables (format_root_device env p).
Proof.
  unfold format_root_device, format_device, format_mmc, format_generic.
  walk_tables; apply tables_ensure_root_path_unmounted.
Qed.

Lemma tables_get_root_mtd_partition env flag p :
  respects same_tables (get_root_mtd_partition env flag p).
Proof. unfold get_root_mtd_partition. walk_tables. Qed.

(** X8.  Mounting, unmounting, the mounted query, formatting and the MTD
    partition lookup never write the root table or the package binding:
    whatever they return, [g_roots], [g_package] and [g_package_path] are
    as before (so the filesystem recorded for a volume changes only
    through detect_internal_fs and set_type_internal_fs). *)
Theorem operations_keep_tables env flag root_path s s' :
  (exists r, ensure_root_path_mounted env root_path s = Ok (r, s')) \/
  (exists r, ensure_root_path_unmounted env root_path s = Ok (r, s')) \/
  (exists r, is_root_path_mounted env root_path s = Ok (r, s')) \/
  (exists r, format_root_device env root_path s = Ok (r, s')) \/
  (exists r, get_root_mtd_partition env flag root_path s = Ok (r, s')) ->
  g_roots s' = g_roots s /\ g_package s' = g_package s /\
  g_package_path s' = g_package_path s.
Proof.
  intros [[r H]|[[r H]|[[r H]|[[r H]|[r H]]]]].
  - exact (tables_ensure_root_path_mounted env root_path _ _ _ H).
  - exact (tables_ensure_root_path_unmounted env root_path _ _ _ H).
  - exact (tables_is_root_path_mounted env root_path _ _ _ H).
  - exact (tables_format_root_device env root_path _ _ _ H).
  - exact (tables_get_root_mtd_partition env flag root_path _ _ _ H).
Qed.

Lemma operations_keep_tables_witness :
  exists s',
    format_root_device calm "RECOVERY:" (initial_state default_config []) = Ok (0%Z, s') /\
    g_roots s' = g_roots_init default_config.
Proof.
  evar (s' : State).
  assert (H : format_root_device calm "RECOVERY:" (initial_state default_config [])
              = Ok (0%Z, s')) by (subst s'; vm_compute; reflexivity).
  exists s'. split; [exact H|].
  destruct (operations_keep_tables calm false "RECOVERY:"
              (initial_state default_config []) s') as (Hr & _).
  - right. right. right. left. exists 0%Z. exact H.
  - exact Hr.
Defined.

(** ** The filesystem fields *)

Lemma same_layout_refl s : same_layout s s.
Proof. repeat split. Qed.

Lemma same_layout_trans a b c : same_layout a b -> same_layout b c -> same_layout a c.
Proof. intros (?&?&?) (?&?&?). repeat split; congruence. Qed.

Lemma layout_of_tables {A} (m : M A) : respects same_tables m -> respects same_layout m.
Proof.
  intros H s a s' Hrun. destruct (H s a s' Hrun) as (Hr & Hp & Hpp).
  repeat split; congruence.
Qed.

Lemma map_static_insert (roots : list RootInfo) i info info' :
  roots !! i = Some info -> static_fields info' = static_fields info ->
  map static_fields (<[i := info']> roots) = map static_fields roots.
Proof.
  revert i. induction roots as [|r roots IH]; intros [|i] Hi Hn; simpl in *;
    try discriminate.
  - inversion Hi; subst. rewrite Hn. reflexivity.
  - f_equal. apply IH; auto.
Qed.

Lemma layout_store_fs i fs fso : respects same_layout (store_fs i fs fso).
Proof.
  intros s a s' H. unfold store_fs in H.
  destruct i as [i|]; [|discriminate].
  destruct (g_roots s !! i) as [r|] eqn:Hi; [|discriminate].
  inversion H; subst. repeat split. simpl.
  eapply map_static_insert; [exact Hi|reflexivity].
Qed.

Lemma same_layout_names s s' :
  same_layout s s' -> map name (g_roots s') = map name (g_roots s).
Proof.
  intros (H & _).
  assert (Hn : forall l : list RootInfo,
             map name l = map (fun t => fst (fst (fst (fst t)))) (map static_fields l)).
  { intros l. rewrite List.map_map. reflexivity. }
  rewrite !Hn, H. reflexivity.
Qed.

Ltac walk_layout :=
  repeat first
    [ apply (respects_ret same_layout same_layout_refl)
    | apply (respects_crash same_layout)
    | apply layout_store_fs
    | apply layout_of_tables;
      first [ apply tables_lookup_root | apply tables_load | apply tables_system
            | apply tables_mount | apply tables_ensure_root_path_unmounted ]
    | apply (respects_bind same_layout same_layout_trans); [|intros ?]
    | match goal with
      | |- respects _ (match ?x with _ => _ end) => destruct x
      end ].

Lemma layout_set_type_loop i new_fs options :
  respects same_layout (set_type_loop i new_fs options).
Proof. induction options as [|o options IH]; simpl; walk_layout. exact IH. Qed.

Lemma layout_detect_loop env p i options :
  respects same_layout (detect_loop env p i options).
Proof.
  induction options as [|o options IH]; simpl; unfold mount_internal; walk_layout;
    exact IH.
Qed.

Lemma layout_detect_internal_fs env p : respects same_layout (detect_internal_fs env p).
Proof.
  unfold detect_internal_fs. generalize g_fs_options. intros options.
  walk_layout; apply layout_detect_loop.
Qed.

(** X9.  set_type_internal_fs and detect_internal_fs assign the filesystem
    fields only: names, devices, partition names and mount points of all
    entries, and the package binding, are as before, and every path
    resolves after them exactly as it did before. *)
Theorem retyping_keeps_layout env root_path new_fs s s' :
  (exists r, set_type_internal_fs root_path new_fs s = Ok (r, s')) \/
  (exists r, detect_internal_fs env root_path s = Ok (r, s')) ->
  map static_fields (g_roots s') = map static_fields (g_roots s) /\
  g_package s' = g_package s /\
  g_package_path s' = g_package_path s /\
  forall q, get_root_info_for_path (g_roots s') q = get_root_info_for_path (g_roots s) q.
Proof.
  intros H.
  assert (Hl : same_layout s s').
  { destruct H as [[r H]|[r H]].
    - revert H. unfold set_type_internal_fs.
      apply (respects_bind same_layout same_layout_trans).
      + apply layout_of_tables, tables_lookup_root.
      + intros i. apply layout_set_type_loop.
    - exact (layout_detect_internal_fs env root_path _ _ _ H). }
  destruct Hl as (Hs & Hp & Hpp). repeat split; auto.
  intros q. apply get_root_info_for_path_names.
  apply same_layout_names. repeat split; auto.
Qed.

Lemma retyping_keeps_layout_witness :
  exists s',
    detect_internal_fs calm "DATA:" (initial_state default_config []) = Ok (0%Z, s') /\
    get_root_info_for_path (g_roots s') "DATA:media"
    = get_root_info_for_path (g_roots_init default_config) "DATA:media".
Proof.
  evar (s' : State).
  assert (H : detect_internal_fs calm "DATA:" (initial_state default_config [])
              = Ok (0%Z, s')) by (subst s'; vm_compute; reflexivity).
  exists s'. split; [exact H|].
  destruct (retyping_keeps_layout calm "DATA:" "" (initial_state default_config []) s')
    as (_ & _ & _ & Hq).
  - right. exists 0%Z. exact H.
  - exact (Hq "DATA:media").
Defined.

(** ** Which collaborators an operation calls *)

Lemma emits_scan env : emits (scan_mounted_volumes env) EvScanMountedVolumes.
Proof. prim_run; reflexivity. Qed.
Lemma emits_find mp :
  emits (find_mounted_volume_by_mount_point mp) (EvFindMountedVolume mp).
Proof. prim_run; reflexivity. Qed.
Lemma emits_unmount env v : emits (unmount_mounted_volume env v) (EvUnmount v).
Proof. prim_run; reflexivity. Qed.
Lemma emits_mount env d mp fs : emits (mount env d mp fs) (EvMount d mp fs).
Proof. prim_run; reflexivity. Qed.
Lemma emits_system env c : emits (__system env c) (EvSystem c).
Proof. prim_run; reflexivity. Qed.
Lemma emits_mkdir p : emits (mkdir p) (EvMkdir p).
Proof. prim_run; reflexivity. Qed.
Lemma emits_mtd_scan env : emits (mtd_scan_partitions env) EvMtdScan.
Proof. prim_run; reflexivity. Qed.
Lemma emits_mtd_find pn : emits (mtd_find_partition_by_name pn) (EvMtdFind pn).
Proof. prim_run; reflexivity. Qed.
Lemma emits_mtd_mount env p mp fs :
  emits (mtd_mount_partition env p mp fs) (EvMtdMount p mp fs).
Proof. prim_run; reflexivity. Qed.
Lemma emits_mtd_write env p : emits (mtd_write_partition env p) (EvMtdWritePartition p).
Proof. prim_run; reflexivity. Qed.
Lemma emits_mtd_erase env w : emits (mtd_erase_blocks env w) (EvMtdEraseBlocks w).
Proof. prim_run; reflexivity. Qed.
Lemma emits_mtd_close env w : emits (mtd_write_close env w) (EvMtdWriteClose w).
Proof. prim_run; reflexivity. Qed.
Lemma emits_mmc_scan env : emits (mmc_scan_partitions env) EvMmcScan.
Proof. prim_run; reflexivity. Qed.
Lemma emits_mmc_find pn : emits (mmc_find_partition_by_name pn) (EvMmcFind pn).
Proof. prim_run; reflexivity. Qed.
Lemma emits_mmc_format env p : emits (mmc_format_ext3 env p) (EvMmcFormatExt3 p).
Proof. prim_run; reflexivity. Qed.
Lemma emits_format_non_mtd env r :
  emits (format_non_mtd_device env r) (EvFormatNonMtdDevice r).
Proof. prim_run; reflexivity. Qed.
Lemma silent_lookup_root p : silent (lookup_root p).
Proof. prim_run; reflexivity. Qed.
Lemma silent_load i : silent (load i).
Proof. prim_run; reflexivity. Qed.

Section Avoids.
Variable P : Event -> bool.

Lemma avoids_refl s : avoids P s s.
Proof. exists []. split; [symmetry; apply app_nil_r|constructor]. Qed.

Lemma avoids_trans a b c : avoids P a b -> avoids P b c -> avoids P a c.
Proof.
  intros (l1 & H1 & F1) (l2 & H2 & F2). exists (l1 ++ l2). split.
  - rewrite H2, H1, app_assoc. reflexivity.
  - apply Forall_app. split; assumption.
Qed.

Lemma avoids_emits {A} (m : M A) e : emits m e -> P e = false -> respects (avoids P) m.
Proof.
  intros Hm He s a s' H. exists [e]. split; [exact (Hm s a s' H)|].
  constructor; [exact He|constructor].
Qed.

Lemma avoids_silent {A} (m : M A) : silent m -> respects (avoids P) m.
Proof.
  intros Hm s a s' H. exists []. split; [|constructor].
  rewrite (Hm s a s' H). symmetry. apply app_nil_r.
Qed.

End Avoids.

Ltac walk_avoids P :=
  repeat first
    [ apply (respects_ret (avoids P) (avoids_refl P))
    | apply (respects_crash (avoids P))
    | apply avoids_silent; first [ apply silent_lookup_root | apply silent_load ]
    | eapply avoids_emits;
      [ first [ apply emits_scan | apply emits_find | apply emits_unmount
              | apply emits_mount | apply emits_system | apply emits_mkdir
              | apply emits_mtd_scan | apply emits_mtd_find | apply emits_mtd_mount
              | apply emits_mtd_write | apply emits_mtd_erase | apply emits_mtd_close
              | apply emits_mmc_scan | apply emits_mmc_find | apply emits_mmc_format
              | apply emits_format_non_mtd ]
      | reflexivity ]
    | apply (respects_bind (avoids P) (avoids_trans P)); [|intros ?]
    | match goal with
      | |- respects _ (match ?x with _ => _ end) => destruct x
      end ].

Lemma no_mount_ensure_root_path_unmounted env p :
  respects (avoids is_mount_event) (ensure_root_path_unmounted env p).
Proof. unfold ensure_root_path_unmounted. walk_avoids is_mount_event. Qed.

Lemma no_mount_internal_root_mounted env i :
  respects (avoids is_mount_event) (internal_root_mounted env i).
Proof. unfold internal_root_mounted. walk_avoids is_mount_event. Qed.

Lemma no_mount_format_root_device env p :
  respects (avoids is_mount_event) (format_root_device env p).
Proof.
  unfold format_root_device, format_device, format_mmc, format_generic.
  walk_avoids is_mount_event; apply no_mount_ensure_root_path_unmounted.
Qed.

Lemma no_mount_is_root_path_mounted env p :
  respects (avoids is_mount_event) (is_root_path_mounted env p).
Proof.
  unfold is_root_path_mounted.
  walk_avoids is_mount_event; apply no_mount_internal_root_mounted.
Qed.

Lemma no_mount_get_root_mtd_partition env flag p :
  respects (avoids is_mount_event) (get_root_mtd_partition env flag p).
Proof. unfold get_root_mtd_partition. walk_avoids is_mount_event. Qed.

(** X10.  Unmounting, formatting, the mounted query and the MTD partition
    lookup never call a mount primitive: neither mount(2), nor the mount
    helper, nor mtd_mount_partition. *)
Theorem operations_that_never_mount env flag root_path s s' :
  (exists r, ensure_root_path_unmounted env root_path s = Ok (r, s')) \/
  (exists r, format_root_device env root_path s = Ok (r, s')) \/
  (exists r, is_root_path_mounted env root_path s = Ok (r, s')) \/
  (exists r, get_root_mtd_partition env flag root_path s = Ok (r, s')) ->
  exists calls,
    trace s' = trace s ++ calls /\
    Forall (fun e => is_mount_event e = false) calls.
Proof.
  intros [[r H]|[[r H]|[[r H]|[r H]]]].
  - exact (no_mount_ensure_root_path_unmounted env root_path _ _ _ H).
  - exact (no_mount_format_root_device env root_path _ _ _ H).
  - exact (no_mount_is_root_path_mounted env root_path _ _ _ H).
  - exact (no_mount_get_root_mtd_partition env flag root_path _ _ _ H).
Qed.

Lemma harmless_internal_root_mounted env i :
  respects (avoids is_destructive_event) (internal_root_mounted env i).
Proof. unfold internal_root_mounted. walk_avoids is_destructive_event. Qed.

Lemma harmless_ensure_root_path_mounted env p :
  respects (avoids is_destructive_event) (ensure_root_path_mounted env p).
Proof.
  unfold ensure_root_path_mounted, mount_root_device, mount_internal.
  walk_avoids is_destructive_event; apply harmless_internal_root_mounted.
Qed.

Lemma harmless_is_root_path_mounted env p :
  respects (avoids is_destructive_event) (is_root_path_mounted env p).
Proof.
  unfold is_root_path_mounted.
  walk_avoids is_destructive_event; apply harmless_internal_root_mounted.
Qed.

Lemma harmless_get_root_mtd_partition env flag p :
  respects (avoids is_destructive_event) (get_root_mtd_partition env flag p).
Proof. unfold get_root_mtd_partition. walk_avoids is_destructive_event. Qed.

(** X11.  Mounting, the mounted query and the MTD partition lookup are
    harmless: they never unmount a volume and never call an erase or
    format primitive or an external format helper. *)
Theorem operations_that_never_destroy env flag root_path s s' :
  (exists r, ensure_root_path_mounted env root_path s = Ok (r, s')) \/
  (exists r, is_root_path_mounted env root_path s = Ok (r, s')) \/
  (exists r, get_root_mtd_partition env flag root_path s = Ok (r, s')) ->
  exists calls,
    trace s' = trace s ++ calls /\
    Forall (fun e => is_destructive_event e = false) calls.
Proof.
  intros [[r H]|[[r H]|[r H]]].
  - exact (harmless_ensure_root_path_mounted env root_path _ _ _ H).
  - exact (harmless_is_root_path_mounted env root_path _ _ _ H).
  - exact (harmless_get_root_mtd_partition env flag root_path _ _ _ H).
Qed.

Lemma operations_that_never_mount_witness :
  exists s' calls,
    format_root_device calm "DATA:"
      (initial_state default_config [mk_volume "/dev/block/mmcblk0p2" "/data" "rfs"])
    = Ok (0%Z, s') /\
    trace s' = [] ++ calls /\
    Forall (fun e => is_mount_event e = false) calls.
Proof.
  evar (s' : State).
  assert (H : format_root_device calm "DATA:"
                (initial_state default_config
                   [mk_volume "/dev/block/mmcblk0p2" "/data" "rfs"])
              = Ok (0%Z, s')) by (subst s'; vm_compute; reflexivity).
  destruct (operations_that_never_mount calm false "DATA:"
              (initial_state default_config
                 [mk_volume "/dev/block/mmcblk0p2" "/data" "rfs"]) s')
    as (calls & Ht & Hc).
  - right. left. exists 0%Z. exact H.
  - exists s', calls. split; [exact H|]. split; [exact Ht|exact Hc].
Defined.

Lemma operations_that_never_destroy_witness :
  exists s' calls,
    ensure_root_path_mounted calm "SDCARD:" (initial_state default_config [])
    = Ok (0%Z, s') /\
    trace s' = [] ++ calls /\
    Forall (fun e => is_destructive_event e = false) calls.
Proof.
  evar (s' : State).
  assert (H : ensure_root_path_mounted calm "SDCARD:" (initial_state default_config [])
              = Ok (0%Z, s')) by (subst s'; vm_compute; reflexivity).
  destruct (operations_that_never_destroy calm false "SDCARD:"
              (initial_state default_config []) s') as (calls & Ht & Hc).
  - left. exists 0%Z. exact H.
  - exists s', calls. split; [exact H|]. split; [exact Ht|exact Hc].
Defined.

(** ** The mounted state *)

Lemma find_mounted_at mp table :
  match List.find (mounted_at mp) table with
  | Some v => is_mounted mp table = true /\ MountedVolume.mount_point v = mp
  | None => is_mounted mp table = false
  end.
Proof.
  destruct (List.find (mounted_at mp) table) as [v|] eqn:E.
  - apply find_is_mounted. exact E.
  - apply not_mounted_find. exact E.
Qed.

Lemma is_mounted_filter_other mp mp' table :
  mp' <> mp ->
  is_mounted mp' (List.filter (fun w => negb (mounted_at mp w)) table)
  = is_mounted mp' table.
Proof.
  intros Hne. unfold is_mounted. induction table as [|v table IH]; [reflexivity|].
  simpl. destruct (mounted_at mp v) eqn:E; simpl.
  - rewrite IH. unfold mounted_at in *. apply String.eqb_eq in E.
    destruct (String.eqb_spec (MountedVolume.mount_point v) mp'); [congruence|].
    reflexivity.
  - rewrite IH. reflexivity.
Qed.

Lemma is_mounted_filter_sub mp mp' table :
  is_mounted mp' (List.filter (fun w => negb (mounted_at mp w)) table) = true ->
  is_mounted mp' table = true.
Proof.
  unfold is_mounted. induction table as [|v table IH]; [auto|].
  simpl. destruct (mounted_at mp v); simpl.
  - intros H. rewrite (IH H). apply orb_true_r.
  - destruct (mounted_at mp' v); simpl; auto.
Qed.

(** is_root_path_mounted on a resolved path. *)
Lemma is_root_path_mounted_resolved env root_path s i info :
  get_root_info_for_path (g_roots s) root_path = Some i ->
  g_roots s !! i = Some info ->
  exists s',
    is_root_path_mounted env root_path s = Ok (reported_mounted env info s, s') /\
    mounts s' = mounts s /\ g_roots s' = g_roots s.
Proof.
  intros Hlook Hi. unfold is_root_path_mounted.
  unfold bind at 1. unfold lookup_root. rewrite Hlook.
  unfold bind at 1. rewrite (internal_root_mounted_resolved env s i info Hi).
  unfold reported_mounted. destruct (mount_point info) as [mp|].
  - cbv zeta.
    destruct (Z.ltb_spec (scan_mounted_volumes_ret env (length (trace s))) 0) as [Hs|Hs].
    + destruct (Z.leb_spec 0 (scan_mounted_volumes_ret env (length (trace s))));
        [lia|].
      eexists. split; [reflexivity|]. split; reflexivity.
    + pose proof (find_mounted_at (cstr mp) (mounts s)) as Hf.
      destruct (List.find _ _) as [v|].
      * destruct Hf as [Hm _]. rewrite Hm.
        eexists. split; [reflexivity|]. split; reflexivity.
      * rewrite Hf. eexists. split; [reflexivity|]. split; reflexivity.
  - eexists. split; [reflexivity|]. split; reflexivity.
Qed.

(** X12.  is_root_path_mounted has three results: -1 for a path that does
    not resolve, and for a resolved one 1 when the entry has a mount point,
    the mount-table rescan did not fail and the mount point is in the live
    mount table, 0 in every other case; a failed rescan is thus reported
    as "not mounted", not as an error.  The mount table is not changed. *)
Theorem is_root_path_mounted_results env root_path s :
  (get_root_info_for_path (g_roots s) root_path = None ->
   is_root_path_mounted env root_path s = Ok ((-1)%Z, s)) /\
  (forall i info,
     get_root_info_for_path (g_roots s) root_path = Some i ->
     g_roots s !! i = Some info ->
     exists s',
       is_root_path_mounted env root_path s = Ok (reported_mounted env info s, s') /\
       mounts s' = mounts s /\
       (reported_mounted env info s = 1%Z <->
        exists mp, mount_point info = Some mp /\
                   (0 <= scan_mounted_volumes_ret env (length (trace s)))%Z /\
                   is_mounted (cstr mp) (mounts s) = true) /\
       (reported_mounted env info s = 0%Z \/ reported_mounted env info s = 1%Z)).
Proof.
  split.
  - intros Hlook. unfold is_root_path_mounted, bind, lookup_root. rewrite Hlook.
    reflexivity.
  - intros i info Hlook Hi.
    destruct (is_root_path_mounted_resolved env root_path s i info Hlook Hi)
      as (s' & Hrun & Hm & _).
    exists s'. split; [exact Hrun|]. split; [exact Hm|].
    unfold reported_mounted. destruct (mount_point info) as [mp|].
    + destruct (Z.ltb_spec (scan_mounted_volumes_ret env (length (trace s))) 0).
      * split; [|auto]. split; [discriminate|].
        intros (mp' & _ & Hs & _). lia.
      * destruct (is_mounted (cstr mp) (mounts s)) eqn:E.
        -- split; [|auto]. split; [|reflexivity]. intros _. exists mp. auto.
        -- split; [|auto]. split; [discriminate|].
           intros (mp' & Hmp & _ & Hm'). inversion Hmp; subst. congruence.
    + split; [|auto]. split; [discriminate|]. intros (mp' & Hmp & _). discriminate.
Qed.

Lemma is_root_path_mounted_results_witness :
  is_root_path_mounted calm "NOLABEL" (initial_state default_config [])
  = Ok ((-1)%Z, initial_state default_config []) /\
  exists s',
    is_root_path_mounted calm "DATA:"
      (initial_state default_config [mk_volume "/dev/block/mmcblk0p2" "/data" "rfs"])
    = Ok (1%Z, s').
Proof.
  split.
  - apply (proj1 (is_root_path_mounted_results calm "NOLABEL"
                    (initial_state default_config []))).
    reflexivity.
  - destruct (proj2 (is_root_path_mounted_results calm "DATA:"
                       (initial_state default_config
                          [mk_volume "/dev/block/mmcblk0p2" "/data" "rfs"]))
                1 data_root eq_refl eq_refl) as (s' & Hrun & _).
    exists s'. exact Hrun.
Defined.

(** X13.  ensure_root_path_unmounted touches at most the mount point of
    its own entry: every other mount point is mounted after it exactly
    when it was before, and nothing gets mounted.  When the volume is not
    mounted (or the entry has no mount point) the mount table is left as
    it is and no unmount is requested. *)
Theorem ensure_root_path_unmounted_footprint env root_path s i info r s' :
  get_root_info_for_path (g_roots s) root_path = Some i ->
  g_roots s !! i = Some info ->
  ensure_root_path_unmounted env root_path s = Ok (r, s') ->
  (forall mp', (forall mp, mount_point info = Some mp -> cstr mp <> mp') ->
               is_mounted mp' (mounts s') = is_mounted mp' (mounts s)) /\
  (forall mp', is_mounted mp' (mounts s') = true -> is_mounted mp' (mounts s) = true) /\
  (root_mounted info s = false ->
   mounts s' = mounts s /\
   exists calls, trace s' = trace s ++ calls /\
                 Forall (fun e => is_destructive_event e = false) calls).
Proof.
  intros Hlook Hi Hrun.
  rewrite (ensure_root_path_unmounted_resolved env root_path s i info Hlook Hi) in Hrun.
  unfold root_mounted. destruct (mount_point info) as [mp|].
  - cbv zeta in Hrun.
    destruct (scan_mounted_volumes_ret env (length (trace s)) <? 0)%Z.
    + inversion Hrun; subst. simpl. repeat split; auto.
      exists [EvScanMountedVolumes]. split; [reflexivity|repeat constructor].
    + pose proof (find_mounted_at (cstr mp) (mounts s)) as Hf.
      destruct (List.find _ _) as [v|].
      * destruct Hf as [Hm Hv]. unfold unmount_mounted_volume in Hrun.
        inversion Hrun as [[Hr Hs]]; clear Hrun. rewrite Hv.
        destruct (_ =? 0)%Z; simpl.
        -- split; [|split].
           ++ intros mp' Hne. apply is_mounted_filter_other.
              intros E. exact (Hne mp eq_refl (eq_sym E)).
           ++ intros mp'. apply is_mounted_filter_sub.
           ++ intros Hno. congruence.
        -- split; [auto|]. split; [auto|]. intros Hno. congruence.
      * inversion Hrun; subst. simpl. repeat split; auto.
        exists [EvScanMountedVolumes; EvFindMountedVolume (cstr mp)].
        split; [rewrite <- app_assoc; reflexivity|repeat constructor].
  - inversion Hrun; subst. repeat split; auto.
    exists []. split; [symmetry; apply app_nil_r|constructor].
Qed.

Lemma ensure_root_path_unmounted_footprint_witness :
  exists s',
    ensure_root_path_unmounted calm "DATA:"
      (initial_state default_config
         [mk_volume "/dev/block/mmcblk0p2" "/data" "rfs";
          mk_volume "/dev/block/stl9" "/system" "rfs"])
    = Ok (0%Z, s') /\
    is_mounted "/system" (mounts s') = true.
Proof.
  evar (s' : State).
  assert (H : ensure_root_path_unmounted calm "DATA:"
                (initial_state default_config
                   [mk_volume "/dev/block/mmcblk0p2" "/data" "rfs";
                    mk_volume "/dev/block/stl9" "/system" "rfs"])
              = Ok (0%Z, s')) by (subst s'; vm_compute; reflexivity).
  exists s'. split; [exact H|].
  destruct (ensure_root_path_unmounted_footprint calm "DATA:"
              (initial_state default_config
                 [mk_volume "/dev/block/mmcblk0p2" "/data" "rfs";
                  mk_volume "/dev/block/stl9" "/system" "rfs"])
              1 data_root 0%Z s' eq_refl eq_refl H) as (Hother & _).
  rewrite (Hother "/system"); [reflexivity|].
  intros mp Hmp. inversion Hmp. discriminate.
Defined.

(** A successful ensure_root_path_unmounted leaves its volume unmounted. *)
Lemma ensure_root_path_unmounted_done env root_path s s1 :
  ensure_root_path_unmounted env root_path s = Ok (0%Z, s1) ->
  exists i info,
    get_root_info_for_path (g_roots s1) root_path = Some i /\
    g_roots s1 !! i = Some info /\
    root_mounted info s1 = false.
Proof.
  intros Hrun.
  destruct (get_root_info_for_path (g_roots s) root_path) as [i|] eqn:Hlook.
  - destruct (get_root_info_for_path_Some _ _ _ Hlook) as (info & _ & Hi & _).
    destruct (tables_ensure_root_path_unmounted env root_path _ _ _ Hrun) as (Hr & _).
    exists i, info. rewrite Hr. split; [exact Hlook|]. split; [exact Hi|].
    rewrite (ensure_root_path_unmounted_resolved env root_path s i info Hlook Hi) in Hrun.
    unfold root_mounted. destruct (mount_point info) as [mp|]; [|reflexivity].
    cbv zeta in Hrun.
    destruct (Z.ltb_spec (scan_mounted_volumes_ret env (length (trace s))) 0).
    + inversion Hrun. lia.
    + pose proof (find_mounted_at (cstr mp) (mounts s)) as Hf.
      destruct (List.find _ _) as [v|].
      * destruct Hf as [_ Hv]. unfold unmount_mounted_volume in Hrun.
        inversion Hrun as [[Hz Hs]]; clear Hrun. rewrite Hz. simpl.
        rewrite Hv. apply is_mounted_unmounted.
      * inversion Hrun; subst. exact Hf.
  - unfold ensure_root_path_unmounted, bind, lookup_root in Hrun.
    rewrite Hlook in Hrun. discriminate Hrun.
Qed.

(** X14.  After a successful ensure_root_path_unmounted the volume is seen
    as unmounted: is_root_path_mounted returns 0 (whether or not its
    rescan works), and a second ensure_root_path_unmounted whose rescan
    does not fail returns 0 without requesting any unmount. *)
Theorem ensure_root_path_unmounted_then env root_path s s1 :
  ensure_root_path_unmounted env root_path s = Ok (0%Z, s1) ->
  (exists s2, is_root_path_mounted env root_path s1 = Ok (0%Z, s2)) /\
  ((0 <= scan_mounted_volumes_ret env (length (trace s1)))%Z ->
   exists s2 calls,
     ensure_root_path_unmounted env root_path s1 = Ok (0%Z, s2) /\
     trace s2 = trace s1 ++ calls /\
     Forall (fun e => is_destructive_event e = false) calls /\
     mounts s2 = mounts s1).
Proof.
  intros Hrun.
  destruct (ensure_root_path_unmounted_done env root_path s s1 Hrun)
    as (i & info & Hlook & Hi & Hun).
  split.
  - destruct (is_root_path_mounted_resolved env root_path s1 i info Hlook Hi)
      as (s2 & H2 & _).
    exists s2. rewrite H2. f_equal. f_equal.
    unfold reported_mounted, root_mounted in *.
    destruct (mount_point info); [|reflexivity].
    rewrite Hun. destruct (_ <? 0)%Z; reflexivity.
  - intros Hscan.
    rewrite (ensure_root_path_unmounted_resolved env root_path s1 i info Hlook Hi).
    unfold root_mounted in Hun. destruct (mount_point info) as [mp|].
    + cbv zeta.
      destruct (Z.ltb_spec (scan_mounted_volumes_ret env (length (trace s1))) 0); [lia|].
      pose proof (find_mounted_at (cstr mp) (mounts s1)) as Hf.
      destruct (List.find _ _) as [v|]; [destruct Hf; congruence|].
      do 2 eexists. split; [reflexivity|]. simpl.
      split; [rewrite <- app_assoc; reflexivity|].
      split; [repeat constructor|reflexivity].
    + exists s1, []. split; [reflexivity|].
      split; [symmetry; apply app_nil_r|]. split; [constructor|reflexivity].
Qed.

Lemma ensure_root_path_unmounted_then_witness :
  exists s1 s2,
    ensure_root_path_unmounted calm "DATA:"
      (initial_state default_config [mk_volume "/dev/block/mmcblk0p2" "/data" "rfs"])
    = Ok (0%Z, s1) /\
    is_root_path_mounted calm "DATA:" s1 = Ok (0%Z, s2).
Proof.
  evar (s1 : State).
  assert (H : ensure_root_path_unmounted calm "DATA:"
                (initial_state default_config
                   [mk_volume "/dev/block/mmcblk0p2" "/data" "rfs"])
              = Ok (0%Z, s1)) by (subst s1; vm_compute; reflexivity).
  destruct (ensure_root_path_unmounted_then calm "DATA:" _ s1 H) as ((s2 & H2) & _).
  exists s1, s2. split; [exact H|exact H2].
Defined.

(** X15.  After a successful ensure_root_path_mounted, is_root_path_mounted
    (whose rescan does not fail) returns 1. *)
Theorem ensure_root_path_mounted_then_mounted env root_path s s1 :
  ensure_root_path_mounted env root_path s = Ok (0%Z, s1) ->
  (0 <= scan_mounted_volumes_ret env (length (trace s1)))%Z ->
  exists s2, is_root_path_mounted env root_path s1 = Ok (1%Z, s2).
Proof.
  intros Hrun Hscan.
  apply ensure_root_path_mounted_mounts in Hrun
    as (Hroots & i & info & mp & Hlook & Hi & Hmp & Hm).
  rewrite <- Hroots in Hlook, Hi.
  destruct (is_root_path_mounted_resolved env root_path s1 i info Hlook Hi)
    as (s2 & H2 & _).
  exists s2. rewrite H2. f_equal. f_equal.
  unfold reported_mounted. rewrite Hmp, Hm.
  destruct (Z.ltb_spec (scan_mounted_volumes_ret env (length (trace s1))) 0);
    [lia|reflexivity].
Qed.

Lemma ensure_root_path_mounted_then_mounted_witness :
  exists s1 s2,
    ensure_root_path_mounted calm "CACHE:" (initial_state default_config [])
    = Ok (0%Z, s1) /\
    is_root_path_mounted calm "CACHE:" s1 = Ok (1%Z, s2).
Proof.
  evar (s1 : State).
  assert (H : ensure_root_path_mounted calm "CACHE:" (initial_state default_config [])
              = Ok (0%Z, s1)) by (subst s1; vm_compute; reflexivity).
  destruct (ensure_root_path_mounted_then_mounted calm "CACHE:" _ s1 H) as (s2 & H2);
    [simpl; lia|].
  exists s1, s2. split; [exact H|exact H2].
Defined.

Lemma internal_root_mounted_mounts env i s r s1 :
  internal_root_mounted env (Some i) s = Ok (r, s1) -> mounts s1 = mounts s.
Proof.
  unfold internal_root_mounted. unfold_prims. intros H.
  destruct (g_roots s !! i) as [info|]; [|discriminate].
  destruct (mount_point info); [|inversion H; reflexivity].
  simpl in H. destruct (_ <? 0)%Z; [inversion H; reflexivity|].
  simpl in H. destruct (List.find _ _); inversion H; reflexivity.
Qed.

Lemma mount_root_device_fails env s i r s1 :
  mount_root_device env (Some i) s = Ok (r, s1) -> r <> 0%Z -> mounts s1 = mounts s.
Proof.
  intros H Hr. unfold mount_root_device in H.
  unfold bind at 1 in H. unfold load, deref in H.
  destruct (g_roots s !! i) as [info|]; [|discriminate].
  destruct (ptr_is (device info) g_mtd_device).
  - destruct (partition_name info) as [pn|]; [|inversion H; reflexivity].
    unfold bind, mtd_scan_partitions, mtd_find_partition_by_name,
      mtd_mount_partition, ret in H. simpl in H.
    destruct (List.find _ _) as [p|]; [|inversion H; reflexivity].
    destruct (mount_point info) as [mp|]; simpl in H; [|inversion H; reflexivity].
    inversion H as [[Hz Hs]]; clear H. rewrite Hz.
    destruct (Z.eqb_spec r 0); [contradiction|reflexivity].
  - destruct (device info) as [dev|]; [|inversion H; reflexivity].
    destruct (mount_point info) as [mp|]; [|inversion H; reflexivity].
    destruct (filesystem info) as [fs|]; [|inversion H; reflexivity].
    destruct (_ || _); [inversion H; reflexivity|].
    unfold bind at 1 in H. unfold mkdir in H. unfold bind at 1 in H.
    destruct (mount_internal _ _ _ _ _ _) as [|[r1 s0]] eqn:Hmi; [discriminate|].
    apply mount_internal_mounts in Hmi as (_ & _ & Hfail). simpl in Hfail.
    destruct (Z.eqb_spec r1 0) as [E|E]; simpl in H.
    + inversion H; subst. contradiction.
    + destruct (device2 info) as [dev2|]; [|inversion H; subst; auto].
      unfold bind, mount, ret in H.
      destruct (Z.eqb_spec (mount_ret env (length (trace s0)) (cstr dev2) (cstr mp)
                              (cstr fs)) 0) as [E2|E2]; simpl in H.
      * inversion H; subst. contradiction.
      * inversion H; subst. simpl. auto.
Qed.

(** X16.  When ensure_root_path_mounted does not return 0 the live mount
    table is exactly as before: a failed attempt (unknown root, entry that
    cannot be mounted, missing partition, failed mount on the device and
    on the fallback device) mounts nothing. *)
Theorem ensure_root_path_mounted_failure env root_path s r s' :
  ensure_root_path_mounted env root_path s = Ok (r, s') ->
  r <> 0%Z ->
  mounts s' = mounts s.
Proof.
  intros H Hr. unfold ensure_root_path_mounted in H.
  unfold bind at 1 in H. unfold lookup_root in H.
  destruct (get_root_info_for_path (g_roots s) root_path) as [i|];
    [|inversion H; reflexivity].
  unfold bind at 1 in H.
  destruct (internal_root_mounted env (Some i) s) as [|[r0 s0]] eqn:Hint;
    [discriminate|].
  apply internal_root_mounted_mounts in Hint.
  destruct (0 <=? r0)%Z.
  - inversion H; subst. contradiction.
  - rewrite <- Hint. eapply mount_root_device_fails; eassumption.
Qed.

Lemma ensure_root_path_mounted_failure_witness :
  exists s',
    ensure_root_path_mounted no_mounts "SDCARD:"
      (initial_state default_config [mk_volume "/dev/block/stl9" "/system" "rfs"])
    = Ok ((-1)%Z, s') /\
    mounts s' = [mk_volume "/dev/block/stl9" "/system" "rfs"].
Proof.
  evar (s' : State).
  assert (H : ensure_root_path_mounted no_mounts "SDCARD:"
                (initial_state default_config
                   [mk_volume "/dev/block/stl9" "/system" "rfs"])
              = Ok ((-1)%Z, s')) by (subst s'; vm_compute; reflexivity).
  exists s'. split; [exact H|].
  apply (ensure_root_path_mounted_failure no_mounts "SDCARD:" _ (-1)%Z s' H). lia.
Defined.

(** ** Reading back the filesystem *)

Lemma find_matching_fs new_fs o :
  matching_fs new_fs = Some o -> FilesystemOptions.filesystem o = new_fs.
Proof.
  unfold matching_fs. intros H. apply List.find_some in H as [_ H].
  unfold strcmp_eq in H. apply String.eqb_eq in H. auto.
Qed.

(** X17.  set_type_internal_fs returns 0 or -1.  With -1 nothing has
    changed.  With 0 the path resolves, and afterwards
    get_type_internal_fs returns the filesystem just set (or "error" when
    the entry has no device), while get_dev_for_root and
    get_mount_point_for_root return what the entry had before, and the
    path is no longer a package root path even if it was one. *)
Theorem set_type_internal_fs_then_get root_path new_fs s r s' :
  set_type_internal_fs root_path new_fs s = Ok (r, s') ->
  (r = (-1)%Z /\ s' = s /\ matching_fs new_fs = None) \/
  (r = 0%Z /\
   exists i info,
     get_root_info_for_path (g_roots s) root_path = Some i /\
     g_roots s !! i = Some info /\
     get_type_internal_fs root_path s'
     = Ok (match device info with Some _ => str new_fs | None => str "error" end, s') /\
     get_dev_for_root root_path s' = Ok (device info, s') /\
     get_mount_point_for_root root_path s'
     = Ok (match device info with Some _ => mount_point info | None => None end, s') /\
     is_package_root_path root_path s' = Ok (false, s')).
Proof.
  unfold set_type_internal_fs. unfold bind at 1. unfold lookup_root.
  rewrite set_type_loop_find. fold (matching_fs new_fs).
  destruct (matching_fs new_fs) as [o|] eqn:Ho.
  - intros H. right. unfold store_fs in H.
    destruct (get_root_info_for_path (g_roots s) root_path) as [i|] eqn:Hlook;
      [|discriminate].
    destruct (g_roots s !! i) as [info|] eqn:Hi; [|discriminate].
    inversion H as [[Hr Hs]]; clear H. rewrite Hs. split; [reflexivity|].
    exists i, info. split; [reflexivity|]. split; [exact Hi|].
    assert (Hroots : g_roots s' = <[i := retyped info o]> (g_roots s))
      by (rewrite <- Hs; reflexivity).
    clear Hs.
    assert (Hlook' : get_root_info_for_path (g_roots s') root_path = Some i).
    { rewrite Hroots, <- Hlook. apply get_root_info_for_path_names.
      eapply map_name_insert; eauto. }
    assert (Hi' : g_roots s' !! i = Some (retyped info o)).
    { rewrite Hroots. apply list_lookup_insert_eq. eapply lookup_lt_Some; eauto. }
    unfold get_type_internal_fs, get_dev_for_root, get_mount_point_for_root,
      is_package_root_path, bind, lookup_root, load, deref, ret.
    cbv beta. rewrite Hlook'. cbv beta iota. rewrite Hi'. simpl.
    rewrite (find_matching_fs _ _ Ho).
    destruct (device info); repeat split; reflexivity.
  - intros H. left. inversion H. auto.
Qed.

Lemma set_type_internal_fs_then_get_witness :
  exists s',
    set_type_internal_fs "PACKAGE:" "rfs" (initial_state default_config [])
    = Ok (0%Z, s') /\
    is_package_root_path "PACKAGE:" s' = Ok (false, s') /\
    get_type_internal_fs "PACKAGE:" s' = Ok (str "error", s').
Proof.
  evar (s' : State).
  assert (H : set_type_internal_fs "PACKAGE:" "rfs" (initial_state default_config [])
              = Ok (0%Z, s')) by (subst s'; vm_compute; reflexivity).
  exists s'. split; [exact H|].
  destruct (set_type_internal_fs_then_get "PACKAGE:" "rfs" _ 0%Z s' H)
    as [(Hr & _)|(_ & i & info & Hlook & Hi & Hget & _ & _ & Hpkg)]; [discriminate|].
  split; [exact Hpkg|].
  vm_compute in Hlook. inversion Hlook; subst i.
  vm_compute in Hi. inversion Hi; subst info. exact Hget.
Defined.

(** ** The outcome of the probe *)

Lemma ensure_root_path_unmounted_total env root_path s i info :
  get_root_info_for_path (g_roots s) root_path = Some i ->
  g_roots s !! i = Some info ->
  exists r s1,
    ensure_root_path_unmounted env root_path s = Ok (r, s1) /\
    g_roots s1 = g_roots s.
Proof.
  intros Hlook Hi.
  assert (H : exists r s1, ensure_root_path_unmounted env root_path s = Ok (r, s1)).
  { rewrite (ensure_root_path_unmounted_resolved env root_path s i info Hlook Hi).
    destruct (mount_point info); [|eauto]. cbv zeta.
    destruct (_ <? 0)%Z; [eauto|]. destruct (List.find _ _); [|eauto].
    unfold unmount_mounted_volume. eauto. }
  destruct H as (r & s1 & H). exists r, s1. split; [exact H|].
  exact (proj1 (tables_ensure_root_path_unmounted env root_path _ _ _ H)).
Qed.

Lemma detect_loop_outcome env root_path i dev options :
  forall s info,
    get_root_info_for_path (g_roots s) root_path = Some i ->
    g_roots s !! i = Some info ->
    device info = Some dev ->
    Forall (trial_fits dev (mount_point info)) options ->
    exists r s',
      detect_loop env root_path (Some i) options s = Ok (r, s') /\
      ((r = 0%Z /\ exists o, In o options /\
                             g_roots s' = <[i := retyped info o]> (g_roots s)) \/
       (r = (-1)%Z /\ g_roots s' = g_roots s)).
Proof.
  induction options as [|o options IH]; intros s info Hlook Hi Hdev Hfit.
  - do 2 eexists. split; [reflexivity|]. right. auto.
  - inversion Hfit as [|? ? Ho Hrest]; subst.
    simpl. unfold bind at 1. unfold load, deref. rewrite Hi, Hdev.
    unfold bind at 1. unfold mount_internal.
    replace (bool_decide (Some (FilesystemOptions.filesystem_options o) = None))
      with false by reflexivity.
    rewrite andb_false_r.
    destruct (decide _) as [Hbig|_]; [unfold trial_fits in Ho; lia|].
    set (cmd := CmdMount _ _ _ _).
    destruct (system_runs env cmd s) as (s1 & Hs1 & Hr1 & _). rewrite Hs1.
    destruct (Z.eqb_spec (system_ret env (length (trace s)) cmd) 0) as [E|E].
    + unfold bind at 1. unfold store_fs. rewrite Hr1, Hi. fold (retyped info o).
      set (s2 := with_roots (<[i := retyped info o]> (g_roots s)) s1).
      assert (Hlook2 : get_root_info_for_path (g_roots s2) root_path = Some i).
      { simpl. rewrite <- Hlook. apply get_root_info_for_path_names.
        eapply map_name_insert; eauto. }
      assert (Hi2 : g_roots s2 !! i = Some (retyped info o)).
      { simpl. apply list_lookup_insert_eq. eapply lookup_lt_Some; eauto. }
      destruct (ensure_root_path_unmounted_total env root_path s2 i _ Hlook2 Hi2)
        as (r3 & s3 & Hun & Hr3).
      unfold bind at 1. rewrite Hun. simpl.
      do 2 eexists. split; [reflexivity|]. left. split; [reflexivity|].
      exists o. split; [left; reflexivity|]. rewrite Hr3. reflexivity.
    + rewrite <- Hr1 in Hlook, Hi.
      destruct (IH s1 info Hlook Hi Hdev Hrest) as (r & s' & Hrun & Hout).
      exists r, s'. split; [exact Hrun|]. rewrite Hr1 in Hout.
      destruct Hout as [(Hz & o' & Hin & Hroots)|Hout]; [|right; exact Hout].
      left. split; [exact Hz|]. exists o'. split; [right; exact Hin|exact Hroots].
Qed.

(** X18.  detect_internal_fs on an entry with a device always returns
    (when the trial command lines fit their buffer).  With result 0 the
    entry carries afterwards the filesystem and the options of one and
    the same [g_fs_options] entry, and nothing else of the table has
    changed; with any other result the table is exactly as before. *)
Theorem detect_internal_fs_outcome env root_path s i info dev :
  get_root_info_for_path (g_roots s) root_path = Some i ->
  g_roots s !! i = Some info ->
  device info = Some dev ->
  Forall (trial_fits dev (mount_point info)) g_fs_options ->
  exists r s',
    detect_internal_fs env root_path s = Ok (r, s') /\
    ((r = 0%Z /\ exists o, In o g_fs_options /\
                           g_roots s' = <[i := retyped info o]> (g_roots s)) \/
     (r <> 0%Z /\ g_roots s' = g_roots s)).
Proof.
  intros Hlook Hi Hdev Hfit. unfold detect_internal_fs.
  unfold bind at 1. unfold lookup_root. rewrite Hlook.
  unfold bind at 1. unfold load, deref. rewrite Hi, Hdev.
  destruct (ensure_root_path_unmounted_total env root_path s i info Hlook Hi)
    as (r0 & s0 & Hun & Hr0).
  unfold bind at 1. rewrite Hun.
  destruct (Z.ltb_spec r0 0).
  - do 2 eexists. split; [reflexivity|]. right. split; [lia|exact Hr0].
  - rewrite <- Hr0 in Hlook, Hi.
    destruct (detect_loop_outcome env root_path i dev g_fs_options s0 info
                Hlook Hi Hdev Hfit) as (r & s' & Hrun & Hout).
    exists r, s'. split; [exact Hrun|]. rewrite Hr0 in Hout.
    destruct Hout as [Hout|(Hz & Hroots)]; [left; exact Hout|].
    right. split; [lia|exact Hroots].
Qed.

Lemma detect_internal_fs_outcome_witness :
  exists r s',
    detect_internal_fs no_mounts "DATA:" (initial_state default_config [])
    = Ok (r, s') /\
    ((r = 0%Z /\ exists o, In o g_fs_options /\
                           g_roots s' = <[1 := retyped data_root o]>
                                          (g_roots_init default_config)) \/
     (r <> 0%Z /\ g_roots s' = g_roots_init default_config)).
Proof.
  apply (detect_internal_fs_outcome no_mounts "DATA:"
           (initial_state default_config []) 1 data_root
           (Lit "/dev/block/mmcblk0p2"));
    [reflexivity|reflexivity|reflexivity|].
  repeat constructor; unfold trial_fits; vm_compute; lia.
Defined.

(** X19.  The candidates are tried in table order and the first that
    mounts wins: when the probe gets past its initial unmount and the
    trial mount of the first candidate ("rfs") exits with 0, the entry is
    typed "rfs" and the probe returns 0 after that single mount command,
    the second candidate is never tried. *)
Theorem detect_internal_fs_first_candidate env root_path s i info dev r0 s0 :
  get_root_info_for_path (g_roots s) root_path = Some i ->
  g_roots s !! i = Some info ->
  device info = Some dev ->
  trial_fits dev (mount_point info) rfs_options ->
  ensure_root_path_unmounted env root_path s = Ok (r0, s0) ->
  (0 <= r0)%Z ->
  let cmd := CmdMount "rfs" "llw,check=no" (cstr dev) (cstr <$> mount_point info) in
  system_ret env (length (trace s0)) cmd = 0%Z ->
  exists s' calls,
    detect_internal_fs env root_path s = Ok (0%Z, s') /\
    g_roots s' = <[i := retyped info rfs_options]> (g_roots s) /\
    trace s' = trace s0 ++ EvSystem cmd :: calls /\
    Forall (fun e => is_mount_event e = false) calls.
Proof.
  intros Hlook Hi Hdev Hfit Hun Hr0 cmd Hsys. unfold detect_internal_fs.
  unfold bind at 1. unfold lookup_root. rewrite Hlook.
  unfold bind at 1. unfold load, deref. rewrite Hi, Hdev.
  unfold bind at 1. rewrite Hun.
  destruct (Z.ltb_spec r0 0); [lia|].
  destruct (tables_ensure_root_path_unmounted env root_path _ _ _ Hun) as (Hroots0 & _).
  simpl. unfold bind at 1. unfold load, deref. rewrite Hroots0, Hi, Hdev.
  unfold bind at 1. unfold mount_internal.
  replace (bool_decide (Some "llw,check=no" = None)) with false by reflexivity.
  rewrite andb_false_r. fold cmd.
  destruct (decide _) as [Hbig|_];
    [unfold trial_fits, rfs_options in Hfit;
     cbn [FilesystemOptions.filesystem FilesystemOptions.filesystem_options] in Hfit;
     fold cmd in Hfit; lia|].
  destruct (system_runs env cmd s0) as (s1 & Hs1 & Hr1 & _).
  pose proof (emits_system env cmd _ _ _ Hs1) as Ht1.
  rewrite Hs1, Hsys. simpl.
  unfold bind at 1. unfold store_fs. rewrite Hr1, Hroots0, Hi.
  change (with_roots _ s1)
    with (with_roots (<[i := retyped info rfs_options]> (g_roots s)) s1).
  set (s2 := with_roots (<[i := retyped info rfs_options]> (g_roots s)) s1).
  assert (Hlook2 : get_root_info_for_path (g_roots s2) root_path = Some i).
  { simpl. rewrite <- Hlook. apply get_root_info_for_path_names.
    eapply map_name_insert; eauto. }
  assert (Hi2 : g_roots s2 !! i = Some (retyped info rfs_options)).
  { simpl. apply list_lookup_insert_eq. eapply lookup_lt_Some; eauto. }
  destruct (ensure_root_path_unmounted_total env root_path s2 i _ Hlook2 Hi2)
    as (r3 & s3 & Hun3 & Hr3).
  destruct (no_mount_ensure_root_path_unmounted env root_path _ _ _ Hun3)
    as (calls & Ht3 & Hcalls).
  unfold bind at 1. rewrite Hun3. simpl.
  exists s3, calls. split; [reflexivity|]. split; [rewrite Hr3; reflexivity|].
  split; [|exact Hcalls].
  rewrite Ht3. simpl. rewrite Ht1, <- app_assoc. reflexivity.
Qed.

Lemma detect_internal_fs_first_candidate_witness :
  exists s' calls,
    detect_internal_fs calm "DATA:" (initial_state default_config []) = Ok (0%Z, s') /\
    g_roots s' = <[1 := retyped data_root rfs_options]> (g_roots_init default_config) /\
    trace s' = [EvScanMountedVolumes; EvFindMountedVolume "/data"]
               ++ EvSystem (CmdMount "rfs" "llw,check=no" "/dev/block/mmcblk0p2"
                                     (Some "/data")) :: calls /\
    Forall (fun e => is_mount_event e = false) calls.
Proof.
  apply (detect_internal_fs_first_candidate calm "DATA:"
           (initial_state default_config []) 1 data_root (Lit "/dev/block/mmcblk0p2")
           0%Z
           (logged (EvFindMountedVolume "/data")
              (logged EvScanMountedVolumes (initial_state default_config []))));
    try reflexivity.
  unfold trial_fits. vm_compute. lia.
Defined.

(** ** More on formatting *)

(** X20.  Formatting a raw (or "yaffs2") volume on the MTD marker device
    whose partition is found: the partition is opened, erased and closed
    and no generic format branch runs.  A write context that was opened
    is always closed, also after a failed erase.  The result is 0 exactly
    when the open, the erase and the close all succeeded, -1 otherwise. *)
Theorem format_root_device_mtd_erase env root s s0 i info pn fs p :
  get_root_info_for_path (g_roots s) root = Some i ->
  g_roots s !! i = Some info ->
  device info = Some g_mtd_device ->
  partition_name info = Some pn ->
  filesystem info = Some fs ->
  fs = g_raw \/ cstr fs = "yaffs2" ->
  match mount_point info with
  | None => s0 = s
  | Some _ => exists r, ensure_root_path_unmounted env root s = Ok (r, s0) /\ (0 <= r)%Z
  end ->
  List.find (fun q => String.eqb (mtd_name q) (cstr pn))
            (mtd_table env (length (trace s0))) = Some p ->
  let t := length (trace s0) in
  let w := {| mtd_written := p |} in
  exists s',
    format_root_device env root s
    = Ok (if mtd_write_opens env (t + 2) p
          then if (mtd_erase_ret env (t + 3) w =? -1)%Z then (-1)%Z
               else if (mtd_close_ret env (t + 4) w =? 0)%Z then 0%Z else (-1)%Z
          else (-1)%Z, s') /\
    trace s' = trace s0 ++ [EvMtdScan; EvMtdFind (Some (cstr pn)); EvMtdWritePartition p]
                        ++ (if mtd_write_opens env (t + 2) p
                            then [EvMtdEraseBlocks w; EvMtdWriteClose w] else []).
Proof.
  intros Hlook Hi Hdev Hpn Hfs Hraw Hstage Hfind t w.
  assert (Hrun : exists s',
             format_device env root info g_mtd_device s0
             = Ok (if mtd_write_opens env (t + 2) p
                   then if (mtd_erase_ret env (t + 3) w =? -1)%Z then (-1)%Z
                        else if (mtd_close_ret env (t + 4) w =? 0)%Z then 0%Z
                             else (-1)%Z
                   else (-1)%Z, s') /\
             trace s' = trace s0 ++ [EvMtdScan; EvMtdFind (Some (cstr pn));
                                     EvMtdWritePartition p]
                                 ++ (if mtd_write_opens env (t + 2) p
                                     then [EvMtdEraseBlocks w; EvMtdWriteClose w]
                                     else [])).
  { unfold format_device.
    unfold bind, ret, mtd_scan_partitions, mtd_find_partition_by_name,
      mtd_write_partition, mtd_erase_blocks, mtd_write_close.
    rewrite Hdev, Hpn, Hfs. simpl. rewrite Hfind.
    assert (Hsel : ptr_is (Some fs) g_raw || strcmp_eq (cstr fs) "yaffs2" = true).
    { destruct Hraw as [->|E]; [reflexivity|].
      rewrite E. apply orb_true_r. }
    rewrite Hsel. simpl. rewrite !length_app. simpl.
    replace (length (trace s0) + 1 + 1) with (t + 2) by (unfold t; lia).
    destruct (mtd_write_opens env (t + 2) p).
    - simpl. rewrite !length_app. simpl.
      replace (length (trace s0) + 1 + 1 + 1) with (t + 3) by (unfold t; lia).
      fold w. destruct (mtd_erase_ret env (t + 3) w =? -1)%Z; simpl.
      + eexists. split; [reflexivity|]. simpl. rewrite <- !app_assoc. reflexivity.
      + rewrite !length_app. simpl.
        replace (length (trace s0) + 1 + 1 + 1 + 1) with (t + 4) by (unfold t; lia).
        destruct (mtd_close_ret env (t + 4) w =? 0)%Z; simpl;
          eexists; (split; [reflexivity|]); simpl; rewrite <- !app_assoc; reflexivity.
    - eexists. split; [reflexivity|]. simpl. rewrite <- !app_assoc. reflexivity. }
  destruct Hrun as (s' & Hrun & Htrace). exists s'. split; [|exact Htrace].
  unfold format_root_device.
  unfold bind at 1. unfold lookup_root. rewrite Hlook.
  unfold bind at 1. unfold load, deref. rewrite Hi, Hdev.
  destruct (mount_point info) as [mp|].
  - destruct Hstage as (r & Hun & Hr). unfold bind at 1. rewrite Hun.
    destruct (Z.ltb_spec r 0); [lia|]. exact Hrun.
  - subst s0. exact Hrun.
Qed.

Lemma format_root_device_mtd_erase_witness :
  exists s',
    format_root_device erase_fails "BOOT:" (initial_state default_config [])
    = Ok ((-1)%Z, s') /\
    trace s' = [EvMtdScan; EvMtdFind (Some "boot");
                EvMtdWritePartition {| mtd_name := "boot" |};
                EvMtdEraseBlocks {| mtd_written := {| mtd_name := "boot" |} |};
                EvMtdWriteClose {| mtd_written := {| mtd_name := "boot" |} |}].
Proof.
  destruct (format_root_device_mtd_erase erase_fails "BOOT:"
              (initial_state default_config []) (initial_state default_config [])
              5 (mkRoot "BOOT:" (Some g_mtd_device) None (str "boot") None
                        (Some g_raw) None)
              (Lit "boot") g_raw {| mtd_name := "boot" |})
    as (s' & Hrun & Htrace);
    [reflexivity|reflexivity|reflexivity|reflexivity|reflexivity|left; reflexivity
    |reflexivity|reflexivity|].
  exists s'. split; [exact Hrun|exact Htrace].
Defined.

(** X21.  Formatting an "rfs" volume on an ordinary device runs
    "stl.format <device>" and returns 0 when it exits with 0, -1
    otherwise; the command is built in a 32-byte array, which the device
    path overflows exactly when it is longer than 20 characters. *)
Theorem format_root_device_rfs env root s s0 i info d fs :
  get_root_info_for_path (g_roots s) root = Some i ->
  g_roots s !! i = Some info ->
  device info = Some (Lit d) ->
  filesystem info = Some fs ->
  cstr fs = "rfs" ->
  match mount_point info with
  | None => s0 = s
  | Some _ => exists r, ensure_root_path_unmounted env root s = Ok (r, s0) /\ (0 <= r)%Z
  end ->
  format_root_device env root s
  = if decide (20 < strlen d) then Crash
    else Ok (if (system_ret env (length (trace s0)) (CmdStlFormat d) =? 0)%Z
             then 0%Z else (-1)%Z,
             logged (EvSystem (CmdStlFormat d)) s0).
Proof.
  intros Hlook Hi Hdev Hfs Hrfs Hstage.
  assert (Hrun : format_device env root info (Lit d) s0
                 = if decide (20 < strlen d) then Crash
                   else Ok (if (system_ret env (length (trace s0)) (CmdStlFormat d) =? 0)%Z
                            then 0%Z else (-1)%Z,
                            logged (EvSystem (CmdStlFormat d)) s0)).
  { unfold format_device, format_mmc, format_generic. rewrite Hdev, Hfs, Hrfs.
    change (ptr_is (Some (Lit d)) g_mtd_device) with false.
    change (ptr_is (Some (Lit d)) g_mmc_device) with false.
    change (strcmp_eq "rfs" "rfs") with true. cbv iota.
    change (cstr (Lit d)) with d.
    assert (Hlen : strlen (render (CmdStlFormat d)) + 1 = 12 + strlen d).
    { unfold render. rewrite strlen_append. change (strlen "stl.format ") with 11. lia. }
    destruct (decide (32 < _)) as [Hbig|Hfit];
      destruct (decide (20 < strlen d)) as [Hd|Hd]; try lia; [reflexivity|].
    unfold bind, __system, ret.
    destruct (system_ret env (length (trace s0)) (CmdStlFormat d) =? 0)%Z; reflexivity. }
  unfold format_root_device.
  unfold bind at 1. unfold lookup_root. rewrite Hlook.
  unfold bind at 1. unfold load, deref. rewrite Hi, Hdev.
  destruct (mount_point info) as [mp|].
  - destruct Hstage as (r & Hun & Hr). unfold bind at 1. rewrite Hun.
    destruct (Z.ltb_spec r 0); [lia|]. exact Hrun.
  - subst s0. exact Hrun.
Qed.

Lemma format_root_device_rfs_witness :
  format_root_device calm "DATA:" (initial_state rfs_board [])
  = Ok (0%Z, logged (EvSystem (CmdStlFormat "/dev/block/mmcblk0p2"))
               (logged (EvFindMountedVolume "/data")
                  (logged EvScanMountedVolumes (initial_state rfs_board [])))) /\
  format_root_device calm "DATADATA:" (initial_state rfs_board []) = Crash.
Proof.
  split.
  - apply (format_root_device_rfs calm "DATA:" (initial_state rfs_board [])
             (logged (EvFindMountedVolume "/data")
                (logged EvScanMountedVolumes (initial_state rfs_board [])))
             1 (mkRoot "DATA:" (str "/dev/block/mmcblk0p2") None (str "userdata")
                       (str "/data") (str "rfs") None)
             "/dev/block/mmcblk0p2" (Lit "rfs"));
      try reflexivity.
    exists 0%Z. split; reflexivity.
  - apply (format_root_device_rfs calm "DATADATA:" (initial_state rfs_board [])
             (logged (EvFindMountedVolume "/dbdata")
                (logged EvScanMountedVolumes (initial_state rfs_board [])))
             2 (mkRoot "DATADATA:" (str "/dev/block/mmcblk0p10") None (str "datadata")
                       (str "/dbdata") (str "rfs") None)
             "/dev/block/mmcblk0p10" (Lit "rfs"));
      try reflexivity.
    exists 0%Z. split; reflexivity.
Defined.

(** ** More on the package binding *)

(** X22.  Binding a second archive replaces the first archive and path
    without freeing the path duplicated by the first bind; unbinding then
    frees the path of the second bind only and clears both the archive
    and the path. *)
Theorem register_package_root_rebinding env s z1 p1 z2 p2 q :
  strdup_ok env (length (trace s)) p1 = true ->
  strdup_ok env (length (trace s) + 1) p2 = true ->
  exists s1 s2 s3,
    register_package_root env (Some z1) (Some p1) s = Ok (0%Z, s1) /\
    register_package_root env (Some z2) (Some p2) s1 = Ok (0%Z, s2) /\
    g_package s2 = Some z2 /\ g_package_path s2 = Some p2 /\
    trace s2 = trace s ++ [EvStrdup p1; EvStrdup p2] /\
    register_package_root env None q s2 = Ok (0%Z, s3) /\
    g_package s3 = None /\ g_package_path s3 = None /\
    trace s3 = trace s ++ [EvStrdup p1; EvStrdup p2; EvFree (Some p2)] /\
    g_roots s3 = g_roots s.
Proof.
  intros H1 H2.
  do 3 eexists. split; [apply (register_package_root_bound env s z1 p1 H1)|].
  split.
  - apply register_package_root_bound. simpl. rewrite length_app. simpl. exact H2.
  - split; [reflexivity|]. split; [reflexivity|].
    split; [simpl; rewrite <- app_assoc; reflexivity|].
    split; [apply register_package_root_cleared|].
    split; [reflexivity|]. split; [reflexivity|].
    split; [simpl; rewrite <- !app_assoc; reflexivity|reflexivity].
Qed.

Lemma register_package_root_rebinding_witness :
  exists s3,
    g_package s3 = None /\ g_package_path s3 = None /\
    trace s3 = [] ++ [EvStrdup "a.zip"; EvStrdup "b.zip"; EvFree (Some "b.zip")].
Proof.
  destruct (register_package_root_rebinding calm (initial_state default_config [])
              1 "a.zip" 2 "b.zip" None)
    as (s1 & s2 & s3 & _ & _ & _ & _ & _ & _ & Hp & Hpp & Ht & _);
    [reflexivity|reflexivity|].
  exists s3. auto.
Defined.

(** ** get_root_mtd_partition *)

(** X23.  Without BOARD_HAS_MTD_CACHE, get_root_mtd_partition returns NULL
    without rescanning anything for a path that does not resolve or whose
    entry is not on the MTD marker device or has no partition name; and a
    partition it returns belongs to an entry on the MTD marker device,
    carries the partition name of that entry and comes from the partition
    table just rescanned. *)
Theorem get_root_mtd_partition_plain env root_path s :
  ((get_root_info_for_path (g_roots s) root_path = None \/
    exists i info,
      get_root_info_for_path (g_roots s) root_path = Some i /\
      g_roots s !! i = Some info /\
      (device info <> Some g_mtd_device \/ partition_name info = None)) ->
   get_root_mtd_partition env false root_path s = Ok (None, s)) /\
  (forall p s',
     get_root_mtd_partition env false root_path s = Ok (Some p, s') ->
     exists i info pn,
       get_root_info_for_path (g_roots s) root_path = Some i /\
       g_roots s !! i = Some info /\
       device info = Some g_mtd_device /\
       partition_name info = Some pn /\
       mtd_name p = cstr pn /\
       In p (mtd_table env (length (trace s))) /\
       trace s' = trace s ++ [EvMtdScan; EvMtdFind (Some (cstr pn))]).
Proof.
  unfold get_root_mtd_partition.
  unfold bind, lookup_root, load, deref, ret, mtd_scan_partitions,
    mtd_find_partition_by_name.
  split.
  - intros [Hlook|(i & info & Hlook & Hi & Hno)]; rewrite Hlook; [reflexivity|].
    rewrite Hi. destruct Hno as [Hdev|Hpn].
    + unfold ptr_is. rewrite bool_decide_eq_false_2 by exact Hdev. reflexivity.
    + rewrite Hpn. rewrite orb_true_r. reflexivity.
  - intros p s' H.
    destruct (get_root_info_for_path (g_roots s) root_path) as [i|] eqn:Hlook;
      [|discriminate].
    destruct (g_roots s !! i) as [info|] eqn:Hi; [|discriminate].
    unfold ptr_is in H.
    destruct (bool_decide_reflect (device info = Some g_mtd_device)) as [Hdev|Hdev];
      [|discriminate].
    destruct (partition_name info) as [pn|] eqn:Hpn; [|discriminate].
    simpl in H. rewrite Hi in H. rewrite Hpn in H. simpl in H.
    destruct (List.find _ _) as [p'|] eqn:Hfind; [|discriminate].
    inversion H; subst p' s'; clear H.
    apply List.find_some in Hfind as [Hin Hname]. apply String.eqb_eq in Hname.
    exists i, info, pn. repeat split; auto.
    simpl. rewrite <- app_assoc. reflexivity.
Qed.

Lemma get_root_mtd_partition_plain_witness :
  get_root_mtd_partition calm false "CACHE:" (initial_state default_config [])
  = Ok (None, initial_state default_config []).
Proof.
  apply (proj1 (get_root_mtd_partition_plain calm "CACHE:"
                  (initial_state default_config []))).
  right. exists 0, cache_root.
  split; [reflexivity|]. split; [reflexivity|]. left. discriminate.
Defined.

(** X24.  With BOARD_HAS_MTD_CACHE, the path "CACHE:" (exactly that string,
    not a path under it) skips the device test: its partition name is
    looked up in the rescanned partition table although the entry is not
    on the MTD marker device.  Every other path is treated as without the
    switch. *)
Theorem get_root_mtd_partition_cache env root_path s :
  (root_path <> "CACHE:" ->
   get_root_mtd_partition env true root_path s
   = get_root_mtd_partition env false root_path s) /\
  (forall i info pn,
     root_path = "CACHE:" ->
     get_root_info_for_path (g_roots s) root_path = Some i ->
     g_roots s !! i = Some info ->
     partition_name info = Some pn ->
     exists s',
       get_root_mtd_partition env true root_path s
       = Ok (List.find (fun q => String.eqb (mtd_name q) (cstr pn))
                       (mtd_table env (length (trace s))), s') /\
       trace s' = trace s ++ [EvMtdScan; EvMtdFind (Some (cstr pn))]).
Proof.
  unfold get_root_mtd_partition. split.
  - intros Hne.
    assert (E : strcmp_eq root_path "CACHE:" = false).
    { unfold strcmp_eq. apply String.eqb_neq. exact Hne. }
    rewrite E. reflexivity.
  - intros i info pn -> Hlook Hi Hpn.
    unfold bind, lookup_root, load, deref, ret, mtd_scan_partitions,
      mtd_find_partition_by_name.
    rewrite Hlook, Hi, Hpn.
    change (strcmp_eq "CACHE:" "CACHE:") with true.
    destruct (negb (ptr_is (device info) g_mtd_device) || bool_decide (Some pn = None));
      simpl; rewrite ?Hi; simpl; rewrite ?Hpn; simpl;
      (eexists; split; [reflexivity|]); simpl; rewrite <- app_assoc; reflexivity.
Qed.

Lemma get_root_mtd_partition_cache_witness :
  exists s',
    get_root_mtd_partition calm true "CACHE:" (initial_state default_config [])
    = Ok (None, s') /\
    trace s' = [] ++ [EvMtdScan; EvMtdFind (Some "cache")].
Proof.
  destruct (proj2 (get_root_mtd_partition_cache calm "CACHE:"
                     (initial_state default_config []))
              0 cache_root (Lit "cache") eq_refl eq_refl eq_refl eq_refl)
    as (s' & Hrun & Htrace).
  exists s'. split; [exact Hrun|exact Htrace].
Defined.

(** ** Paths that do not resolve, entries without device *)

(** X25.  A path that does not resolve is refused by every operation
    before anything is done: the five operations that return a status
    return -1, the getters return "error" or NULL, the package test says
    no, both translations and the MTD partition lookup return NULL, and
    the state is untouched. *)
Theorem unresolved_root_path_refused env root_path s :
  get_root_info_for_path (g_roots s) root_path = None ->
  ensure_root_path_mounted env root_path s = Ok ((-1)%Z, s) /\
  ensure_root_path_unmounted env root_path s = Ok ((-1)%Z, s) /\
  is_root_path_mounted env root_path s = Ok ((-1)%Z, s) /\
  detect_internal_fs env root_path s = Ok ((-1)%Z, s) /\
  format_root_device env root_path s = Ok ((-1)%Z, s) /\
  get_type_internal_fs root_path s = Ok (str "error", s) /\
  get_dev_for_root root_path s = Ok (None, s) /\
  get_mount_point_for_root root_path s = Ok (None, s) /\
  is_package_root_path root_path s = Ok (false, s) /\
  get_root_mtd_partition env false root_path s = Ok (None, s) /\
  (forall out_buf out_buf_len,
     translate_root_path (g_roots s) root_path out_buf out_buf_len = Ok None) /\
  (forall out_buf out_buf_len,
     translate_package_root_path (g_roots s) (g_package s) root_path out_buf out_buf_len
     = Ok None).
Proof.
  intros H.
  unfold ensure_root_path_mounted, ensure_root_path_unmounted, is_root_path_mounted,
    detect_internal_fs, format_root_device, get_type_internal_fs, get_dev_for_root,
    get_mount_point_for_root, is_package_root_path, get_root_mtd_partition,
    translate_root_path, translate_package_root_path, bind, lookup_root.
  rewrite H. repeat split; try reflexivity.
  intros out_buf out_buf_len. destruct (decide _); reflexivity.
Qed.

Lemma unresolved_root_path_refused_witness :
  format_root_device calm "SYSTEM" (initial_state default_config [])
  = Ok ((-1)%Z, initial_state default_config []).
Proof.
  destruct (unresolved_root_path_refused calm "SYSTEM"
              (initial_state default_config []) eq_refl)
    as (_ & _ & _ & _ & H & _).
  exact H.
Defined.

(** X26.  An entry without device (TMP:, PACKAGE:) resolves, yet the probe
    and the formatter refuse it with -1 before any call, and the getters
    answer as for an unknown root: get_type_internal_fs returns "error"
    and get_mount_point_for_root returns NULL even when the entry has a
    mount point. *)
Theorem root_without_device_refused env root_path s i info :
  get_root_info_for_path (g_roots s) root_path = Some i ->
  g_roots s !! i = Some info ->
  device info = None ->
  detect_internal_fs env root_path s = Ok ((-1)%Z, s) /\
  format_root_device env root_path s = Ok ((-1)%Z, s) /\
  get_type_internal_fs root_path s = Ok (str "error", s) /\
  get_dev_for_root root_path s = Ok (None, s) /\
  get_mount_point_for_root root_path s = Ok (None, s).
Proof.
  intros Hlook Hi Hdev.
  unfold detect_internal_fs, format_root_device, get_type_internal_fs,
    get_dev_for_root, get_mount_point_for_root, bind, lookup_root, load, deref.
  rewrite Hlook, Hi, Hdev. repeat split; reflexivity.
Qed.

Lemma root_without_device_refused_witness :
  get_mount_point_for_root "TMP:" (initial_state default_config [])
  = Ok (None, initial_state default_config []) /\
  mount_point tmp_root = str "/tmp".
Proof.
  destruct (root_without_device_refused calm "TMP:" (initial_state default_config [])
              10 tmp_root eq_refl eq_refl eq_refl) as (_ & _ & _ & _ & H).
  split; [exact H|reflexivity].
Defined.

(** X27.  An entry that is not on the MTD marker device and lacks a
    device, a mount point or a filesystem, or whose filesystem is the raw
    or the package marker, cannot be mounted: ensure_root_path_mounted
    returns 0 only if the volume is already reported mounted and -1
    otherwise, and in neither case calls a mount primitive or changes the
    mount table. *)
Theorem ensure_root_path_mounted_unmountable env root_path s i info :
  get_root_info_for_path (g_roots s) root_path = Some i ->
  g_roots s !! i = Some info ->
  device info <> Some g_mtd_device ->
  device info = None \/ mount_point info = None \/ filesystem info = None \/
  filesystem info = Some g_raw \/ filesystem info = Some g_package_file ->
  exists s' calls,
    ensure_root_path_mounted env root_path s
    = Ok (if (reported_mounted env info s =? 1)%Z then 0%Z else (-1)%Z, s') /\
    trace s' = trace s ++ calls /\
    Forall (fun e => is_mount_event e = false) calls /\
    mounts s' = mounts s.
Proof.
  intros Hlook Hi Hdev Hlack.
  assert (Hrest : forall s0, g_roots s0 = g_roots s ->
                    mount_root_device env (Some i) s0 = Ok ((-1)%Z, s0)).
  { intros s0 Hr. unfold mount_root_device, bind, load, deref. rewrite Hr, Hi.
    unfold ptr_is at 1. rewrite bool_decide_eq_false_2 by exact Hdev.
    destruct (device info) as [d|]; [|reflexivity].
    destruct (mount_point info) as [mp|]; [|reflexivity].
    destruct (filesystem info) as [fs|]; [|reflexivity].
    destruct Hlack as [H|[H|[H|[H|H]]]]; try discriminate;
      inversion H; subst; reflexivity. }
  unfold ensure_root_path_mounted.
  unfold bind at 1. unfold lookup_root. rewrite Hlook.
  unfold bind at 1. rewrite (internal_root_mounted_resolved env s i info Hi).
  unfold reported_mounted. destruct (mount_point info) as [mp|].
  - cbv zeta.
    destruct (Z.ltb_spec (scan_mounted_volumes_ret env (length (trace s))) 0) as [Hs|Hs].
    + destruct (Z.leb_spec 0 (scan_mounted_volumes_ret env (length (trace s))));
        [lia|].
      rewrite Hrest by reflexivity.
      exists (logged EvScanMountedVolumes s), [EvScanMountedVolumes].
      split; [reflexivity|]. split; [reflexivity|].
      split; [repeat constructor|reflexivity].
    + pose proof (find_mounted_at (cstr mp) (mounts s)) as Hf.
      destruct (List.find _ _) as [v|].
      * destruct Hf as [Hm _]. rewrite Hm. simpl.
        eexists. exists [EvScanMountedVolumes; EvFindMountedVolume (cstr mp)].
        split; [reflexivity|]. simpl.
        split; [rewrite <- app_assoc; reflexivity|].
        split; [repeat constructor|reflexivity].
      * rewrite Hf. simpl. rewrite Hrest by reflexivity.
        eexists. exists [EvScanMountedVolumes; EvFindMountedVolume (cstr mp)].
        split; [reflexivity|]. simpl.
        split; [rewrite <- app_assoc; reflexivity|].
        split; [repeat constructor|reflexivity].
  - simpl. rewrite Hrest by reflexivity.
    exists s, []. split; [reflexivity|].
    split; [symmetry; apply app_nil_r|]. split; [constructor|reflexivity].
Qed.

Lemma ensure_root_path_mounted_unmountable_witness :
  exists s' calls,
    ensure_root_path_mounted calm "TMP:"
      (initial_state default_config [mk_volume "tmpfs" "/tmp" "tmpfs"])
    = Ok (0%Z, s') /\
    trace s' = [] ++ calls /\
    Forall (fun e => is_mount_event e = false) calls.
Proof.
  destruct (ensure_root_path_mounted_unmountable calm "TMP:"
              (initial_state default_config [mk_volume "tmpfs" "/tmp" "tmpfs"])
              10 tmp_root eq_refl eq_refl)
    as (s' & calls & Hrun & Ht & Hc & _);
    [discriminate|left; reflexivity|].
  exists s', calls. split; [exact Hrun|]. split; [exact Ht|exact Hc].
Defined.
